(** * Aureus metal engine: composition catalog, year rules, spot-price
      oracle and melt-value calculator.

    Shallow embedding of the Go package [internal/metals]
    (compositions, year_based_compositions.go, spotprices.go) together with
    the year dispatch that the coin handlers perform before calling it.

    Go's [float64] is Rocq's primitive binary64 [float]; Go's [int] years are
    [Z]; a Go [string] is a byte string ([string] of [ascii]); the
    [map[string]MetalComposition] literal is a [gmap string _]; the package
    globals [cachedPrices] and [lastFetchTime] are fields of an explicit
    program state threaded through a small state monad, next to the clock and
    the two HTTP price feeds the package talks to. *)

From Stdlib Require Import ZArith Lia Bool List Ascii String Floats.
From stdpp Require Import base option list strings gmap.

Set Warnings "-inexact-float".
Local Open Scope string_scope.
Local Open Scope list_scope.

(** ** Compositions (compositions database) *)

Record MetalComposition := {
  Name : string;            (* coin type name *)
  MetalType : string;       (* primary metal: silver, gold, copper, ... *)
  Weight : float;           (* troy ounces, precious metals *)
  Purity : float;           (* purity percentage *)
  Description : string;
  IsBaseMetal : bool;       (* copper/nickel alloy coin *)
  WeightGrams : float;      (* total weight in grams, base metals *)
  CopperPercent : float;
  NickelPercent : float
}.

(** The zero value [MetalComposition{}]. *)
Definition zeroComposition : MetalComposition :=
  {| Name := ""; MetalType := ""; Weight := 0; Purity := 0; Description := "";
     IsBaseMetal := false; WeightGrams := 0; CopperPercent := 0;
     NickelPercent := 0 |}.

Definition CommonCompositions : gmap string MetalComposition :=
  list_to_map [
    ("Morgan Dollar",
     {| Name := "Morgan Dollar";
        MetalType := "silver"; Weight := 0.77344; Purity := 90;
        Description := "Contains 0.77344 oz of silver (90% silver, 10% copper)";
        IsBaseMetal := false; WeightGrams := 0; CopperPercent := 0; NickelPercent := 0 |});
    ("Peace Dollar",
     {| Name := "Peace Dollar";
        MetalType := "silver"; Weight := 0.77344; Purity := 90;
        Description := "Contains 0.77344 oz of silver (90% silver, 10% copper)";
        IsBaseMetal := false; WeightGrams := 0; CopperPercent := 0; NickelPercent := 0 |});
    ("Eisenhower Dollar",
     {| Name := "Eisenhower Dollar";
        MetalType := "copper"; Weight := 0.0; Purity := 0;
        Description := "Copper-nickel clad, no precious metal content";
        IsBaseMetal := false; WeightGrams := 0; CopperPercent := 0; NickelPercent := 0 |});
    ("Walking Liberty Half Dollar",
     {| Name := "Walking Liberty Half Dollar";
        MetalType := "silver"; Weight := 0.36169; Purity := 90;
        Description := "Contains 0.36169 oz of silver (90% silver, 10% copper)";
        IsBaseMetal := false; WeightGrams := 0; CopperPercent := 0; NickelPercent := 0 |});
    ("Franklin Half Dollar",
     {| Name := "Franklin Half Dollar";
        MetalType := "silver"; Weight := 0.36169; Purity := 90;
        Description := "Contains 0.36169 oz of silver (90% silver, 10% copper)";
        IsBaseMetal := false; WeightGrams := 0; CopperPercent := 0; NickelPercent := 0 |});
    ("Kennedy Half Dollar",
     {| Name := "Kennedy Half Dollar (1964)";
        MetalType := "silver"; Weight := 0.36169; Purity := 90;
        Description := "1964 only: 90% silver. 1965-1970: 40% silver. 1971+: no silver";
        IsBaseMetal := false; WeightGrams := 0; CopperPercent := 0; NickelPercent := 0 |});
    ("Washington Quarter",
     {| Name := "Washington Quarter (Pre-1965)";
        MetalType := "silver"; Weight := 0.18084; Purity := 90;
        Description := "Pre-1965 only: Contains 0.18084 oz of silver (90% silver)";
        IsBaseMetal := false; WeightGrams := 0; CopperPercent := 0; NickelPercent := 0 |});
    ("Standing Liberty Quarter",
     {| Name := "Standing Liberty Quarter";
        MetalType := "silver"; Weight := 0.18084; Purity := 90;
        Description := "Contains 0.18084 oz of silver (90% silver, 10% copper)";
        IsBaseMetal := false; WeightGrams := 0; CopperPercent := 0; NickelPercent := 0 |});
    ("Mercury Dime",
     {| Name := "Mercury Dime";
        MetalType := "silver"; Weight := 0.07234; Purity := 90;
        Description := "Contains 0.07234 oz of silver (90% silver, 10% copper)";
        IsBaseMetal := false; WeightGrams := 0; CopperPercent := 0; NickelPercent := 0 |});
    ("Roosevelt Dime",
     {| Name := "Roosevelt Dime (Pre-1965)";
        MetalType := "silver"; Weight := 0.07234; Purity := 90;
        Description := "Pre-1965 only: Contains 0.07234 oz of silver (90% silver)";
        IsBaseMetal := false; WeightGrams := 0; CopperPercent := 0; NickelPercent := 0 |});
    ("Barber Dime",
     {| Name := "Barber Dime";
        MetalType := "silver"; Weight := 0.07234; Purity := 90;
        Description := "Contains 0.07234 oz of silver (90% silver, 10% copper)";
        IsBaseMetal := false; WeightGrams := 0; CopperPercent := 0; NickelPercent := 0 |});
    ("American Gold Eagle (1 oz)",
     {| Name := "American Gold Eagle (1 oz)";
        MetalType := "gold"; Weight := 1.0; Purity := 91.67;
        Description := "Contains 1 troy oz of pure gold (22 karat, 91.67% gold)";
        IsBaseMetal := false; WeightGrams := 0; CopperPercent := 0; NickelPercent := 0 |});
    ("American Gold Eagle (1/2 oz)",
     {| Name := "American Gold Eagle (1/2 oz)";
        MetalType := "gold"; Weight := 0.5; Purity := 91.67;
        Description := "Contains 0.5 troy oz of pure gold (22 karat)";
        IsBaseMetal := false; WeightGrams := 0; CopperPercent := 0; NickelPercent := 0 |});
    ("American Gold Eagle (1/4 oz)",
     {| Name := "American Gold Eagle (1/4 oz)";
        MetalType := "gold"; Weight := 0.25; Purity := 91.67;
        Description := "Contains 0.25 troy oz of pure gold (22 karat)";
        IsBaseMetal := false; WeightGrams := 0; CopperPercent := 0; NickelPercent := 0 |});
    ("American Gold Eagle (1/10 oz)",
     {| Name := "American Gold Eagle (1/10 oz)";
        MetalType := "gold"; Weight := 0.1; Purity := 91.67;
        Description := "Contains 0.1 troy oz of pure gold (22 karat)";
        IsBaseMetal := false; WeightGrams := 0; CopperPercent := 0; NickelPercent := 0 |});
    ("$20 Liberty",
     {| Name := "$20 Liberty Gold Coin";
        MetalType := "gold"; Weight := 0.96750; Purity := 90;
        Description := "Contains 0.96750 oz of pure gold (90% gold)";
        IsBaseMetal := false; WeightGrams := 0; CopperPercent := 0; NickelPercent := 0 |});
    ("$20 Saint Gaudens",
     {| Name := "$20 Saint Gaudens";
        MetalType := "gold"; Weight := 0.96750; Purity := 90;
        Description := "Contains 0.96750 oz of pure gold (90% gold)";
        IsBaseMetal := false; WeightGrams := 0; CopperPercent := 0; NickelPercent := 0 |});
    ("$10 Liberty",
     {| Name := "$10 Liberty Gold Coin";
        MetalType := "gold"; Weight := 0.48375; Purity := 90;
        Description := "Contains 0.48375 oz of pure gold (90% gold)";
        IsBaseMetal := false; WeightGrams := 0; CopperPercent := 0; NickelPercent := 0 |});
    ("$10 Indian",
     {| Name := "$10 Indian Gold Coin";
        MetalType := "gold"; Weight := 0.48375; Purity := 90;
        Description := "Contains 0.48375 oz of pure gold (90% gold)";
        IsBaseMetal := false; WeightGrams := 0; CopperPercent := 0; NickelPercent := 0 |});
    ("$5 Liberty",
     {| Name := "$5 Liberty Gold Coin";
        MetalType := "gold"; Weight := 0.24187; Purity := 90;
        Description := "Contains 0.24187 oz of pure gold (90% gold)";
        IsBaseMetal := false; WeightGrams := 0; CopperPercent := 0; NickelPercent := 0 |});
    ("$5 Indian",
     {| Name := "$5 Indian Gold Coin";
        MetalType := "gold"; Weight := 0.24187; Purity := 90;
        Description := "Contains 0.24187 oz of pure gold (90% gold)";
        IsBaseMetal := false; WeightGrams := 0; CopperPercent := 0; NickelPercent := 0 |});
    ("$2.50 Liberty",
     {| Name := "$2.50 Liberty Gold Coin";
        MetalType := "gold"; Weight := 0.12094; Purity := 90;
        Description := "Contains 0.12094 oz of pure gold (90% gold)";
        IsBaseMetal := false; WeightGrams := 0; CopperPercent := 0; NickelPercent := 0 |});
    ("$2.50 Indian",
     {| Name := "$2.50 Indian Gold Coin";
        MetalType := "gold"; Weight := 0.12094; Purity := 90;
        Description := "Contains 0.12094 oz of pure gold (90% gold)";
        IsBaseMetal := false; WeightGrams := 0; CopperPercent := 0; NickelPercent := 0 |});
    ("$1 Liberty",
     {| Name := "$1 Liberty Gold Coin";
        MetalType := "gold"; Weight := 0.04837; Purity := 90;
        Description := "Contains 0.04837 oz of pure gold (90% gold)";
        IsBaseMetal := false; WeightGrams := 0; CopperPercent := 0; NickelPercent := 0 |});
    ("Buffalo Nickel",
     {| Name := "Buffalo Nickel (1913-1938)";
        MetalType := "copper"; Weight := 0.0; Purity := 0;
        Description := "75% copper, 25% nickel. No precious metal content - base metal only";
        IsBaseMetal := true; WeightGrams := 5.0; CopperPercent := 75.0; NickelPercent := 25.0 |});
    ("Jefferson Nickel",
     {| Name := "Jefferson Nickel";
        MetalType := "copper"; Weight := 0.0; Purity := 0;
        Description := "75% copper, 25% nickel (wartime 1942-1945: 35% silver). No precious metal content in regular strikes";
        IsBaseMetal := true; WeightGrams := 5.0; CopperPercent := 75.0; NickelPercent := 25.0 |});
    ("Jefferson Nickel (Wartime Silver)",
     {| Name := "Jefferson Nickel (1942-1945 Silver)";
        MetalType := "silver"; Weight := 0.05626; Purity := 35;
        Description := "Wartime 1942-1945 with large mintmark above Monticello: 35% silver, 0.05626 oz";
        IsBaseMetal := false; WeightGrams := 0; CopperPercent := 0; NickelPercent := 0 |});
    ("Liberty Nickel",
     {| Name := "Liberty Head Nickel (1883-1913)";
        MetalType := "copper"; Weight := 0.0; Purity := 0;
        Description := "75% copper, 25% nickel. No precious metal content";
        IsBaseMetal := true; WeightGrams := 5.0; CopperPercent := 75.0; NickelPercent := 25.0 |});
    ("Shield Nickel",
     {| Name := "Shield Nickel (1866-1883)";
        MetalType := "copper"; Weight := 0.0; Purity := 0;
        Description := "75% copper, 25% nickel. No precious metal content";
        IsBaseMetal := true; WeightGrams := 5.0; CopperPercent := 75.0; NickelPercent := 25.0 |});
    ("Indian Head Cent",
     {| Name := "Indian Head Cent";
        MetalType := "copper"; Weight := 0.0; Purity := 0;
        Description := "95% copper, 5% tin and zinc. No precious metal content";
        IsBaseMetal := false; WeightGrams := 0; CopperPercent := 0; NickelPercent := 0 |});
    ("Lincoln Cent",
     {| Name := "Lincoln Cent (Pre-1982)";
        MetalType := "copper"; Weight := 0.0; Purity := 0;
        Description := "95% copper, 5% zinc. No precious metal content";
        IsBaseMetal := false; WeightGrams := 0; CopperPercent := 0; NickelPercent := 0 |});
    ("Wheat Penny",
     {| Name := "Wheat Penny (1909-1958)";
        MetalType := "copper"; Weight := 0.0; Purity := 0;
        Description := "95% copper, 5% tin and zinc. No precious metal content";
        IsBaseMetal := false; WeightGrams := 0; CopperPercent := 0; NickelPercent := 0 |});
    ("Steel Penny",
     {| Name := "Steel Penny (1943)";
        MetalType := "copper"; Weight := 0.0; Purity := 0;
        Description := "Zinc-coated steel. No precious metal content";
        IsBaseMetal := false; WeightGrams := 0; CopperPercent := 0; NickelPercent := 0 |});
    ("Three Cent Silver",
     {| Name := "Three Cent Silver (Trime)";
        MetalType := "silver"; Weight := 0.02419; Purity := 75;
        Description := "Contains 0.02419 oz of silver (75% silver, 25% copper)";
        IsBaseMetal := false; WeightGrams := 0; CopperPercent := 0; NickelPercent := 0 |});
    ("Seated Liberty Half Dime",
     {| Name := "Seated Liberty Half Dime";
        MetalType := "silver"; Weight := 0.03617; Purity := 90;
        Description := "Contains 0.03617 oz of silver (90% silver, 10% copper)";
        IsBaseMetal := false; WeightGrams := 0; CopperPercent := 0; NickelPercent := 0 |});
    ("Bust Half Dime",
     {| Name := "Bust Half Dime";
        MetalType := "silver"; Weight := 0.03617; Purity := 89.24;
        Description := "Contains 0.03617 oz of silver (89.24% silver)";
        IsBaseMetal := false; WeightGrams := 0; CopperPercent := 0; NickelPercent := 0 |});
    ("Barber Quarter",
     {| Name := "Barber Quarter";
        MetalType := "silver"; Weight := 0.18084; Purity := 90;
        Description := "Contains 0.18084 oz of silver (90% silver, 10% copper)";
        IsBaseMetal := false; WeightGrams := 0; CopperPercent := 0; NickelPercent := 0 |});
    ("Seated Liberty Quarter",
     {| Name := "Seated Liberty Quarter";
        MetalType := "silver"; Weight := 0.18084; Purity := 90;
        Description := "Contains 0.18084 oz of silver (90% silver, 10% copper)";
        IsBaseMetal := false; WeightGrams := 0; CopperPercent := 0; NickelPercent := 0 |});
    ("Draped Bust Quarter",
     {| Name := "Draped Bust Quarter";
        MetalType := "silver"; Weight := 0.19285; Purity := 89.24;
        Description := "Contains 0.19285 oz of silver (89.24% silver)";
        IsBaseMetal := false; WeightGrams := 0; CopperPercent := 0; NickelPercent := 0 |});
    ("Capped Bust Quarter",
     {| Name := "Capped Bust Quarter";
        MetalType := "silver"; Weight := 0.19285; Purity := 89.24;
        Description := "Contains 0.19285 oz of silver (89.24% silver)";
        IsBaseMetal := false; WeightGrams := 0; CopperPercent := 0; NickelPercent := 0 |});
    ("Barber Half Dollar",
     {| Name := "Barber Half Dollar";
        MetalType := "silver"; Weight := 0.36169; Purity := 90;
        Description := "Contains 0.36169 oz of silver (90% silver, 10% copper)";
        IsBaseMetal := false; WeightGrams := 0; CopperPercent := 0; NickelPercent := 0 |});
    ("Seated Liberty Half Dollar",
     {| Name := "Seated Liberty Half Dollar";
        MetalType := "silver"; Weight := 0.36169; Purity := 90;
        Description := "Contains 0.36169 oz of silver (90% silver, 10% copper)";
        IsBaseMetal := false; WeightGrams := 0; CopperPercent := 0; NickelPercent := 0 |});
    ("Capped Bust Half Dollar",
     {| Name := "Capped Bust Half Dollar";
        MetalType := "silver"; Weight := 0.38570; Purity := 89.24;
        Description := "Contains 0.38570 oz of silver (89.24% silver)";
        IsBaseMetal := false; WeightGrams := 0; CopperPercent := 0; NickelPercent := 0 |});
    ("Draped Bust Half Dollar",
     {| Name := "Draped Bust Half Dollar";
        MetalType := "silver"; Weight := 0.38570; Purity := 89.24;
        Description := "Contains 0.38570 oz of silver (89.24% silver)";
        IsBaseMetal := false; WeightGrams := 0; CopperPercent := 0; NickelPercent := 0 |});
    ("Seated Liberty Dollar",
     {| Name := "Seated Liberty Dollar";
        MetalType := "silver"; Weight := 0.77344; Purity := 90;
        Description := "Contains 0.77344 oz of silver (90% silver, 10% copper)";
        IsBaseMetal := false; WeightGrams := 0; CopperPercent := 0; NickelPercent := 0 |});
    ("Trade Dollar",
     {| Name := "Trade Dollar";
        MetalType := "silver"; Weight := 0.78287; Purity := 90;
        Description := "Contains 0.78287 oz of silver (90% silver, 10% copper)";
        IsBaseMetal := false; WeightGrams := 0; CopperPercent := 0; NickelPercent := 0 |});
    ("Bust Dollar",
     {| Name := "Bust Dollar";
        MetalType := "silver"; Weight := 0.77344; Purity := 89.24;
        Description := "Contains 0.77344 oz of silver (89.24% silver)";
        IsBaseMetal := false; WeightGrams := 0; CopperPercent := 0; NickelPercent := 0 |});
    ("American Silver Eagle",
     {| Name := "American Silver Eagle (1 oz)";
        MetalType := "silver"; Weight := 1.0; Purity := 99.9;
        Description := "Contains 1 troy oz of pure silver (99.9% silver)";
        IsBaseMetal := false; WeightGrams := 0; CopperPercent := 0; NickelPercent := 0 |});
    ("Canadian Maple Leaf (Gold)",
     {| Name := "Canadian Gold Maple Leaf (1 oz)";
        MetalType := "gold"; Weight := 1.0; Purity := 99.99;
        Description := "Contains 1 troy oz of pure gold (99.99% gold)";
        IsBaseMetal := false; WeightGrams := 0; CopperPercent := 0; NickelPercent := 0 |});
    ("Canadian Maple Leaf (Silver)",
     {| Name := "Canadian Silver Maple Leaf (1 oz)";
        MetalType := "silver"; Weight := 1.0; Purity := 99.99;
        Description := "Contains 1 troy oz of pure silver (99.99% silver)";
        IsBaseMetal := false; WeightGrams := 0; CopperPercent := 0; NickelPercent := 0 |});
    ("American Buffalo (Gold)",
     {| Name := "American Gold Buffalo (1 oz)";
        MetalType := "gold"; Weight := 1.0; Purity := 99.99;
        Description := "Contains 1 troy oz of pure gold (99.99% gold - 24 karat)";
        IsBaseMetal := false; WeightGrams := 0; CopperPercent := 0; NickelPercent := 0 |});
    ("Krugerrand",
     {| Name := "South African Krugerrand (1 oz)";
        MetalType := "gold"; Weight := 1.0; Purity := 91.67;
        Description := "Contains 1 troy oz of pure gold (22 karat, 91.67% gold)";
        IsBaseMetal := false; WeightGrams := 0; CopperPercent := 0; NickelPercent := 0 |});
    ("Vienna Philharmonic (Gold)",
     {| Name := "Austrian Gold Philharmonic (1 oz)";
        MetalType := "gold"; Weight := 1.0; Purity := 99.99;
        Description := "Contains 1 troy oz of pure gold (99.99% gold)";
        IsBaseMetal := false; WeightGrams := 0; CopperPercent := 0; NickelPercent := 0 |});
    ("Britannia (Gold)",
     {| Name := "British Gold Britannia (1 oz)";
        MetalType := "gold"; Weight := 1.0; Purity := 99.99;
        Description := "Contains 1 troy oz of pure gold (99.99% gold)";
        IsBaseMetal := false; WeightGrams := 0; CopperPercent := 0; NickelPercent := 0 |});
    ("Britannia (Silver)",
     {| Name := "British Silver Britannia (1 oz)";
        MetalType := "silver"; Weight := 1.0; Purity := 99.9;
        Description := "Contains 1 troy oz of pure silver (99.9% silver)";
        IsBaseMetal := false; WeightGrams := 0; CopperPercent := 0; NickelPercent := 0 |})
  ].

(** ** Year-based composition rules *)

Record YearRange := {
  StartYear : Z;
  EndYear : Z;
  Composition : MetalComposition
}.

Record YearBasedComposition := {
  CoinType : string;
  YearRanges : list YearRange;
  DefaultComp : MetalComposition  (* used if the year matches no range *)
}.

Definition YearBasedCompositions : list YearBasedComposition :=
  [
    {| CoinType := "Kennedy Half Dollar";
       YearRanges := [
         {| StartYear := 1964; EndYear := 1964;
            Composition :=
              {| Name := "Kennedy Half Dollar (1964)";
                 MetalType := "silver"; Weight := 0.36169; Purity := 90;
                 Description := "1964 only: Contains 0.36169 oz of silver (90% silver)";
                 IsBaseMetal := false; WeightGrams := 0; CopperPercent := 0; NickelPercent := 0 |} |};
         {| StartYear := 1965; EndYear := 1970;
            Composition :=
              {| Name := "Kennedy Half Dollar (1965-1970)";
                 MetalType := "silver"; Weight := 0.14792; Purity := 40;
                 Description := "1965-1970: Contains 0.14792 oz of silver (40% silver)";
                 IsBaseMetal := false; WeightGrams := 0; CopperPercent := 0; NickelPercent := 0 |} |}
       ];
       DefaultComp :=
         {| Name := "Kennedy Half Dollar (1971+)";
            MetalType := "copper"; Weight := 0.0; Purity := 0;
            Description := "1971+: Copper-nickel clad, no precious metal content";
            IsBaseMetal := false; WeightGrams := 0; CopperPercent := 0; NickelPercent := 0 |} |};
    {| CoinType := "Washington Quarter";
       YearRanges := [
         {| StartYear := 1932; EndYear := 1964;
            Composition :=
              {| Name := "Washington Quarter (1932-1964)";
                 MetalType := "silver"; Weight := 0.18084; Purity := 90;
                 Description := "1932-1964: Contains 0.18084 oz of silver (90% silver)";
                 IsBaseMetal := false; WeightGrams := 0; CopperPercent := 0; NickelPercent := 0 |} |}
       ];
       DefaultComp :=
         {| Name := "Washington Quarter (1965+)";
            MetalType := "copper"; Weight := 0.0; Purity := 0;
            Description := "1965+: Copper-nickel clad, no precious metal content";
            IsBaseMetal := false; WeightGrams := 0; CopperPercent := 0; NickelPercent := 0 |} |};
    {| CoinType := "Roosevelt Dime";
       YearRanges := [
         {| StartYear := 1946; EndYear := 1964;
            Composition :=
              {| Name := "Roosevelt Dime (1946-1964)";
                 MetalType := "silver"; Weight := 0.07234; Purity := 90;
                 Description := "1946-1964: Contains 0.07234 oz of silver (90% silver)";
                 IsBaseMetal := false; WeightGrams := 0; CopperPercent := 0; NickelPercent := 0 |} |}
       ];
       DefaultComp :=
         {| Name := "Roosevelt Dime (1965+)";
            MetalType := "copper"; Weight := 0.0; Purity := 0;
            Description := "1965+: Copper-nickel clad, no precious metal content";
            IsBaseMetal := false; WeightGrams := 0; CopperPercent := 0; NickelPercent := 0 |} |};
    {| CoinType := "Jefferson Nickel";
       YearRanges := [
         {| StartYear := 1942; EndYear := 1945;
            Composition :=
              {| Name := "Jefferson Nickel (1942-1945 Wartime)";
                 MetalType := "silver"; Weight := 0.05626; Purity := 35;
                 Description := "1942-1945 wartime with large mintmark: 35% silver, 0.05626 oz (Note: Not all 1942 nickels are silver - only those with large mintmark above Monticello)";
                 IsBaseMetal := false; WeightGrams := 0; CopperPercent := 0; NickelPercent := 0 |} |}
       ];
       DefaultComp :=
         {| Name := "Jefferson Nickel (Regular)";
            MetalType := "copper"; Weight := 0.0; Purity := 0;
            Description := "75% copper, 25% nickel. No precious metal content";
            IsBaseMetal := true; WeightGrams := 5.0; CopperPercent := 75.0; NickelPercent := 25.0 |} |};
    {| CoinType := "Lincoln Cent";
       YearRanges := [
         {| StartYear := 1909; EndYear := 1942;
            Composition :=
              {| Name := "Lincoln Cent (1909-1942)";
                 MetalType := "copper"; Weight := 0.0; Purity := 0;
                 Description := "95% copper, 5% tin and zinc. No precious metal content";
                 IsBaseMetal := false; WeightGrams := 0; CopperPercent := 0; NickelPercent := 0 |} |};
         {| StartYear := 1943; EndYear := 1943;
            Composition :=
              {| Name := "Lincoln Cent (1943 Steel)";
                 MetalType := "copper"; Weight := 0.0; Purity := 0;
                 Description := "1943: Zinc-coated steel. No precious metal content";
                 IsBaseMetal := false; WeightGrams := 0; CopperPercent := 0; NickelPercent := 0 |} |};
         {| StartYear := 1944; EndYear := 1946;
            Composition :=
              {| Name := "Lincoln Cent (1944-1946 Shell Casing)";
                 MetalType := "copper"; Weight := 0.0; Purity := 0;
                 Description := "95% copper, 5% zinc (recycled shell casings). No precious metal content";
                 IsBaseMetal := false; WeightGrams := 0; CopperPercent := 0; NickelPercent := 0 |} |};
         {| StartYear := 1947; EndYear := 1982;
            Composition :=
              {| Name := "Lincoln Cent (1947-1982)";
                 MetalType := "copper"; Weight := 0.0; Purity := 0;
                 Description := "95% copper, 5% zinc. No precious metal content";
                 IsBaseMetal := false; WeightGrams := 0; CopperPercent := 0; NickelPercent := 0 |} |}
       ];
       DefaultComp :=
         {| Name := "Lincoln Cent (1982+)";
            MetalType := "copper"; Weight := 0.0; Purity := 0;
            Description := "1982+: 97.5% zinc, 2.5% copper plating. No precious metal content";
            IsBaseMetal := false; WeightGrams := 0; CopperPercent := 0; NickelPercent := 0 |} |};
    {| CoinType := "Eisenhower Dollar";
       YearRanges := [
         {| StartYear := 1971; EndYear := 1976;
            Composition :=
              {| Name := "Eisenhower Dollar (1971-1976 Silver)";
                 MetalType := "silver"; Weight := 0.31625; Purity := 40;
                 Description := "1971-1976 40% silver version (S mint only): Contains 0.31625 oz of silver";
                 IsBaseMetal := false; WeightGrams := 0; CopperPercent := 0; NickelPercent := 0 |} |}
       ];
       DefaultComp :=
         {| Name := "Eisenhower Dollar (Copper-Nickel Clad)";
            MetalType := "copper"; Weight := 0.0; Purity := 0;
            Description := "Copper-nickel clad, no precious metal content (most common)";
            IsBaseMetal := false; WeightGrams := 0; CopperPercent := 0; NickelPercent := 0 |} |};
    {| CoinType := "Susan B. Anthony Dollar";
       YearRanges := [
       ];
       DefaultComp :=
         {| Name := "Susan B. Anthony Dollar";
            MetalType := "copper"; Weight := 0.0; Purity := 0;
            Description := "Copper-nickel clad, no precious metal content";
            IsBaseMetal := false; WeightGrams := 0; CopperPercent := 0; NickelPercent := 0 |} |};
    {| CoinType := "Sacagawea Dollar";
       YearRanges := [
       ];
       DefaultComp :=
         {| Name := "Sacagawea Dollar";
            MetalType := "copper"; Weight := 0.0; Purity := 0;
            Description := "Manganese brass, no precious metal content";
            IsBaseMetal := false; WeightGrams := 0; CopperPercent := 0; NickelPercent := 0 |} |}
  ].

(** ** Regular expressions of [normalizeCoinType]

    Both patterns are sequences of anchors and greedily quantified character
    classes; [regexp] covers exactly that fragment of Go's RE2 syntax.  Every
    class is ASCII, so matching bytes is matching runes. *)

Definition is_digit (c : ascii) : bool :=          (* \d = [0-9] *)
  (("0" <=? c) && (c <=? "9"))%char.

Definition is_upper (c : ascii) : bool :=          (* [A-Z] *)
  (("A" <=? c) && (c <=? "Z"))%char.

Definition is_space (c : ascii) : bool :=          (* \s = [\t\n\f\r ] *)
  let n := nat_of_ascii c in
  Nat.eqb n 9 || Nat.eqb n 10 || Nat.eqb n 12 || Nat.eqb n 13 || Nat.eqb n 32.

Definition is_dash_or_space (c : ascii) : bool :=  (* [-\s] *)
  Ascii.eqb c "-" || is_space c.

Inductive item :=
| BeginText                                              (* ^ *)
| EndText                                                (* $ *)
| Rep (cls : ascii -> bool) (lo : nat) (hi : option nat). (* greedy cls{lo,hi} *)

Definition regexp := list item.

(** [^\d{4}[-\s]?[A-Z]?\s*] *)
Definition yearPattern : regexp :=
  [ BeginText; Rep is_digit 4 (Some 4); Rep is_dash_or_space 0 (Some 1);
    Rep is_upper 0 (Some 1); Rep is_space 0 None ].

(** [\s+[A-Z]{2}\d+[A-Z]*$] *)
Definition gradePattern : regexp :=
  [ Rep is_space 1 None; Rep is_upper 2 (Some 2); Rep is_digit 1 None;
    Rep is_upper 0 None; EndText ].

(** Greedy repetition with backtracking: take as many characters of the class
    as allowed, run the continuation [k], and give one back on failure.
    [pos] is the offset of [s] in the whole text; the result is the text left
    after the match. *)
Fixpoint rep (cls : ascii -> bool) (lo : nat) (hi : option nat)
    (k : nat -> list ascii -> option (list ascii))
    (pos : nat) (s : list ascii) {struct s} : option (list ascii) :=
  let stop := match lo with O => k pos s | S _ => None end in
  match s with
  | a :: s' =>
      if cls a && match hi with Some O => false | _ => true end
      then match rep cls (Nat.pred lo) (option_map Nat.pred hi) k (S pos) s' with
           | Some rest => Some rest
           | None => stop
           end
      else stop
  | [] => stop
  end.

(** Match [r] at offset [pos], where [s] is the text from [pos] on. *)
Fixpoint matchHere (r : regexp) (pos : nat) (s : list ascii)
    : option (list ascii) :=
  match r with
  | [] => Some s
  | BeginText :: r' => if Nat.eqb pos 0 then matchHere r' pos s else None
  | EndText :: r' => match s with [] => matchHere r' pos s | _ :: _ => None end
  | Rep cls lo hi :: r' => rep cls lo hi (matchHere r') pos s
  end.

(** [re.ReplaceAllString(src, "")] on the text from [pos] on: the leftmost
    match is found by trying each offset in turn, its characters are dropped
    ([skip] counts those still to drop), and the search resumes after it. *)
Fixpoint deleteMatches (r : regexp) (pos skip : nat) (s : list ascii)
    : list ascii :=
  match s with
  | [] => []
  | a :: s' =>
      match skip with
      | S n => deleteMatches r (S pos) n s'
      | O =>
          match matchHere r pos s with
          | Some rest =>
              match length s - length rest with
              | O => a :: deleteMatches r (S pos) 0 s'
              | S n => deleteMatches r (S pos) n s'
              end
          | None => a :: deleteMatches r (S pos) 0 s'
          end
      end
  end.

Definition ReplaceAllString_empty (r : regexp) (src : string) : string :=
  string_of_list_ascii (deleteMatches r 0 0 (list_ascii_of_string src)).

(** ** Catalog lookup *)

(** normalizeCoinType attempts to extract the base coin name from
    PCGS-style names. *)
Definition normalizeCoinType (coinType : string) : string :=
  let normalized := ReplaceAllString_empty yearPattern coinType in
  let normalized := ReplaceAllString_empty gradePattern normalized in
  normalized.

Definition GetComposition (coinType : string) : MetalComposition * bool :=
  match CommonCompositions !! coinType with
  | Some comp => (comp, true)
  | None =>
      let normalized := normalizeCoinType coinType in
      if negb (String.eqb normalized coinType) then
        match CommonCompositions !! normalized with
        | Some comp => (comp, true)
        | None => (zeroComposition, false)
        end
      else (zeroComposition, false)
  end.

(** ** Year-based lookup *)

(** The inner loop of [GetCompositionByYear]: the first range holding [year]. *)
Fixpoint scanYearRanges (year : Z) (ranges : list YearRange)
    : option MetalComposition :=
  match ranges with
  | [] => None
  | yr :: rest =>
      if (StartYear yr <=? year)%Z && (year <=? EndYear yr)%Z
      then Some (Composition yr)
      else scanYearRanges year rest
  end.

(** [GetCompositionByYear] over the rule table it ranges over (the package
    variable [YearBasedCompositions]). *)
Fixpoint GetCompositionByYearIn (table : list YearBasedComposition)
    (coinType : string) (year : Z) : MetalComposition * bool :=
  match table with
  | [] => GetComposition coinType
  | ybc :: rest =>
      if String.eqb (CoinType ybc) coinType then
        match scanYearRanges year (YearRanges ybc) with
        | Some comp => (comp, true)
        | None => (DefaultComp ybc, true)
        end
      else GetCompositionByYearIn rest coinType year
  end.

Definition GetCompositionByYear (coinType : string) (year : Z)
    : MetalComposition * bool :=
  GetCompositionByYearIn YearBasedCompositions coinType year.

(** The handlers' year dispatch (CreateCoin, UpdateCoin, the bulk metal
    update): [if coin.Year > 0 { GetCompositionByYear } else { GetComposition }]. *)
Definition resolveComposition (coinType : string) (year : Z)
    : MetalComposition * bool :=
  if (0 <? year)%Z then GetCompositionByYear coinType year
  else GetComposition coinType.

(** ** Spot prices *)

(** An instant and a [time.Duration], both in nanoseconds; a duration is an
    [int64] and [Time.Sub] saturates at its bounds. *)
Definition Time := Z.
Definition Duration := Z.
Bind Scope Z_scope with Time Duration.

Definition minDuration : Duration := (- 2 ^ 63)%Z.
Definition maxDuration : Duration := (2 ^ 63 - 1)%Z.

Definition Sub (t u : Time) : Duration :=
  Z.max minDuration (Z.min maxDuration (t - u)).

Definition Minute : Duration := (60 * 1000000000)%Z.

Definition cacheDuration : Duration := (15 * Minute)%Z.

Record SpotPrices := {
  Gold : float;
  Silver : float;
  Platinum : float;
  Palladium : float;
  Copper : float;      (* USD per pound *)
  Nickel : float;      (* USD per pound *)
  UpdatedAt : Time
}.

Definition error := string.

(** What one request to a price feed comes back with, after [http.Get],
    [io.ReadAll] and [json.Unmarshal]: the failure of one of the three, or
    the decoded records. *)
Inductive GoldPriceOrgReply :=
| GPGetFailed (err : error)
| GPReadFailed (err : error)
| GPBadJSON (err : error)
| GPItems (items : list (float * float)).      (* xauPrice, xagPrice *)

Inductive MetalsLiveReply :=
| MLGetFailed (err : error)
| MLReadFailed (err : error)
| MLBadJSON (err : error)
| MLItems (items : list (string * float)).     (* metal, price *)

(** The outside world: the successive readings of the clock and the replies
    of the two feeds, by request number. *)
Record World := {
  clock : nat -> Time;
  goldPriceOrg : nat -> GoldPriceOrgReply;
  metalsLive : nat -> MetalsLiveReply
}.

(** The package variables [cachedPrices] (a pointer, [None] when nil) and
    [lastFetchTime], with the count of clock readings and the log of HTTP
    requests made so far (most recent first). *)
Record State := {
  cachedPrices : option SpotPrices;
  lastFetchTime : Time;
  clockReads : nat;
  httpLog : list string
}.

(** [time.Time{}]: January 1, year 1, relative to the Unix epoch. *)
Definition zeroTime : Time := (- 62135596800 * 1000000000)%Z.

Definition initialState : State :=
  {| cachedPrices := None; lastFetchTime := zeroTime;
     clockReads := 0; httpLog := [] |}.

(** State monad over the package variables, reading the world. *)
Definition M (A : Type) : Type := World -> State -> A * State.

Definition ret {A} (a : A) : M A := fun _ s => (a, s).

Definition bind {A B} (m : M A) (f : A -> M B) : M B :=
  fun w s => let (a, s') := m w s in f a w s'.

Notation "'do' x <- m ; k" := (bind m (fun x => k))
  (at level 10, x name, m at level 100, k at level 200).
Notation "'run' m ; k" := (bind m (fun _ => k))
  (at level 10, m at level 100, k at level 200).

Definition timeNow : M Time :=
  fun w s =>
    (clock w (clockReads s),
     {| cachedPrices := cachedPrices s; lastFetchTime := lastFetchTime s;
        clockReads := S (clockReads s); httpLog := httpLog s |}).

Definition timeSince (t : Time) : M Duration :=
  do now <- timeNow ; ret (Sub now t).

Definition setCachedPrices (p : option SpotPrices) : M unit :=
  fun _ s =>
    (tt, {| cachedPrices := p; lastFetchTime := lastFetchTime s;
            clockReads := clockReads s; httpLog := httpLog s |}).

Definition setLastFetchTime (t : Time) : M unit :=
  fun _ s =>
    (tt, {| cachedPrices := cachedPrices s; lastFetchTime := t;
            clockReads := clockReads s; httpLog := httpLog s |}).

Definition getCachedPrices : M (option SpotPrices) :=
  fun _ s => (cachedPrices s, s).

Definition getLastFetchTime : M Time :=
  fun _ s => (lastFetchTime s, s).

Definition goldPriceOrgURL : string := "https://data-asg.goldprice.org/dbXRates/USD".
Definition metalsLiveURL : string := "https://www.metals.live/v1/spot".

Definition requestGoldPriceOrg : M GoldPriceOrgReply :=
  fun w s =>
    (goldPriceOrg w (length (httpLog s)),
     {| cachedPrices := cachedPrices s; lastFetchTime := lastFetchTime s;
        clockReads := clockReads s; httpLog := goldPriceOrgURL :: httpLog s |}).

Definition requestMetalsLive : M MetalsLiveReply :=
  fun w s =>
    (metalsLive w (length (httpLog s)),
     {| cachedPrices := cachedPrices s; lastFetchTime := lastFetchTime s;
        clockReads := clockReads s; httpLog := metalsLiveURL :: httpLog s |}).

Definition fetchGoldPriceOrg : M (option SpotPrices * option error) :=
  do reply <- requestGoldPriceOrg ;
  match reply with
  | GPGetFailed err => ret (None, Some err)
  | GPReadFailed err => ret (None, Some err)
  | GPBadJSON err => ret (None, Some err)
  | GPItems [] => ret (None, Some "no items in goldprice.org response")
  | GPItems ((gold, silver) :: _) =>
      if (gold =? 0)%float || (silver =? 0)%float then
        ret (None, Some "invalid price data from goldprice.org")
      else
        do now <- timeNow ;
        ret (Some {| Gold := gold; Silver := silver;
                     Platinum := 950.00; Palladium := 950.00;
                     Copper := 5.52; Nickel := 6.96;
                     UpdatedAt := now |}, None)
  end.

(** One turn of the [switch item.Metal] loop of [fetchMetalsLive]. *)
Definition setMetal (prices : SpotPrices) (item : string * float) : SpotPrices :=
  let (metal, price) := item in
  if String.eqb metal "gold" then
    {| Gold := price; Silver := Silver prices; Platinum := Platinum prices;
       Palladium := Palladium prices; Copper := Copper prices;
       Nickel := Nickel prices; UpdatedAt := UpdatedAt prices |}
  else if String.eqb metal "silver" then
    {| Gold := Gold prices; Silver := price; Platinum := Platinum prices;
       Palladium := Palladium prices; Copper := Copper prices;
       Nickel := Nickel prices; UpdatedAt := UpdatedAt prices |}
  else if String.eqb metal "platinum" then
    {| Gold := Gold prices; Silver := Silver prices; Platinum := price;
       Palladium := Palladium prices; Copper := Copper prices;
       Nickel := Nickel prices; UpdatedAt := UpdatedAt prices |}
  else if String.eqb metal "palladium" then
    {| Gold := Gold prices; Silver := Silver prices; Platinum := Platinum prices;
       Palladium := price; Copper := Copper prices;
       Nickel := Nickel prices; UpdatedAt := UpdatedAt prices |}
  else if String.eqb metal "copper" then
    {| Gold := Gold prices; Silver := Silver prices; Platinum := Platinum prices;
       Palladium := Palladium prices; Copper := price;
       Nickel := Nickel prices; UpdatedAt := UpdatedAt prices |}
  else if String.eqb metal "nickel" then
    {| Gold := Gold prices; Silver := Silver prices; Platinum := Platinum prices;
       Palladium := Palladium prices; Copper := Copper prices;
       Nickel := price; UpdatedAt := UpdatedAt prices |}
  else prices.

Definition fetchMetalsLive : M (option SpotPrices * option error) :=
  do reply <- requestMetalsLive ;
  match reply with
  | MLGetFailed err => ret (None, Some err)
  | MLReadFailed err => ret (None, Some err)
  | MLBadJSON err => ret (None, Some err)
  | MLItems result =>
      do now <- timeNow ;
      let prices :=
        fold_left setMetal result
          {| Gold := 0; Silver := 0; Platinum := 0; Palladium := 0;
             Copper := 0; Nickel := 0; UpdatedAt := now |} in
      if (Gold prices =? 0)%float || (Silver prices =? 0)%float then
        ret (None, Some "incomplete price data")
      else ret (Some prices, None)
  end.

Definition fetchRealPrices : M (option SpotPrices * option error) :=
  do r1 <- fetchGoldPriceOrg ;
  match snd r1 with
  | None => ret (fst r1, None)
  | Some _ =>
      do r2 <- fetchMetalsLive ;
      match snd r2 with
      | None => ret (fst r2, None)
      | Some _ => ret (None, Some "all price sources failed")
      end
  end.

(** The body of [GetSpotPrices] after the cache test. *)
Definition refreshSpotPrices : M (option SpotPrices * option error) :=
  do r <- fetchRealPrices ;
  match r with
  | (Some realPrices, None) =>
      run setCachedPrices (Some realPrices) ;
      do now <- timeNow ;
      run setLastFetchTime now ;
      ret (Some realPrices, None)
  | _ =>
      do stamp <- timeNow ;
      let prices :=
        {| Gold := 2650.00; Silver := 30.50; Platinum := 950.00;
           Palladium := 950.00; Copper := 5.52; Nickel := 6.96;
           UpdatedAt := stamp |} in
      run setCachedPrices (Some prices) ;
      do now <- timeNow ;
      run setLastFetchTime now ;
      ret (Some prices, None)
  end.

(** The test [cachedPrices != nil && time.Since(lastFetchTime) < cacheDuration];
    the clock is read only when the left operand holds. *)
Definition cacheIsFresh : M bool :=
  do cached <- getCachedPrices ;
  match cached with
  | None => ret false
  | Some _ =>
      do last <- getLastFetchTime ;
      do age <- timeSince last ;
      ret (age <? cacheDuration)%Z
  end.

Definition GetSpotPrices : M (option SpotPrices * option error) :=
  do fresh <- cacheIsFresh ;
  if fresh then
    do cached <- getCachedPrices ;
    ret (cached, None)
  else refreshSpotPrices.

Definition UpdateSpotPricesManually (gold silver platinum palladium : float)
    : M unit :=
  do stamp <- timeNow ;
  run setCachedPrices (Some {| Gold := gold; Silver := silver;
                               Platinum := platinum; Palladium := palladium;
                               Copper := 5.52; Nickel := 6.96;
                               UpdatedAt := stamp |}) ;
  do now <- timeNow ;
  setLastFetchTime now.

(** ** Melt value *)

(** How a calculator call ends: with Go's [(float64, error)] pair, or in the
    runtime panic of reading a field through a nil [*SpotPrices]. *)
Inductive Outcome :=
| Returned (value : float) (err : option error)
| NilDereference.

Definition CalculateMeltValue (metalType : string) (weight purity : float)
    : M Outcome :=
  do r <- GetSpotPrices ;
  match r with
  | (_, Some err) => ret (Returned 0 (Some err))
  | (None, None) =>
      if String.eqb metalType "gold" || String.eqb metalType "silver"
         || String.eqb metalType "platinum" || String.eqb metalType "palladium"
      then ret NilDereference
      else if String.eqb metalType "copper" || String.eqb metalType "nickel"
      then ret (Returned 0 None)
      else ret (Returned 0 (Some (String.append "unsupported metal type: " metalType)))
  | (Some prices, None) =>
      let finish (pricePerOz : float) :=
        let pureWeight := (weight * (purity / 100.0))%float in
        let meltValue := (pureWeight * pricePerOz)%float in
        ret (Returned meltValue None) in
      if String.eqb metalType "gold" then finish (Gold prices)
      else if String.eqb metalType "silver" then finish (Silver prices)
      else if String.eqb metalType "platinum" then finish (Platinum prices)
      else if String.eqb metalType "palladium" then finish (Palladium prices)
      else if String.eqb metalType "copper" || String.eqb metalType "nickel"
      then ret (Returned 0 None)
      else ret (Returned 0 (Some (String.append "unsupported metal type: " metalType)))
  end.

Definition CalculateBaseMeltValue (weightGrams copperPercent nickelPercent : float)
    : M Outcome :=
  do r <- GetSpotPrices ;
  match r with
  | (_, Some err) => ret (Returned 0 (Some err))
  | (None, None) => ret NilDereference
  | (Some prices, None) =>
      let weightPounds := (weightGrams / 453.592)%float in
      let copperValue :=
        (weightPounds * (copperPercent / 100.0) * Copper prices)%float in
      let nickelValue :=
        (weightPounds * (nickelPercent / 100.0) * Nickel prices)%float in
      ret (Returned (copperValue + nickelValue) None)
  end.

Definition CalculateMeltValueFromComposition (comp : MetalComposition)
    : M Outcome :=
  if IsBaseMetal comp then
    CalculateBaseMeltValue (WeightGrams comp) (CopperPercent comp)
                           (NickelPercent comp)
  else CalculateMeltValue (MetalType comp) (Weight comp) (Purity comp).

Definition GetAllCompositions : gmap string MetalComposition :=
  CommonCompositions.

(** ** The coin record (package [models]) *)

(** A [uuid.UUID]: sixteen bytes, as a number. *)
Definition UUID := N.

Module models.

Record Coin := {
  ID : UUID;
  PortfolioID : UUID;
  CoinType : string;
  Year : Z;
  MintMark : string;
  Denomination : string;
  PCGSCertNumber : string;
  PurchasePrice : float;
  PurchaseDate : option Time;
  CurrentValue : float;
  NumismaticValue : float;
  LastPriceUpdate : option Time;
  ImageURL : string;
  ThumbnailURL : string;
  Notes : string;
  Quantity : Z;
  MetalType : string;
  MetalWeight : float;
  MetalPurity : float;
  CreatedAt : Time;
  UpdatedAt : Time
}.

(** [coin.Quantity = v] *)
Definition setQuantity (coin : Coin) (v : Z) : Coin :=
  {| ID := ID coin; PortfolioID := PortfolioID coin;
     CoinType := CoinType coin; Year := Year coin;
     MintMark := MintMark coin; Denomination := Denomination coin;
     PCGSCertNumber := PCGSCertNumber coin;
     PurchasePrice := PurchasePrice coin; PurchaseDate := PurchaseDate coin;
     CurrentValue := CurrentValue coin;
     NumismaticValue := NumismaticValue coin;
     LastPriceUpdate := LastPriceUpdate coin; ImageURL := ImageURL coin;
     ThumbnailURL := ThumbnailURL coin; Notes := Notes coin; Quantity := v;
     MetalType := MetalType coin; MetalWeight := MetalWeight coin;
     MetalPurity := MetalPurity coin; CreatedAt := CreatedAt coin;
     UpdatedAt := UpdatedAt coin |}.

(** [coin.MetalType = v] *)
Definition setMetalType (coin : Coin) (v : string) : Coin :=
  {| ID := ID coin; PortfolioID := PortfolioID coin;
     CoinType := CoinType coin; Year := Year coin;
     MintMark := MintMark coin; Denomination := Denomination coin;
     PCGSCertNumber := PCGSCertNumber coin;
     PurchasePrice := PurchasePrice coin; PurchaseDate := PurchaseDate coin;
     CurrentValue := CurrentValue coin;
     NumismaticValue := NumismaticValue coin;
     LastPriceUpdate := LastPriceUpdate coin; ImageURL := ImageURL coin;
     ThumbnailURL := ThumbnailURL coin; Notes := Notes coin;
     Quantity := Quantity coin; MetalType := v;
     MetalWeight := MetalWeight coin; MetalPurity := MetalPurity coin;
     CreatedAt := CreatedAt coin; UpdatedAt := UpdatedAt coin |}.

(** [coin.MetalWeight = v] *)
Definition setMetalWeight (coin : Coin) (v : float) : Coin :=
  {| ID := ID coin; PortfolioID := PortfolioID coin;
     CoinType := CoinType coin; Year := Year coin;
     MintMark := MintMark coin; Denomination := Denomination coin;
     PCGSCertNumber := PCGSCertNumber coin;
     PurchasePrice := PurchasePrice coin; PurchaseDate := PurchaseDate coin;
     CurrentValue := CurrentValue coin;
     NumismaticValue := NumismaticValue coin;
     LastPriceUpdate := LastPriceUpdate coin; ImageURL := ImageURL coin;
     ThumbnailURL := ThumbnailURL coin; Notes := Notes coin;
     Quantity := Quantity coin; MetalType := MetalType coin;
     MetalWeight := v; MetalPurity := MetalPurity coin;
     CreatedAt := CreatedAt coin; UpdatedAt := UpdatedAt coin |}.

(** [coin.MetalPurity = v] *)
Definition setMetalPurity (coin : Coin) (v : float) : Coin :=
  {| ID := ID coin; PortfolioID := PortfolioID coin;
     CoinType := CoinType coin; Year := Year coin;
     MintMark := MintMark coin; Denomination := Denomination coin;
     PCGSCertNumber := PCGSCertNumber coin;
     PurchasePrice := PurchasePrice coin; PurchaseDate := PurchaseDate coin;
     CurrentValue := CurrentValue coin;
     NumismaticValue := NumismaticValue coin;
     LastPriceUpdate := LastPriceUpdate coin; ImageURL := ImageURL coin;
     ThumbnailURL := ThumbnailURL coin; Notes := Notes coin;
     Quantity := Quantity coin; MetalType := MetalType coin;
     MetalWeight := MetalWeight coin; MetalPurity := v;
     CreatedAt := CreatedAt coin; UpdatedAt := UpdatedAt coin |}.

(** [coin.CurrentValue = v] *)
Definition setCurrentValue (coin : Coin) (v : float) : Coin :=
  {| ID := ID coin; PortfolioID := PortfolioID coin;
     CoinType := CoinType coin; Year := Year coin;
     MintMark := MintMark coin; Denomination := Denomination coin;
     PCGSCertNumber := PCGSCertNumber coin;
     PurchasePrice := PurchasePrice coin; PurchaseDate := PurchaseDate coin;
     CurrentValue := v; NumismaticValue := NumismaticValue coin;
     LastPriceUpdate := LastPriceUpdate coin; ImageURL := ImageURL coin;
     ThumbnailURL := ThumbnailURL coin; Notes := Notes coin;
     Quantity := Quantity coin; MetalType := MetalType coin;
     MetalWeight := MetalWeight coin; MetalPurity := MetalPurity coin;
     CreatedAt := CreatedAt coin; UpdatedAt := UpdatedAt coin |}.

(** [coin.LastPriceUpdate = v] *)
Definition setLastPriceUpdate (coin : Coin) (v : option Time) : Coin :=
  {| ID := ID coin; PortfolioID := PortfolioID coin;
     CoinType := CoinType coin; Year := Year coin;
     MintMark := MintMark coin; Denomination := Denomination coin;
     PCGSCertNumber := PCGSCertNumber coin;
     PurchasePrice := PurchasePrice coin; PurchaseDate := PurchaseDate coin;
     CurrentValue := CurrentValue coin;
     NumismaticValue := NumismaticValue coin; LastPriceUpdate := v;
     ImageURL := ImageURL coin; ThumbnailURL := ThumbnailURL coin;
     Notes := Notes coin; Quantity := Quantity coin;
     MetalType := MetalType coin; MetalWeight := MetalWeight coin;
     MetalPurity := MetalPurity coin; CreatedAt := CreatedAt coin;
     UpdatedAt := UpdatedAt coin |}.

Record PriceHistory := {
  HistoryID : UUID;
  CoinID : UUID;
  MeltValue : float;
  HistoryNumismaticValue : float;
  PCGSValue : float;
  RecordedAt : Time;
  HistoryCreatedAt : Time
}.

End models.

(** ** Callers of the metals package (package [handlers])

    The handlers talk to gin and to the database; what is embedded here is
    what they do with the metals package: the stretches of the coin and
    price-history handlers that fill in a coin's metal data and melt value,
    and the metals endpoints, with the request already bound and the
    response as a value.  A panic of a callee ends a stretch with [None]. *)

Module handlers.

(** The request body of [UpdateCoin]. *)
Module UpdateCoinRequest.
Record t := {
  PortfolioID : string;
  CoinType : string;
  Year : Z;
  MintMark : string;
  Denomination : string;
  PCGSCertNumber : string;
  PurchasePrice : float;
  CurrentValue : float;
  NumismaticValue : float;
  Notes : string;
  Quantity : Z;
  MetalType : string;
  MetalWeight : float;
  MetalPurity : float
}.
End UpdateCoinRequest.

(** The metal data is complete: [MetalType != "" && MetalWeight > 0 &&
    MetalPurity > 0]. *)
Definition hasMetalData (coin : models.Coin) : bool :=
  negb (String.eqb (models.MetalType coin) "")
  && (0 <? models.MetalWeight coin)%float
  && (0 <? models.MetalPurity coin)%float.

(** Some metal field is unset: [MetalType == "" || MetalWeight == 0 ||
    MetalPurity == 0]. *)
Definition lacksMetalField (coin : models.Coin) : bool :=
  String.eqb (models.MetalType coin) ""
  || (models.MetalWeight coin =? 0)%float
  || (models.MetalPurity coin =? 0)%float.

(** [CreateCoin], from the quantity default to the database insert: the
    composition is looked up when a metal field is unset, and the melt value
    is computed when there is metal data and no current value. *)
Definition fillNewCoin (coin : models.Coin) : M (option models.Coin) :=
  let coin :=
    if (models.Quantity coin =? 0)%Z then models.setQuantity coin 1 else coin in
  do populated <-
    (if lacksMetalField coin then
       let (comp, exists_) :=
         resolveComposition (models.CoinType coin) (models.Year coin) in
       if exists_ then
         let coin := models.setMetalType coin (MetalType comp) in
         let coin := models.setMetalWeight coin (Weight comp) in
         let coin := models.setMetalPurity coin (Purity comp) in
         do outcome <- CalculateMeltValueFromComposition comp ;
         match outcome with
         | NilDereference => ret None
         | Returned meltValue None =>
             ret (Some (models.setCurrentValue coin meltValue))
         | Returned _ (Some _) => ret (Some coin)
         end
       else ret (Some coin)
     else ret (Some coin)) ;
  match populated with
  | None => ret None
  | Some coin =>
      if (models.CurrentValue coin =? 0)%float && hasMetalData coin then
        do outcome <- CalculateMeltValue (models.MetalType coin)
                        (models.MetalWeight coin) (models.MetalPurity coin) ;
        match outcome with
        | NilDereference => ret None
        | Returned meltValue None =>
            ret (Some (models.setCurrentValue coin meltValue))
        | Returned _ (Some _) => ret (Some coin)
        end
      else ret (Some coin)
  end.

(** [coin.CurrentValue = meltValue; now := time.Now();
    coin.LastPriceUpdate = &now] *)
Definition setPricedNow (coin : models.Coin) (meltValue : float)
    : M (option models.Coin) :=
  let coin := models.setCurrentValue coin meltValue in
  do now <- timeNow ;
  ret (Some (models.setLastPriceUpdate coin (Some now))).

(** [UpdateCoin], from the merge of the request's metal fields to the
    database save: unset metal fields are filled from the composition when
    the request names a coin type or a year, and the melt value is computed
    again when the metal data changed or there is no current value. *)
Definition applyMetalUpdate (req : UpdateCoinRequest.t) (coin : models.Coin)
    : M (option models.Coin) :=
  let coin :=
    if negb (String.eqb (UpdateCoinRequest.MetalType req) "")
    then models.setMetalType coin (UpdateCoinRequest.MetalType req) else coin in
  let coin :=
    if negb (UpdateCoinRequest.MetalWeight req =? 0)%float
    then models.setMetalWeight coin (UpdateCoinRequest.MetalWeight req)
    else coin in
  let coin :=
    if negb (UpdateCoinRequest.MetalPurity req =? 0)%float
    then models.setMetalPurity coin (UpdateCoinRequest.MetalPurity req)
    else coin in
  do populated <-
    (if (negb (String.eqb (UpdateCoinRequest.CoinType req) "")
         || negb (UpdateCoinRequest.Year req =? 0)%Z)
        && lacksMetalField coin
     then
       let (comp, exists_) :=
         resolveComposition (models.CoinType coin) (models.Year coin) in
       if exists_ then
         let coin :=
           if String.eqb (models.MetalType coin) ""
           then models.setMetalType coin (MetalType comp) else coin in
         let coin :=
           if (models.MetalWeight coin =? 0)%float
           then models.setMetalWeight coin (Weight comp) else coin in
         let coin :=
           if (models.MetalPurity coin =? 0)%float
           then models.setMetalPurity coin (Purity comp) else coin in
         do outcome <- CalculateMeltValueFromComposition comp ;
         match outcome with
         | NilDereference => ret None
         | Returned meltValue None => setPricedNow coin meltValue
         | Returned _ (Some _) => ret (Some coin)
         end
       else ret (Some coin)
     else ret (Some coin)) ;
  match populated with
  | None => ret None
  | Some coin =>
      if hasMetalData coin
         && (negb (String.eqb (UpdateCoinRequest.MetalType req) "")
             || negb (UpdateCoinRequest.MetalWeight req =? 0)%float
             || negb (UpdateCoinRequest.MetalPurity req =? 0)%float
             || (models.CurrentValue coin =? 0)%float)
      then
        do outcome <- CalculateMeltValue (models.MetalType coin)
                        (models.MetalWeight coin) (models.MetalPurity coin) ;
        match outcome with
        | NilDereference => ret None
        | Returned meltValue None => setPricedNow coin meltValue
        | Returned _ (Some _) => ret (Some coin)
        end
      else ret (Some coin)
  end.

(** What one turn of the loop of [BackfillMetalComposition] does with a coin
    before [db.Save]. *)
Inductive Backfill :=
| Skipped                              (* continue, or no composition *)
| ToSave (coin : models.Coin).         (* handed to db.Save *)

Definition backfillCoin (coin : models.Coin) : M (option Backfill) :=
  if hasMetalData coin then ret (Some Skipped)
  else
    let (comp, exists_) :=
      resolveComposition (models.CoinType coin) (models.Year coin) in
    if exists_ then
      let coin := models.setMetalType coin (MetalType comp) in
      let coin := models.setMetalWeight coin (Weight comp) in
      let coin := models.setMetalPurity coin (Purity comp) in
      do outcome <- CalculateMeltValueFromComposition comp ;
      match outcome with
      | NilDereference => ret None
      | Returned meltValue None =>
          ret (Some (ToSave (models.setCurrentValue coin meltValue)))
      | Returned _ (Some _) => ret (Some (ToSave coin))
      end
    else ret (Some Skipped).

(** The melt value that [RecordPriceSnapshot] and [BackfillPriceHistory]
    record: 0 unless the metal data is complete and the calculator returns
    no error. *)
Definition currentMeltValue (coin : models.Coin) : M (option float) :=
  if hasMetalData coin then
    do outcome <- CalculateMeltValue (models.MetalType coin)
                    (models.MetalWeight coin) (models.MetalPurity coin) ;
    match outcome with
    | NilDereference => ret None
    | Returned mv None => ret (Some mv)
    | Returned _ (Some _) => ret (Some 0%float)
    end
  else ret (Some 0%float).

(** The record [RecordPriceSnapshot] creates for the coin [coinUUID]. *)
Definition priceSnapshot (coinUUID : UUID) (coin : models.Coin)
    : M (option models.PriceHistory) :=
  do melt <- currentMeltValue coin ;
  match melt with
  | None => ret None
  | Some meltValue =>
      do now <- timeNow ;
      ret (Some {| models.HistoryID := 0%N;
                   models.CoinID := coinUUID;
                   models.MeltValue := meltValue;
                   models.HistoryNumismaticValue := models.NumismaticValue coin;
                   models.PCGSValue := 0;
                   models.RecordedAt := now;
                   models.HistoryCreatedAt := zeroTime |})
  end.

(** What [c.JSON(status, body)] sends. *)
Inductive Body :=
| ErrorBody (message : string)                       (* gin.H{"error": ...} *)
| PricesBody (prices : option SpotPrices)
| CompositionBody (composition : MetalComposition)
| CompositionsBody (compositions : gmap string MetalComposition)
| MeltValueBody (melt_value : float) (metal_type : string)
                (weight purity : float).

Record Response := { status : Z; body : Body }.

Definition StatusOK : Z := 200.
Definition StatusBadRequest : Z := 400.
Definition StatusNotFound : Z := 404.
Definition StatusInternalServerError : Z := 500.

Definition GetMetalCompositions : Response :=
  {| status := StatusOK; body := CompositionsBody GetAllCompositions |}.

(** [coinType] is [c.Query("coin_type")]. *)
Definition GetCoinComposition (coinType : string) : Response :=
  if String.eqb coinType "" then
    {| status := StatusBadRequest;
       body := ErrorBody "coin_type query parameter is required" |}
  else
    let (composition, exists_) := GetComposition coinType in
    if negb exists_ then
      {| status := StatusNotFound;
         body := ErrorBody "Composition not found for this coin type" |}
    else {| status := StatusOK; body := CompositionBody composition |}.

(** The request body of the melt-value endpoint. *)
Record MeltValueRequest := {
  ReqMetalType : string;
  ReqWeight : float;
  ReqPurity : float
}.

(** A float that [encoding/json] encodes: it refuses NaN and the infinities
    with an [UnsupportedValueError]. *)
Definition jsonFloat (x : float) : bool :=
  negb (is_nan x) && negb (is_infinity x).

(** The body of the melt-value answer is encoded exactly when its three
    numbers are. *)
Definition meltValueEncodes (meltValue weight purity : float) : bool :=
  jsonFloat meltValue && jsonFloat weight && jsonFloat purity.

(** How [c.JSON(status, body)] ends.  It sets the status and writes the
    encoded body.  When the encoder refuses the body, nothing of the body is
    written: gin records the error and aborts the context, and older
    versions panic instead, which the recovery middleware of [gin.Default]
    answers with a 500. *)
Inductive Sent :=
| Written (response : Response)
| NotEncoded (status : Z).

(** [bound] is what [c.ShouldBindJSON(&req)] gives: the request, or [None]
    when it reports an error.  An error body is a string and is always
    encoded. *)
Definition CalculateMeltValue (bound : option MeltValueRequest)
    : M (option Sent) :=
  match bound with
  | None =>
      ret (Some (Written {| status := StatusBadRequest;
                            body := ErrorBody "Invalid request parameters" |}))
  | Some req =>
      do outcome <- CalculateMeltValue (ReqMetalType req) (ReqWeight req)
                      (ReqPurity req) ;
      match outcome with
      | NilDereference => ret None
      | Returned _ (Some err) =>
          ret (Some (Written {| status := StatusInternalServerError;
                                body := ErrorBody err |}))
      | Returned meltValue None =>
          if meltValueEncodes meltValue (ReqWeight req) (ReqPurity req) then
            ret (Some (Written
                         {| status := StatusOK;
                            body := MeltValueBody meltValue (ReqMetalType req)
                                      (ReqWeight req) (ReqPurity req) |}))
          else ret (Some (NotEncoded StatusOK))
      end
  end.

Definition GetSpotPrices : M Response :=
  do r <- GetSpotPrices ;
  match r with
  | (_, Some _) =>
      ret {| status := StatusInternalServerError;
             body := ErrorBody "Failed to fetch spot prices" |}
  | (prices, None) => ret {| status := StatusOK; body := PricesBody prices |}
  end.

End handlers.

(** * Vocabulary of the statements *)

(** ** Year rules *)

(** [year] lies in the range [yr]. *)
Definition covers (yr : YearRange) (year : Z) : Prop :=
  (StartYear yr <= year <= EndYear yr)%Z.

(** The rule set registered for [coinType]: the first table entry of that
    name. *)
Definition ruleSetOf (table : list YearBasedComposition) (coinType : string)
    : option YearBasedComposition :=
  find (fun ybc => String.eqb (CoinType ybc) coinType) table.

(** A rule table with two overlapping ranges registered for one synthetic
    type: 1960-1970 declared first, 1965-1975 second. *)
Definition syntheticComposition (label : string) : MetalComposition :=
  {| Name := label; MetalType := "silver"; Weight := 0.5; Purity := 90;
     Description := ""; IsBaseMetal := false; WeightGrams := 0;
     CopperPercent := 0; NickelPercent := 0 |}.

Definition overlappingRuleSet : YearBasedComposition :=
  {| CoinType := "Synthetic Dollar";
     YearRanges :=
       [ {| StartYear := 1960; EndYear := 1970;
            Composition := syntheticComposition "first (1960-1970)" |};
         {| StartYear := 1965; EndYear := 1975;
            Composition := syntheticComposition "second (1965-1975)" |} ];
     DefaultComp := syntheticComposition "default" |}.

Definition overlappingRules : list YearBasedComposition :=
  [ overlappingRuleSet ].

(** ** Name normalizer

    The two tokens, described directly on the characters. *)

(** Length of the longest prefix of [s] made of characters of [cls]. *)
Fixpoint span (cls : ascii -> bool) (s : list ascii) : nat :=
  match s with
  | a :: s' => if cls a then S (span cls s') else 0
  | [] => 0
  end.

(** [s] without its longest prefix of characters of [cls]. *)
Definition dropAll (cls : ascii -> bool) (s : list ascii) : list ascii :=
  skipn (span cls s) s.

(** [s] without its first character, when that is of [cls]. *)
Definition dropOne (cls : ascii -> bool) (s : list ascii) : list ascii :=
  match s with
  | a :: s' => if cls a then s' else s
  | [] => []
  end.

(** The text opens with a four-digit year. *)
Definition startsWithYear (s : list ascii) : bool :=
  (4 <=? List.length s)%nat && forallb is_digit (firstn 4 s).

(** The leading token: four digits, then a hyphen or blank if there is one,
    then a capital (the mint mark) if there is one, then all blanks. *)
Definition stripYearToken (s : list ascii) : list ascii :=
  if startsWithYear s then
    dropAll is_space (dropOne is_upper (dropOne is_dash_or_space (skipn 4 s)))
  else s.

(** [t], in full, is blanks (at least one), two capitals, digits (at least
    one) and capitals. *)
Definition isGradeToken (t : list ascii) : bool :=
  let t1 := dropAll is_space t in
  let t2 := skipn 2 t1 in
  let t3 := dropAll is_digit t2 in
  (1 <=? span is_space t)%nat
  && ((2 <=? List.length t1)%nat && forallb is_upper (firstn 2 t1))
  && (1 <=? span is_digit t2)%nat
  && (span is_upper t3 =? List.length t3)%nat.

(** The trailing token: the text is cut at the first position from which the
    rest, in full, is a grade token. *)
Fixpoint stripGradeToken (s : list ascii) : list ascii :=
  if isGradeToken s then []
  else match s with
       | [] => []
       | a :: s' => a :: stripGradeToken s'
       end.

(** Some suffix of the text is a grade token. *)
Fixpoint endsWithGrade (s : list ascii) : bool :=
  isGradeToken s
  || match s with
     | [] => false
     | _ :: s' => endsWithGrade s'
     end.

Definition hasYearToken (s : string) : bool :=
  startsWithYear (list_ascii_of_string s).

Definition hasGradeToken (s : string) : bool :=
  endsWithGrade (list_ascii_of_string s).

(** The trailing pattern with a grade prefix of two to four capitals,
    [\s+[A-Z]{2,4}\d+[A-Z]*$], and the normalizer it would give. *)
Definition gradePatternTwoToFour : regexp :=
  [ Rep is_space 1 None; Rep is_upper 2 (Some 4); Rep is_digit 1 None;
    Rep is_upper 0 None; EndText ].

Definition normalizeTwoToFour (coinType : string) : string :=
  ReplaceAllString_empty gradePatternTwoToFour
    (ReplaceAllString_empty yearPattern coinType).

(** ** Spot-price oracle *)

(** The static hard-coded snapshot, stamped at [stamp]. *)
Definition staticFallback (stamp : Time) : SpotPrices :=
  {| Gold := 2650.00; Silver := 30.50; Platinum := 950.00;
     Palladium := 950.00; Copper := 5.52; Nickel := 6.96;
     UpdatedAt := stamp |}.

(** A world in which every request to either feed fails, with a clock that
    advances one second per reading. *)
Definition deadFeeds : World :=
  {| clock := fun n => (1000000000 * Z.of_nat n)%Z;
     goldPriceOrg := fun _ => GPGetFailed "dial tcp: i/o timeout";
     metalsLive := fun _ => MLBadJSON "unexpected end of JSON input" |}.

(** The state left by a fetch at instant [t0] that stored [prices]. *)
Definition cachedAt (t0 : Time) (prices : SpotPrices) : State :=
  {| cachedPrices := Some prices; lastFetchTime := t0;
     clockReads := 0; httpLog := [] |}.

(** A world whose feeds are down and whose clock starts at [t] and advances
    one nanosecond per reading. *)
Definition deadFeedsAt (t : Time) : World :=
  {| clock := fun n => (t + Z.of_nat n)%Z;
     goldPriceOrg := fun _ => GPGetFailed "dial tcp: i/o timeout";
     metalsLive := fun _ => MLBadJSON "unexpected end of JSON input" |}.

Definition Second : Duration := 1000000000%Z.

(** ** Melt value *)

(** [x >= 0] as Go compares floats: true of +0, -0, positive numbers and
    +Inf, false of NaN. *)
Definition nonneg (x : float) : Prop := (0 <=? x)%float = true.

(** [x < 0] is false: [x] is not a negative number. *)
Definition notNegative (x : float) : Prop := (x <? 0)%float = false.

(** Neither NaN nor an infinity. *)
Definition isFinite (x : float) : bool :=
  negb (is_nan x) && negb (is_infinity x).

Definition nonnegComposition (comp : MetalComposition) : Prop :=
  nonneg (Weight comp) /\ nonneg (Purity comp) /\ nonneg (WeightGrams comp) /\
  nonneg (CopperPercent comp) /\ nonneg (NickelPercent comp).

Definition nonnegPrices (prices : SpotPrices) : Prop :=
  nonneg (Gold prices) /\ nonneg (Silver prices) /\ nonneg (Platinum prices) /\
  nonneg (Palladium prices) /\ nonneg (Copper prices) /\ nonneg (Nickel prices).

(** The metal types the precious-path calculator has a case for. *)
Definition knownMetal (metalType : string) : Prop :=
  In metalType ["gold"; "silver"; "platinum"; "palladium"; "copper"; "nickel"].

(** Sign test on the specification of a binary64 value: NaN, a zero of either
    sign, or a value with a clear sign bit. *)
Definition sfNonnegOrNaN (x : spec_float) : bool :=
  match x with
  | S754_nan => true
  | S754_zero _ => true
  | S754_infinity s => negb s
  | S754_finite s _ _ => negb s
  end.

(** The same test on a primitive float. *)
Definition signOk (x : float) : Prop := sfNonnegOrNaN (Prim2SF x) = true.

(** A gold piece of 1e308 troy ounces. *)
Definition heavyGold : MetalComposition :=
  {| Name := "Heavy gold"; MetalType := "gold"; Weight := 1e308; Purity := 100;
     Description := ""; IsBaseMetal := false; WeightGrams := 0;
     CopperPercent := 0; NickelPercent := 0 |}.

(** The sentinel composition: copper, no weight, not a base-metal alloy. *)
Definition copperSentinel : MetalComposition :=
  {| Name := "Clad"; MetalType := "copper"; Weight := 0; Purity := 0;
     Description := ""; IsBaseMetal := false; WeightGrams := 0;
     CopperPercent := 0; NickelPercent := 0 |}.

(** A world where the first feed answers with gold and silver prices. *)
Definition firstFeedUp : World :=
  {| clock := fun n => (1000000000 * Z.of_nat n)%Z;
     goldPriceOrg := fun _ => GPItems [(2701.25, 31.5)%float];
     metalsLive := fun _ => MLGetFailed "connection refused" |}.

(** A complete snapshot: each of the six prices is a positive number. *)
Definition completeSnapshot (prices : SpotPrices) : bool :=
  (0 <? Gold prices)%float && (0 <? Silver prices)%float
  && (0 <? Platinum prices)%float && (0 <? Palladium prices)%float
  && (0 <? Copper prices)%float && (0 <? Nickel prices)%float.

(** A world where the first feed reports a negative gold price. *)
Definition negativeFeed : World :=
  {| clock := fun n => (1000000000 * Z.of_nat n)%Z;
     goldPriceOrg := fun _ => GPItems [(-2701.25, 31.5)%float];
     metalsLive := fun _ => MLGetFailed "connection refused" |}.

(** A world where the first feed reports a zero silver price and the second
    feed answers for four of the six metals. *)
Definition secondFeedUp : World :=
  {| clock := fun n => (1000000000 * Z.of_nat n)%Z;
     goldPriceOrg := fun _ => GPItems [(2701.25, 0)%float];
     metalsLive := fun _ =>
       MLItems [("gold", 2702); ("silver", 31.75); ("copper", 4.25);
                ("rhodium", 4500); ("platinum", 980)]%float |}.

(** ** Catalog keys and certification titles *)

(** A name that is not empty and neither opens nor ends with a blank. *)
Definition trimmedName (name : list ascii) : bool :=
  match name with
  | [] => false
  | a :: _ => negb (is_space a)
  end
  && match last name with
     | Some z => negb (is_space z)
     | None => false
     end.

(** The first character, if any, is not a digit. *)
Definition opensWithoutDigit (name : list ascii) : bool :=
  match name with
  | [] => true
  | a :: _ => negb (is_digit a)
  end.

(** What holds of every key of the catalog. *)
Definition plainKey (key : string) : bool :=
  trimmedName (list_ascii_of_string key)
  && opensWithoutDigit (list_ascii_of_string key).

(** A grade: two capitals, digits (at least one), capitals. *)
Definition isGrade (grade : list ascii) : bool :=
  match grade with
  | g1 :: g2 :: d :: rest =>
      is_upper g1 && is_upper g2 && is_digit d
      && forallb is_upper (dropAll is_digit rest)
  | _ => false
  end.

(** The title a certification service prints for a coin: year, hyphen, mint
    mark, blank, name, blank, grade. *)
Definition certTitle (d1 d2 d3 d4 mint : ascii) (name grade : list ascii)
    : string :=
  string_of_list_ascii
    ([d1; d2; d3; d4] ++ "-"%char :: mint :: " "%char :: name
       ++ " "%char :: grade).

(** ** Feeds *)

(** The price of the last record of [items] that names [metal]; [default]
    when no record does. *)
Definition lastPriceOr (default : float) (metal : string)
    (items : list (string * float)) : float :=
  match find (fun item => String.eqb (fst item) metal) (rev items) with
  | Some item => snd item
  | None => default
  end.

Definition lastPriceOf (metal : string) (items : list (string * float)) : float :=
  lastPriceOr 0 metal items.


(** ** Coins *)

(** What the metal code never writes: every field of a coin but the
    quantity, the metal data, the current value and its date. *)
Definition description (coin : models.Coin) :=
  (models.ID coin, models.PortfolioID coin, models.CoinType coin,
   models.Year coin, models.MintMark coin, models.Denomination coin,
   models.PCGSCertNumber coin, models.PurchasePrice coin,
   models.PurchaseDate coin, models.NumismaticValue coin,
   models.ImageURL coin, models.ThumbnailURL coin, models.Notes coin,
   models.CreatedAt coin, models.UpdatedAt coin).

(** The metal data of a coin, and of a composition. *)
Definition metalData (coin : models.Coin) : string * float * float :=
  (models.MetalType coin, models.MetalWeight coin, models.MetalPurity coin).

Definition metalDataOf (comp : MetalComposition) : string * float * float :=
  (MetalType comp, Weight comp, Purity comp).

(** A composition whose metal data counts as complete on a coin. *)
Definition carriesMetalData (comp : MetalComposition) : bool :=
  negb (String.eqb (MetalType comp) "")
  && (0 <? Weight comp)%float && (0 <? Purity comp)%float.

(** A coin as a create request without metal data leaves it. *)
Definition bareCoin (coinType : string) (year : Z) (currentValue : float)
    : models.Coin :=
  {| models.ID := 0%N; models.PortfolioID := 7%N;
     models.CoinType := coinType; models.Year := year;
     models.MintMark := ""; models.Denomination := "";
     models.PCGSCertNumber := ""; models.PurchasePrice := 0;
     models.PurchaseDate := None; models.CurrentValue := currentValue;
     models.NumismaticValue := 0; models.LastPriceUpdate := None;
     models.ImageURL := ""; models.ThumbnailURL := ""; models.Notes := "";
     models.Quantity := 0; models.MetalType := ""; models.MetalWeight := 0;
     models.MetalPurity := 0; models.CreatedAt := zeroTime;
     models.UpdatedAt := zeroTime |}.

(** An update request that names a coin type and nothing else. *)
Definition retypeRequest (coinType : string) : handlers.UpdateCoinRequest.t :=
  {| handlers.UpdateCoinRequest.PortfolioID := "";
     handlers.UpdateCoinRequest.CoinType := coinType;
     handlers.UpdateCoinRequest.Year := 0;
     handlers.UpdateCoinRequest.MintMark := "";
     handlers.UpdateCoinRequest.Denomination := "";
     handlers.UpdateCoinRequest.PCGSCertNumber := "";
     handlers.UpdateCoinRequest.PurchasePrice := 0;
     handlers.UpdateCoinRequest.CurrentValue := 0;
     handlers.UpdateCoinRequest.NumismaticValue := 0;
     handlers.UpdateCoinRequest.Notes := "";
     handlers.UpdateCoinRequest.Quantity := 0;
     handlers.UpdateCoinRequest.MetalType := "";
     handlers.UpdateCoinRequest.MetalWeight := 0;
     handlers.UpdateCoinRequest.MetalPurity := 0 |}.

(** * Properties *)

(** ** Year-range resolver *)

Section YearRules.

Lemma covers_test yr year :
  (StartYear yr <=? year)%Z && (year <=? EndYear yr)%Z = true <-> covers yr year.
Proof. unfold covers. rewrite andb_true_iff, !Z.leb_le. tauto. Qed.

Lemma scanYearRanges_none year ranges :
  Forall (fun r => ~ covers r year) ranges ->
  scanYearRanges year ranges = None.
Proof.
  induction 1 as [|r rest Hr _ IH]; simpl; [reflexivity|].
  destruct ((StartYear r <=? year)%Z && (year <=? EndYear r)%Z) eqn:E; [|exact IH].
  apply covers_test in E. contradiction.
Qed.

Lemma scanYearRanges_first year pre yr post :
  Forall (fun r => ~ covers r year) pre ->
  covers yr year ->
  scanYearRanges year (pre ++ yr :: post) = Some (Composition yr).
Proof.
  intros Hpre Hyr. induction Hpre as [|r rest Hr _ IH]; simpl.
  - apply covers_test in Hyr. rewrite Hyr. reflexivity.
  - destruct ((StartYear r <=? year)%Z && (year <=? EndYear r)%Z) eqn:E; [|exact IH].
    apply covers_test in E. contradiction.
Qed.

(** A range list with a covering range splits at its first covering range. *)
Lemma first_covering_range year ranges :
  Exists (fun r => covers r year) ranges ->
  exists pre yr post,
    ranges = pre ++ yr :: post /\
    Forall (fun r => ~ covers r year) pre /\ covers yr year.
Proof.
  induction ranges as [|r rest IH]; intros Hex.
  - inversion Hex.
  - destruct ((StartYear r <=? year)%Z && (year <=? EndYear r)%Z) eqn:E.
    + apply covers_test in E. exists [], r, rest. repeat split; auto.
      apply E. apply E.
    + assert (Hr : ~ covers r year).
      { intros Hc. apply covers_test in Hc. congruence. }
      inversion Hex as [? ? Hc|? ? Hrest]; subst; [contradiction|].
      destruct (IH Hrest) as (pre & yr & post & -> & Hpre & Hyr).
      exists (r :: pre), yr, post. repeat split; auto. apply Hyr. apply Hyr.
Qed.

(** With a registered rule set the table scan stops at it. *)
Lemma GetCompositionByYearIn_registered table coinType year ybc :
  ruleSetOf table coinType = Some ybc ->
  GetCompositionByYearIn table coinType year =
    match scanYearRanges year (YearRanges ybc) with
    | Some comp => (comp, true)
    | None => (DefaultComp ybc, true)
    end.
Proof.
  unfold ruleSetOf. induction table as [|e rest IH]; simpl; [discriminate|].
  destruct (String.eqb (CoinType e) coinType); intros H.
  - injection H as ->. reflexivity.
  - apply IH, H.
Qed.

(** Without one it is the static catalog lookup, whatever the year. *)
Lemma GetCompositionByYearIn_unregistered table coinType year :
  ruleSetOf table coinType = None ->
  GetCompositionByYearIn table coinType year = GetComposition coinType.
Proof.
  unfold ruleSetOf. induction table as [|e rest IH]; simpl; [reflexivity|].
  destruct (String.eqb (CoinType e) coinType); [discriminate|exact IH].
Qed.

(** No registered range reaches back to year 0. *)
Lemma registered_ranges_positive ybc yr :
  In ybc YearBasedCompositions -> In yr (YearRanges ybc) ->
  (0 < StartYear yr)%Z.
Proof.
  intros Hy Hr. simpl in Hy.
  repeat (destruct Hy as [<-|Hy];
          [simpl in Hr; repeat (destruct Hr as [<-|Hr]; [reflexivity|]);
           contradiction|]).
  contradiction.
Qed.

(** C4.  For a coin type with a registered rule set and a year lying in at
    least one of its ranges, the lookup returns the composition of the
    first-declared range holding the year: the ranges split as
    [pre ++ yr :: post] where no range of [pre] holds the year, [yr] holds it,
    and the result is [yr]'s composition, found. *)
Theorem year_range_first_match table coinType year ybc :
  ruleSetOf table coinType = Some ybc ->
  Exists (fun r => covers r year) (YearRanges ybc) ->
  exists pre yr post,
    YearRanges ybc = pre ++ yr :: post /\
    Forall (fun r => ~ covers r year) pre /\
    covers yr year /\
    GetCompositionByYearIn table coinType year = (Composition yr, true).
Proof.
  intros Hreg Hex.
  destruct (first_covering_range year _ Hex) as (pre & yr & post & Hsplit & Hpre & Hyr).
  exists pre, yr, post. repeat split; auto; try apply Hyr.
  rewrite (GetCompositionByYearIn_registered _ _ _ _ Hreg), Hsplit.
  rewrite scanYearRanges_first; auto.
Qed.

(** C8.  For a coin type with a registered rule set and a positive year that
    no range of the set holds, the lookup returns the set's default
    composition, found. *)
Theorem year_default_fallback table coinType year ybc :
  ruleSetOf table coinType = Some ybc ->
  (0 < year)%Z ->
  Forall (fun r => ~ covers r year) (YearRanges ybc) ->
  GetCompositionByYearIn table coinType year = (DefaultComp ybc, true).
Proof.
  intros Hreg _ Hnone.
  rewrite (GetCompositionByYearIn_registered _ _ _ _ Hreg).
  rewrite scanYearRanges_none; auto.
Qed.

(** C1, as the code has it.  For a year [<= 0] the handlers' dispatch returns
    the static catalog lookup; [GetCompositionByYear] has no guard on the
    year: it returns the static catalog lookup when the coin type has no
    registered rule set, and the default composition of the rule set, found,
    when it has one. *)
Theorem unknown_year_resolution coinType year :
  (year <= 0)%Z ->
  resolveComposition coinType year = GetComposition coinType /\
  (ruleSetOf YearBasedCompositions coinType = None ->
   GetCompositionByYear coinType year = GetComposition coinType) /\
  (forall ybc, ruleSetOf YearBasedCompositions coinType = Some ybc ->
   GetCompositionByYear coinType year = (DefaultComp ybc, true)).
Proof.
  intros Hy. split; [|split].
  - unfold resolveComposition.
    destruct (0 <? year)%Z eqn:E; [apply Z.ltb_lt in E; lia|reflexivity].
  - apply GetCompositionByYearIn_unregistered.
  - intros ybc Hreg. unfold GetCompositionByYear.
    rewrite (GetCompositionByYearIn_registered _ _ _ _ Hreg).
    rewrite scanYearRanges_none; [reflexivity|].
    apply Forall_forall. intros yr Hin [Hlo _]. apply list_elem_of_In in Hin.
    apply find_some in Hreg. destruct Hreg as [Hin' _].
    pose proof (registered_ranges_positive _ _ Hin' Hin). lia.
Qed.

End YearRules.

(** *** Instances *)

Lemma year_range_first_match_witness :
  exists pre yr post,
    YearRanges overlappingRuleSet = pre ++ yr :: post /\
    Forall (fun r => ~ covers r 1967) pre /\
    covers yr 1967 /\
    GetCompositionByYearIn overlappingRules "Synthetic Dollar" 1967 =
      (Composition yr, true).
Proof.
  apply (year_range_first_match overlappingRules "Synthetic Dollar" 1967
           overlappingRuleSet).
  - reflexivity.
  - apply Exists_cons_hd. unfold covers. simpl. lia.
Defined.

(** The overlap of the two ranges resolves to the first-declared one. *)
Example overlap_1967 :
  GetCompositionByYearIn overlappingRules "Synthetic Dollar" 1967 =
    (syntheticComposition "first (1960-1970)", true).
Proof. reflexivity. Qed.

Lemma year_default_fallback_witness :
  exists ybc,
    ruleSetOf YearBasedCompositions "Washington Quarter" = Some ybc /\
    Name (DefaultComp ybc) = "Washington Quarter (1965+)" /\
    GetCompositionByYearIn YearBasedCompositions "Washington Quarter" 1965 =
      (DefaultComp ybc, true).
Proof.
  eexists. split; [reflexivity|]. split; [reflexivity|].
  apply year_default_fallback.
  - reflexivity.
  - lia.
  - repeat constructor. unfold covers. simpl. lia.
Defined.

Lemma unknown_year_resolution_witness :
  resolveComposition "Kennedy Half Dollar" 0 = GetComposition "Kennedy Half Dollar" /\
  (ruleSetOf YearBasedCompositions "Kennedy Half Dollar" = None ->
   GetCompositionByYear "Kennedy Half Dollar" 0 = GetComposition "Kennedy Half Dollar") /\
  (forall ybc, ruleSetOf YearBasedCompositions "Kennedy Half Dollar" = Some ybc ->
   GetCompositionByYear "Kennedy Half Dollar" 0 = (DefaultComp ybc, true)).
Proof. apply (unknown_year_resolution "Kennedy Half Dollar" 0). lia. Defined.

(** C1 fails on [GetCompositionByYear]: "Kennedy Half Dollar" has a rule set,
    and for the unknown year 0 the rule path is taken: the result is the
    1971+ clad default, not the catalog's 1964 silver entry. *)
Lemma unknown_year_counterexample :
  (0 <= 0)%Z /\
  Name (fst (GetCompositionByYear "Kennedy Half Dollar" 0)) =
    "Kennedy Half Dollar (1971+)" /\
  Name (fst (GetComposition "Kennedy Half Dollar")) =
    "Kennedy Half Dollar (1964)" /\
  GetCompositionByYear "Kennedy Half Dollar" 0 <>
    GetComposition "Kennedy Half Dollar".
Proof.
  split; [lia|]. split; [vm_compute; reflexivity|].
  split; [vm_compute; reflexivity|].
  intros H. apply (f_equal (fun r => Name (fst r))) in H.
  vm_compute in H. discriminate H.
Qed.

(** ** Name normalizer *)

Section Normalizer.

(** *** The character classes are disjoint *)

Lemma space_not_upper a : is_space a = true -> is_upper a = false.
Proof. destruct a as [[] [] [] [] [] [] [] []]; vm_compute; congruence. Qed.

Lemma digit_not_upper a : is_digit a = true -> is_upper a = false.
Proof. destruct a as [[] [] [] [] [] [] [] []]; vm_compute; congruence. Qed.

Lemma upper_not_digit a : is_upper a = true -> is_digit a = false.
Proof. destruct a as [[] [] [] [] [] [] [] []]; vm_compute; congruence. Qed.

(** *** Greedy repetition *)

Lemma rep_none_left (x : option (list ascii)) :
  match x with Some rest => Some rest | None => None end = x.
Proof. destruct x; reflexivity. Qed.

(** Exactly [n] characters of the class. *)
Lemma rep_exact cls n k pos s :
  rep cls n (Some n) k pos s =
    if (n <=? List.length s)%nat && forallb cls (firstn n s)
    then k (n + pos)%nat (skipn n s) else None.
Proof.
  revert n pos. induction s as [|a s' IH]; intros n pos.
  - destruct n; reflexivity.
  - destruct n as [|m]; [simpl; rewrite andb_false_r; reflexivity|]. simpl.
    destruct (cls a); simpl; [|rewrite andb_false_r; reflexivity].
    rewrite IH, rep_none_left, Nat.add_succ_r. reflexivity.
Qed.

(** No upper bound, and a continuation that refuses to start on a character
    of the class: the whole run is taken. *)
Lemma rep_greedy cls lo k pos s :
  (forall p a t, cls a = true -> k p (a :: t) = None) ->
  rep cls lo None k pos s =
    if (lo <=? span cls s)%nat then k (span cls s + pos)%nat (dropAll cls s)
    else None.
Proof.
  intros Hk. unfold dropAll. revert lo pos.
  induction s as [|a s' IH]; intros lo pos.
  - destruct lo; reflexivity.
  - simpl rep. simpl span. destruct (cls a) eqn:Ea; simpl.
    + rewrite IH, Nat.add_succ_r.
      destruct lo as [|lo']; simpl.
      * destruct (k _ (skipn (span cls s') s')); [reflexivity|].
        apply Hk, Ea.
      * destruct (lo' <=? span cls s')%nat; [|reflexivity].
        apply rep_none_left.
    + destruct lo; reflexivity.
Qed.

(** A continuation that always succeeds: nothing is ever given back. *)
Lemma rep_star_total cls k f pos s :
  (forall p t, k p t = Some (f t)) ->
  rep cls 0 None k pos s = Some (f (dropAll cls s)).
Proof.
  intros Hk. unfold dropAll. revert pos.
  induction s as [|a s' IH]; intros pos; simpl; [apply Hk|].
  destruct (cls a); simpl; [rewrite IH; reflexivity|apply Hk].
Qed.

Lemma rep_opt_total cls k f pos s :
  (forall p t, k p t = Some (f t)) ->
  rep cls 0 (Some 1) k pos s = Some (f (dropOne cls s)).
Proof.
  intros Hk. destruct s as [|a s']; simpl; [apply Hk|].
  destruct (cls a); simpl; [|apply Hk].
  destruct s'; simpl; rewrite ?andb_false_r; rewrite Hk; reflexivity.
Qed.

(** *** The year pattern *)

Lemma matchHere_yearPattern pos s :
  matchHere yearPattern pos s =
    if Nat.eqb pos 0 && startsWithYear s then
      Some (dropAll is_space
              (dropOne is_upper (dropOne is_dash_or_space (skipn 4 s))))
    else None.
Proof.
  unfold yearPattern, startsWithYear.
  destruct pos as [|pos']; [|reflexivity].
  cbn [matchHere Nat.eqb andb]. rewrite rep_exact.
  destruct ((4 <=? List.length s)%nat && forallb is_digit (firstn 4 s));
    [|reflexivity].
  rewrite (rep_opt_total _ _ (fun t => dropAll is_space (dropOne is_upper t)));
    [reflexivity|].
  intros p t.
  rewrite (rep_opt_total _ _ (dropAll is_space)); [reflexivity|].
  intros p' t'.
  rewrite (rep_star_total _ _ (fun t => t)); reflexivity.
Qed.

(** *** Deleting the matches *)

Lemma deleteMatches_skip r pos n s :
  deleteMatches r pos n s = deleteMatches r (n + pos) 0 (skipn n s).
Proof.
  revert pos n. induction s as [|a s' IH]; intros pos n.
  - destruct n; reflexivity.
  - destruct n as [|m]; [reflexivity|]. simpl.
    rewrite IH, Nat.add_succ_r. reflexivity.
Qed.

(** The year pattern is anchored: past offset 0 nothing is deleted. *)
Lemma deleteMatches_yearPattern_later pos s :
  deleteMatches yearPattern (S pos) 0 s = s.
Proof.
  revert pos. induction s as [|a s' IH]; intros pos; [reflexivity|].
  cbn [deleteMatches]. rewrite matchHere_yearPattern. simpl.
  rewrite IH. reflexivity.
Qed.

Lemma dropAll_suffix cls s : dropAll cls s `suffix_of` s.
Proof. apply suffix_drop. Qed.

Lemma dropOne_suffix cls s : dropOne cls s `suffix_of` s.
Proof.
  destruct s as [|a s']; simpl; [reflexivity|].
  destruct (cls a); [apply suffix_cons_r|]; reflexivity.
Qed.

Lemma skipn_to_suffix (rest s : list ascii) :
  rest `suffix_of` s -> skipn (List.length s - List.length rest) s = rest.
Proof.
  intros [pre ->]. rewrite length_app.
  replace (List.length pre + List.length rest - List.length rest)%nat
    with (List.length pre) by lia.
  apply drop_app_length.
Qed.

(** What the year token leaves is a suffix at least four characters shorter. *)
Lemma yearToken_rest s :
  startsWithYear s = true ->
  let rest :=
    dropAll is_space (dropOne is_upper (dropOne is_dash_or_space (skipn 4 s))) in
  rest `suffix_of` s /\ (List.length rest + 4 <= List.length s)%nat.
Proof.
  unfold startsWithYear. intros H. apply andb_true_iff in H as [Hlen _].
  apply Nat.leb_le in Hlen. cbv zeta.
  assert (Hs : dropAll is_space
                 (dropOne is_upper (dropOne is_dash_or_space (skipn 4 s)))
               `suffix_of` skipn 4 s).
  { etransitivity; [apply dropAll_suffix|].
    etransitivity; [apply dropOne_suffix|]. apply dropOne_suffix. }
  split.
  - etransitivity; [exact Hs|]. apply suffix_drop.
  - apply suffix_length in Hs. rewrite length_skipn in Hs. lia.
Qed.

Lemma deleteMatches_yearPattern s :
  deleteMatches yearPattern 0 0 s = stripYearToken s.
Proof.
  unfold stripYearToken. destruct s as [|a s']; [reflexivity|].
  cbn [deleteMatches]. rewrite matchHere_yearPattern. cbn [Nat.eqb andb].
  destruct (startsWithYear (a :: s')) eqn:E.
  - destruct (yearToken_rest _ E) as [Hsuf Hlen].
    set (rest := dropAll is_space _) in *.
    pose proof (skipn_to_suffix _ _ Hsuf) as Hskip.
    destruct (List.length (a :: s') - List.length rest)%nat as [|n] eqn:En;
      [simpl in Hlen, En; lia|].
    rewrite deleteMatches_skip, Nat.add_succ_r, deleteMatches_yearPattern_later.
    exact Hskip.
  - rewrite deleteMatches_yearPattern_later. reflexivity.
Qed.

(** *** The grade pattern *)

Lemma dropAll_nil_iff cls s :
  (span cls s =? List.length s)%nat =
    match dropAll cls s with [] => true | _ :: _ => false end.
Proof.
  unfold dropAll. induction s as [|a s' IH]; [reflexivity|]. simpl.
  destruct (cls a); [exact IH|reflexivity].
Qed.

Lemma matchHere_gradePattern pos t :
  matchHere gradePattern pos t = if isGradeToken t then Some [] else None.
Proof.
  unfold gradePattern, isGradeToken. cbn [matchHere].
  set (k4 := fun (p : nat) (s : list ascii) =>
               match s with [] => matchHere [] p s | _ :: _ => None end).
  assert (H4 : forall p a u, is_upper a = true -> k4 p (a :: u) = None)
    by reflexivity.
  assert (H3 : forall p a u, is_digit a = true ->
                 rep is_upper 0 None k4 p (a :: u) = None).
  { intros p a u Ha. rewrite (rep_greedy _ _ _ _ _ H4). unfold dropAll. simpl.
    rewrite (digit_not_upper _ Ha). reflexivity. }
  assert (H1 : forall p a u, is_space a = true ->
                 rep is_upper 2 (Some 2) (rep is_digit 1 None (rep is_upper 0 None k4))
                     p (a :: u) = None).
  { intros p a u Ha. rewrite rep_exact. simpl.
    rewrite (space_not_upper _ Ha). simpl. rewrite andb_false_r. reflexivity. }
  rewrite (rep_greedy _ _ _ _ _ H1).
  destruct (1 <=? span is_space t)%nat; [|reflexivity]. cbn [andb].
  rewrite rep_exact.
  destruct ((2 <=? List.length (dropAll is_space t))%nat
            && forallb is_upper (firstn 2 (dropAll is_space t))); [|reflexivity].
  cbn [andb]. rewrite (rep_greedy _ _ _ _ _ H3).
  destruct (1 <=? span is_digit (skipn 2 (dropAll is_space t)))%nat;
    [|reflexivity].
  cbn [andb]. rewrite (rep_greedy _ _ _ _ _ H4). cbn [Nat.leb].
  rewrite dropAll_nil_iff. unfold k4.
  destruct (dropAll is_upper _); reflexivity.
Qed.

Lemma deleteMatches_gradePattern pos s :
  deleteMatches gradePattern pos 0 s = stripGradeToken s.
Proof.
  revert pos. induction s as [|a s' IH]; intros pos; [reflexivity|].
  cbn [deleteMatches stripGradeToken]. rewrite matchHere_gradePattern.
  destruct (isGradeToken (a :: s')).
  - simpl. rewrite deleteMatches_skip, skipn_all. reflexivity.
  - rewrite IH. reflexivity.
Qed.

(** The normalizer, read on the characters: the year token goes, then the
    grade token. *)
Lemma normalizeCoinType_tokens s :
  normalizeCoinType s =
    string_of_list_ascii
      (stripGradeToken (stripYearToken (list_ascii_of_string s))).
Proof.
  unfold normalizeCoinType, ReplaceAllString_empty.
  rewrite list_ascii_of_string_of_list_ascii.
  rewrite deleteMatches_yearPattern, deleteMatches_gradePattern. reflexivity.
Qed.

(** *** The grade token, by its parts *)

Lemma upper_not_space a : is_upper a = true -> is_space a = false.
Proof. destruct a as [[] [] [] [] [] [] [] []]; vm_compute; congruence. Qed.

Lemma span_prefix cls s : forallb cls (firstn (span cls s) s) = true.
Proof.
  induction s as [|a s' IH]; [reflexivity|]. simpl.
  destruct (cls a) eqn:Ea; simpl; [rewrite Ea; exact IH|reflexivity].
Qed.

Lemma span_le cls s : (span cls s <= List.length s)%nat.
Proof.
  induction s as [|a s' IH]; simpl; [lia|]. destruct (cls a); simpl; lia.
Qed.

(** A stretch of the class followed by nothing, or by a character outside
    it. *)
Lemma span_app cls pre rest :
  forallb cls pre = true ->
  match rest with [] => True | a :: _ => cls a = false end ->
  span cls (pre ++ rest) = List.length pre.
Proof.
  intros Hpre Hrest. induction pre as [|b pre' IH]; simpl in *.
  - destruct rest as [|a rest']; [reflexivity|]. simpl. rewrite Hrest. reflexivity.
  - apply andb_true_iff in Hpre as [-> Hpre]. rewrite (IH Hpre). reflexivity.
Qed.

(** [isGradeToken] holds of exactly the texts made of one or more blanks, two
    capitals, one or more digits and any number of capitals. *)
Lemma isGradeToken_iff t :
  isGradeToken t = true <->
  exists blanks u1 u2 digits suffix,
    t = blanks ++ u1 :: u2 :: digits ++ suffix /\
    blanks <> [] /\ forallb is_space blanks = true /\
    is_upper u1 = true /\ is_upper u2 = true /\
    digits <> [] /\ forallb is_digit digits = true /\
    forallb is_upper suffix = true.
Proof.
  unfold isGradeToken, dropAll. split.
  - intros H.
    apply andb_true_iff in H as [H Hsuffix].
    apply andb_true_iff in H as [H Hdigits].
    apply andb_true_iff in H as [H H2].
    apply andb_true_iff in H2 as [Hlen Hupper].
    apply Nat.eqb_eq in Hsuffix. apply Nat.leb_le in Hdigits, Hlen, H.
    set (t1 := skipn (span is_space t) t) in *.
    destruct t1 as [|u1 [|u2 t2]] eqn:Et1; simpl in Hlen; try lia.
    simpl in Hupper, Hdigits, Hsuffix. rewrite !drop_0 in Hdigits, Hsuffix.
    apply andb_true_iff in Hupper as [Hu1 Hupper].
    apply andb_true_iff in Hupper as [Hu2 _].
    exists (firstn (span is_space t) t), u1, u2,
           (firstn (span is_digit t2) t2), (skipn (span is_digit t2) t2).
    repeat split; auto using span_prefix.
    + rewrite firstn_skipn. fold t1 in Et1.
      rewrite <- Et1. unfold t1. symmetry. apply firstn_skipn.
    + intros Hnil. apply (f_equal (@List.length ascii)) in Hnil.
      pose proof (span_le is_space t).
      rewrite length_firstn in Hnil. simpl in Hnil. lia.
    + intros Hnil. apply (f_equal (@List.length ascii)) in Hnil.
      pose proof (span_le is_digit t2).
      rewrite length_firstn in Hnil. simpl in Hnil. lia.
    + set (t3 := skipn (span is_digit t2) t2) in *.
      rewrite <- (firstn_all t3), <- Hsuffix. apply span_prefix.
  - intros (blanks & u1 & u2 & digits & suffix & -> & Hb & Hbs & Hu1 & Hu2
            & Hd & Hds & Hsuf).
    assert (Hspan : span is_space (blanks ++ u1 :: u2 :: digits ++ suffix)
                    = List.length blanks).
    { apply span_app; [exact Hbs|]. apply upper_not_space, Hu1. }
    rewrite Hspan, drop_app_length. cbn [skipn firstn forallb List.length].
    rewrite !drop_0, take_0.
    assert (Hspan2 : span is_digit (digits ++ suffix) = List.length digits).
    { apply span_app; [exact Hds|]. destruct suffix as [|a suffix']; [exact I|].
      simpl in Hsuf. apply andb_true_iff in Hsuf as [Ha _].
      apply upper_not_digit, Ha. }
    rewrite Hspan2, drop_app_length, Hu1, Hu2.
    assert (Hspan3 : span is_upper suffix = List.length suffix).
    { rewrite <- (app_nil_r suffix) at 1. apply span_app; [exact Hsuf|exact I]. }
    rewrite Hspan3, Nat.eqb_refl.
    destruct blanks; [contradiction|]. destruct digits; [contradiction|].
    reflexivity.
Qed.

(** *** Texts without a token, and the length of what is left *)

Lemma stripYearToken_none s : startsWithYear s = false -> stripYearToken s = s.
Proof. unfold stripYearToken. intros ->. reflexivity. Qed.

Lemma stripYearToken_shorter s :
  startsWithYear s = true ->
  (List.length (stripYearToken s) < List.length s)%nat.
Proof.
  intros H. unfold stripYearToken. rewrite H.
  destruct (yearToken_rest s H) as [_ Hlen]. lia.
Qed.

Lemma stripGradeToken_none s : endsWithGrade s = false -> stripGradeToken s = s.
Proof.
  induction s as [|a s' IH]; simpl; intros H.
  - destruct (isGradeToken []); reflexivity.
  - apply orb_false_iff in H as [-> H]. rewrite (IH H). reflexivity.
Qed.

Lemma stripGradeToken_length s :
  (List.length (stripGradeToken s) <= List.length s)%nat.
Proof.
  induction s as [|a s' IH]; simpl.
  - destruct (isGradeToken []); simpl; lia.
  - destruct (isGradeToken (a :: s')); simpl; lia.
Qed.

Lemma stripGradeToken_shorter s :
  endsWithGrade s = true ->
  (List.length (stripGradeToken s) < List.length s)%nat.
Proof.
  induction s as [|a s' IH]; simpl; intros H.
  - discriminate H.
  - destruct (isGradeToken (a :: s')); simpl in *; [lia|].
    specialize (IH H). lia.
Qed.

(** Stripping both tokens leaves the characters as they are exactly when
    neither token is there. *)
Lemma stripTokens_fixed_iff l :
  stripGradeToken (stripYearToken l) = l <->
  startsWithYear l = false /\ endsWithGrade l = false.
Proof.
  split.
  - intros H.
    pose proof (stripGradeToken_length (stripYearToken l)) as Hle.
    destruct (startsWithYear l) eqn:Ey.
    + pose proof (stripYearToken_shorter l Ey). rewrite H in Hle. lia.
    + split; [reflexivity|]. rewrite (stripYearToken_none l Ey) in H.
      destruct (endsWithGrade l) eqn:Eg; [|reflexivity].
      pose proof (stripGradeToken_shorter l Eg). rewrite H in *. lia.
  - intros [Hy Hg].
    rewrite (stripYearToken_none l Hy). apply (stripGradeToken_none l Hg).
Qed.

(** C6, as the code has it.  [normalizeCoinType] removes the leading year
    token (four digits, an optional hyphen or blank, an optional capital, then
    blanks) and then the trailing grade token, whose prefix is exactly two
    capitals (blanks, two capitals, digits, capitals, to the end of the
    text); a text with neither token is returned unchanged. *)
Theorem normalize_strips_tokens s :
  normalizeCoinType s =
    string_of_list_ascii
      (stripGradeToken (stripYearToken (list_ascii_of_string s))) /\
  (hasYearToken s = false -> hasGradeToken s = false ->
   normalizeCoinType s = s).
Proof.
  split; [apply normalizeCoinType_tokens|].
  unfold hasYearToken, hasGradeToken. intros Hy Hg.
  rewrite normalizeCoinType_tokens.
  rewrite (stripYearToken_none _ Hy), (stripGradeToken_none _ Hg).
  apply string_of_list_ascii_of_string.
Qed.

(** C6 fails on the length of the grade prefix: a three-capital grade is a
    grade token of the pattern with two to four capitals, which strips it,
    and the code leaves it in place. *)
Lemma normalize_grade_counterexample :
  normalizeTwoToFour "Peace Dollar ABC12" = "Peace Dollar" /\
  normalizeCoinType "Peace Dollar ABC12" = "Peace Dollar ABC12" /\
  normalizeCoinType "Peace Dollar ABC12" <> normalizeTwoToFour "Peace Dollar ABC12".
Proof. repeat split; try reflexivity. vm_compute. discriminate. Qed.

(** C7, as the code has it.  Normalizing twice gives the same as normalizing
    once exactly when the normalized text carries no further leading year
    token and no further trailing grade token: one call removes at most one
    token at each end. *)
Theorem normalize_idempotent_iff s :
  normalizeCoinType (normalizeCoinType s) = normalizeCoinType s <->
  hasYearToken (normalizeCoinType s) = false /\
  hasGradeToken (normalizeCoinType s) = false.
Proof.
  unfold hasYearToken, hasGradeToken.
  set (once := normalizeCoinType s).
  rewrite (normalizeCoinType_tokens once).
  rewrite <- stripTokens_fixed_iff. split; intros H.
  - apply (f_equal list_ascii_of_string) in H.
    rewrite list_ascii_of_string_of_list_ascii in H. exact H.
  - rewrite H. apply string_of_list_ascii_of_string.
Qed.

(** C7 fails on a doubled grade: the first call removes one, the second the
    other. *)
Lemma normalize_idempotent_counterexample :
  normalizeCoinType "Peace Dollar MS67 MS67" = "Peace Dollar MS67" /\
  normalizeCoinType (normalizeCoinType "Peace Dollar MS67 MS67") = "Peace Dollar" /\
  normalizeCoinType (normalizeCoinType "Peace Dollar MS67 MS67") <>
    normalizeCoinType "Peace Dollar MS67 MS67".
Proof. repeat split; try reflexivity. vm_compute. discriminate. Qed.

(** Both tokens hold a digit, so a normalized text without digits is a fixed
    point. *)
Lemma startsWithYear_digit l :
  startsWithYear l = true -> existsb is_digit l = true.
Proof.
  unfold startsWithYear. intros H. apply andb_true_iff in H as [Hlen Hall].
  destruct l as [|d l']; [discriminate Hlen|]. simpl in *.
  apply andb_true_iff in Hall as [-> _]. reflexivity.
Qed.

Lemma endsWithGrade_digit l :
  endsWithGrade l = true -> existsb is_digit l = true.
Proof.
  induction l as [|a l' IH]; simpl; intros H; [discriminate H|].
  apply orb_true_iff in H as [H|H].
  - apply isGradeToken_iff in H
      as (blanks & u1 & u2 & digits & suffix & E & _ & _ & _ & _ & Hd & Hds & _).
    change (existsb is_digit (a :: l') = true). rewrite E.
    destruct digits as [|d digits']; [contradiction|]. simpl in Hds.
    apply andb_true_iff in Hds as [Hdig _].
    rewrite existsb_app. simpl. rewrite Hdig, !orb_true_r. reflexivity.
  - rewrite (IH H). apply orb_true_r.
Qed.

Lemma normalize_idempotent_without_digits s :
  existsb is_digit (list_ascii_of_string (normalizeCoinType s)) = false ->
  normalizeCoinType (normalizeCoinType s) = normalizeCoinType s.
Proof.
  intros Hnone. rewrite (normalizeCoinType_tokens (normalizeCoinType s)).
  set (l := list_ascii_of_string (normalizeCoinType s)) in *.
  assert (Hy : startsWithYear l = false).
  { destruct (startsWithYear l) eqn:E; [|reflexivity].
    apply startsWithYear_digit in E. congruence. }
  assert (Hg : endsWithGrade l = false).
  { destruct (endsWithGrade l) eqn:E; [|reflexivity].
    apply endsWithGrade_digit in E. congruence. }
  rewrite (stripYearToken_none l Hy), (stripGradeToken_none l Hg).
  apply string_of_list_ascii_of_string.
Qed.

(** The same with a doubled year. *)
Example normalize_twice_year :
  normalizeCoinType "1921 1921-S Peace Dollar" = "1921-S Peace Dollar" /\
  normalizeCoinType (normalizeCoinType "1921 1921-S Peace Dollar") = "Peace Dollar".
Proof. split; reflexivity. Qed.

Example normalize_twice_pcgs_title :
  normalizeCoinType (normalizeCoinType "1921-S Peace Dollar MS67") =
    normalizeCoinType "1921-S Peace Dollar MS67".
Proof. reflexivity. Qed.

Example normalize_pcgs_title :
  normalizeCoinType "1921-S Peace Dollar MS67" = "Peace Dollar".
Proof. reflexivity. Qed.

Example normalize_long_grade :
  normalizeCoinType "1964-D Kennedy Half Dollar PR70DCAM" = "Kennedy Half Dollar".
Proof. reflexivity. Qed.

(** After a blank the optional mint-mark letter of the year pattern takes the
    first capital of the name. *)
Example normalize_year_blank :
  normalizeCoinType "1921 Peace Dollar MS67" = "eace Dollar".
Proof. reflexivity. Qed.

Example normalize_plain_name :
  normalizeCoinType "Walking Liberty Half Dollar" = "Walking Liberty Half Dollar".
Proof. reflexivity. Qed.

Example spec_two_to_four :
  normalizeTwoToFour "Peace Dollar ABC12" = "Peace Dollar" /\
  normalizeTwoToFour "Peace Dollar MS67" = "Peace Dollar" /\
  normalizeTwoToFour "Peace Dollar ABCDE12" = "Peace Dollar ABCDE12".
Proof. repeat split; reflexivity. Qed.

End Normalizer.

(** ** Spot-price oracle *)

Section Oracle.

Lemma Sub_below_cacheDuration (t u : Time) :
  (Sub t u <? cacheDuration)%Z = (t - u <? cacheDuration)%Z.
Proof.
  unfold Sub, minDuration, maxDuration, cacheDuration, Minute.
  destruct (t - u <? 15 * (60 * 1000000000))%Z eqn:E.
  - apply Z.ltb_lt in E. apply Z.ltb_lt. lia.
  - apply Z.ltb_ge in E. apply Z.ltb_ge. lia.
Qed.

(** The first feed either yields a snapshot or an error, never both or
    neither; it makes one request and touches neither package variable. *)
Lemma fetchGoldPriceOrg_spec w s :
  let r := fetchGoldPriceOrg w s in
  ((exists p, fst r = (Some p, None)) \/ (exists e, fst r = (None, Some e))) /\
  cachedPrices (snd r) = cachedPrices s /\
  lastFetchTime (snd r) = lastFetchTime s /\
  httpLog (snd r) = goldPriceOrgURL :: httpLog s /\
  (clockReads s <= clockReads (snd r))%nat.
Proof.
  unfold fetchGoldPriceOrg, bind, requestGoldPriceOrg, timeNow, ret. simpl.
  destruct (goldPriceOrg w (length (httpLog s))) as [e|e|e|[|[gold silver] items]];
    simpl; try (repeat split; eauto; fail).
  destruct ((gold =? 0)%float || (silver =? 0)%float); simpl;
    repeat split; eauto.
Qed.

Lemma fetchMetalsLive_spec w s :
  let r := fetchMetalsLive w s in
  ((exists p, fst r = (Some p, None)) \/ (exists e, fst r = (None, Some e))) /\
  cachedPrices (snd r) = cachedPrices s /\
  lastFetchTime (snd r) = lastFetchTime s /\
  httpLog (snd r) = metalsLiveURL :: httpLog s /\
  (clockReads s <= clockReads (snd r))%nat.
Proof.
  unfold fetchMetalsLive, bind, requestMetalsLive, timeNow, ret. simpl.
  destruct (metalsLive w (length (httpLog s))) as [e|e|e|items];
    simpl; try (repeat split; eauto; fail).
  match goal with |- context [if ?b then _ else _] => destruct b end; simpl;
    repeat split; eauto.
Qed.

(** The chain returns a snapshot, or the single error of an exhausted chain. *)
Lemma fetchRealPrices_spec w s :
  let r := fetchRealPrices w s in
  ((exists p, fst r = (Some p, None)) \/
   fst r = (None, Some "all price sources failed")) /\
  cachedPrices (snd r) = cachedPrices s /\
  lastFetchTime (snd r) = lastFetchTime s /\
  (exists more, httpLog (snd r) = more ++ goldPriceOrgURL :: httpLog s) /\
  (clockReads s <= clockReads (snd r))%nat.
Proof.
  unfold fetchRealPrices, bind, ret.
  pose proof (fetchGoldPriceOrg_spec w s) as H1. simpl in H1.
  destruct (fetchGoldPriceOrg w s) as [[p1 e1] s1]. simpl in *.
  destruct H1 as ([[p Hp]|[e He]] & Hc & Hl & Hh & Hk).
  - injection Hp as -> ->. simpl. repeat split; eauto. exists []. exact Hh.
  - injection He as -> ->. simpl.
    pose proof (fetchMetalsLive_spec w s1) as H2. simpl in H2.
    destruct (fetchMetalsLive w s1) as [[p2 e2] s2]. simpl in *.
    destruct H2 as ([[p Hp]|[e' He']] & Hc2 & Hl2 & Hh2 & Hk2).
    + injection Hp as -> ->. simpl. repeat split; eauto; try congruence; try lia.
      exists [metalsLiveURL]. simpl. congruence.
    + injection He' as -> ->. simpl. repeat split; eauto; try congruence; try lia.
      exists [metalsLiveURL]. simpl. congruence.
Qed.

(** A refresh always ends with a snapshot: it is returned with a nil error,
    it is the new cache, requests were made, and the fetch timestamp is the
    last clock reading of the call.  When the chain is exhausted the snapshot
    is the static one, stamped with the reading made right after the chain. *)
Lemma refreshSpotPrices_spec w s :
  let r := refreshSpotPrices w s in
  exists prices,
    fst r = (Some prices, None) /\
    cachedPrices (snd r) = Some prices /\
    (exists more, httpLog (snd r) = more ++ goldPriceOrgURL :: httpLog s) /\
    (clockReads s < clockReads (snd r))%nat /\
    lastFetchTime (snd r) = clock w (Nat.pred (clockReads (snd r))) /\
    (fst (fetchRealPrices w s) = (None, Some "all price sources failed") ->
     prices = staticFallback (clock w (clockReads (snd (fetchRealPrices w s))))).
Proof.
  unfold refreshSpotPrices, bind.
  pose proof (fetchRealPrices_spec w s) as H. simpl in H.
  destruct (fetchRealPrices w s) as [[p e] s1]. simpl in *.
  destruct H as ([[p' Hp]|Hp] & Hc & Hl & Hh & Hk); injection Hp as -> ->.
  - exists p'. unfold setCachedPrices, setLastFetchTime, timeNow, ret. simpl.
    repeat split; auto; try lia. discriminate.
  - eexists. unfold setCachedPrices, setLastFetchTime, timeNow, ret. simpl.
    repeat split; auto; try lia.
Qed.

(** What the cache test does to the state: nothing but, with a cache, one
    clock reading. *)
Lemma cacheIsFresh_spec w s :
  let r := cacheIsFresh w s in
  cachedPrices (snd r) = cachedPrices s /\
  lastFetchTime (snd r) = lastFetchTime s /\
  httpLog (snd r) = httpLog s /\
  match cachedPrices s with
  | None => fst r = false /\ clockReads (snd r) = clockReads s
  | Some _ =>
      fst r = (clock w (clockReads s) - lastFetchTime s <? cacheDuration)%Z /\
      clockReads (snd r) = S (clockReads s)
  end.
Proof.
  unfold cacheIsFresh, bind, getCachedPrices, getLastFetchTime, timeSince,
    timeNow, ret, bind. simpl.
  destruct (cachedPrices s) eqn:E; simpl; repeat split; auto.
  apply Sub_below_cacheDuration.
Qed.

(** [GetSpotPrices] by cases on the cache test. *)
Lemma GetSpotPrices_cases w s :
  GetSpotPrices w s =
    if fst (cacheIsFresh w s)
    then ((cachedPrices (snd (cacheIsFresh w s)), None), snd (cacheIsFresh w s))
    else refreshSpotPrices w (snd (cacheIsFresh w s)).
Proof.
  unfold GetSpotPrices, bind. destruct (cacheIsFresh w s) as [[|] s1]; reflexivity.
Qed.

(** The first feed carries gold and silver only; the other four fields are
    the constants. *)
Example GetSpotPrices_firstFeedUp :
  GetSpotPrices firstFeedUp initialState =
    let prices := {| Gold := 2701.25; Silver := 31.5; Platinum := 950;
                     Palladium := 950; Copper := 5.52; Nickel := 6.96;
                     UpdatedAt := 0%Z |} in
    ((Some prices, None),
     {| cachedPrices := Some prices; lastFetchTime := 1000000000%Z;
        clockReads := 2; httpLog := [goldPriceOrgURL] |}).
Proof. reflexivity. Qed.

(** A zero price makes the first feed fail; the second fills the metals it
    names and leaves the others at 0. *)
Example GetSpotPrices_secondFeedUp :
  GetSpotPrices secondFeedUp initialState =
    let prices := {| Gold := 2702; Silver := 31.75; Platinum := 980;
                     Palladium := 0; Copper := 4.25; Nickel := 0;
                     UpdatedAt := 0%Z |} in
    ((Some prices, None),
     {| cachedPrices := Some prices; lastFetchTime := 1000000000%Z;
        clockReads := 2; httpLog := [metalsLiveURL; goldPriceOrgURL] |}).
Proof. reflexivity. Qed.

(** A fresh cache is returned as it is; only the clock was read. *)
Lemma GetSpotPrices_fresh w s prices :
  cachedPrices s = Some prices ->
  (clock w (clockReads s) - lastFetchTime s < cacheDuration)%Z ->
  fst (GetSpotPrices w s) = (Some prices, None) /\
  cachedPrices (snd (GetSpotPrices w s)) = Some prices /\
  lastFetchTime (snd (GetSpotPrices w s)) = lastFetchTime s /\
  httpLog (snd (GetSpotPrices w s)) = httpLog s.
Proof.
  intros Hcached Hage. rewrite GetSpotPrices_cases.
  pose proof (cacheIsFresh_spec w s) as H. cbv zeta in H.
  rewrite Hcached in H. destruct H as (Hc & Hl & Hh & Hf & _).
  apply Z.ltb_lt in Hage. rewrite Hage in Hf. rewrite Hf. simpl.
  rewrite Hc. auto.
Qed.

(** A stale cache is refreshed, in the state left by the cache test. *)
Lemma GetSpotPrices_stale w s prices :
  cachedPrices s = Some prices ->
  (cacheDuration <= clock w (clockReads s) - lastFetchTime s)%Z ->
  GetSpotPrices w s = refreshSpotPrices w (snd (cacheIsFresh w s)) /\
  httpLog (snd (cacheIsFresh w s)) = httpLog s /\
  clockReads (snd (cacheIsFresh w s)) = S (clockReads s).
Proof.
  intros Hcached Hage. rewrite GetSpotPrices_cases.
  pose proof (cacheIsFresh_spec w s) as H. cbv zeta in H.
  rewrite Hcached in H. destruct H as (_ & _ & Hh & Hf & Hk).
  apply Z.ltb_ge in Hage. rewrite Hage in Hf. rewrite Hf. auto.
Qed.

(** What the first feed returns and leaves, by cases on the reply. *)
Lemma fetchGoldPriceOrg_reply w s :
  fetchGoldPriceOrg w s =
    let logged :=
      {| cachedPrices := cachedPrices s; lastFetchTime := lastFetchTime s;
         clockReads := clockReads s;
         httpLog := goldPriceOrgURL :: httpLog s |} in
    match goldPriceOrg w (List.length (httpLog s)) with
    | GPGetFailed err | GPReadFailed err | GPBadJSON err =>
        ((None, Some err), logged)
    | GPItems [] => ((None, Some "no items in goldprice.org response"), logged)
    | GPItems ((gold, silver) :: _) =>
        if (gold =? 0)%float || (silver =? 0)%float then
          ((None, Some "invalid price data from goldprice.org"), logged)
        else
          ((Some {| Gold := gold; Silver := silver; Platinum := 950.00;
                    Palladium := 950.00; Copper := 5.52; Nickel := 6.96;
                    UpdatedAt := clock w (clockReads s) |}, None),
           {| cachedPrices := cachedPrices s; lastFetchTime := lastFetchTime s;
              clockReads := S (clockReads s);
              httpLog := goldPriceOrgURL :: httpLog s |})
    end.
Proof.
  unfold fetchGoldPriceOrg, bind, requestGoldPriceOrg, timeNow, ret. simpl.
  destruct (goldPriceOrg w (List.length (httpLog s)))
    as [e|e|e|[|[gold silver] items]]; try reflexivity.
  destruct ((gold =? 0)%float || (silver =? 0)%float); reflexivity.
Qed.


(** The chain stops at the first feed when it succeeds, and only then. *)
Lemma fetchRealPrices_chain w s :
  fetchRealPrices w s =
    match snd (fst (fetchGoldPriceOrg w s)) with
    | None => ((fst (fst (fetchGoldPriceOrg w s)), None), snd (fetchGoldPriceOrg w s))
    | Some _ =>
        let s1 := snd (fetchGoldPriceOrg w s) in
        match snd (fst (fetchMetalsLive w s1)) with
        | None => ((fst (fst (fetchMetalsLive w s1)), None), snd (fetchMetalsLive w s1))
        | Some _ =>
            ((None, Some "all price sources failed"), snd (fetchMetalsLive w s1))
        end
    end.
Proof.
  unfold fetchRealPrices, bind, ret.
  destruct (fetchGoldPriceOrg w s) as [[p1 [e1|]] s1]; simpl; [|reflexivity].
  destruct (fetchMetalsLive w s1) as [[p2 [e2|]] s2]; reflexivity.
Qed.


Lemma fetchMetalsLive_reply w s :
  fetchMetalsLive w s =
    let logged :=
      {| cachedPrices := cachedPrices s; lastFetchTime := lastFetchTime s;
         clockReads := clockReads s; httpLog := metalsLiveURL :: httpLog s |} in
    match metalsLive w (List.length (httpLog s)) with
    | MLGetFailed err | MLReadFailed err | MLBadJSON err =>
        ((None, Some err), logged)
    | MLItems result =>
        let prices :=
          fold_left setMetal result
            {| Gold := 0; Silver := 0; Platinum := 0; Palladium := 0;
               Copper := 0; Nickel := 0; UpdatedAt := clock w (clockReads s) |} in
        let read :=
          {| cachedPrices := cachedPrices s; lastFetchTime := lastFetchTime s;
             clockReads := S (clockReads s);
             httpLog := metalsLiveURL :: httpLog s |} in
        if (Gold prices =? 0)%float || (Silver prices =? 0)%float
        then ((None, Some "incomplete price data"), read)
        else ((Some prices, None), read)
    end.
Proof.
  unfold fetchMetalsLive, bind, requestMetalsLive, timeNow, ret. simpl.
  destruct (metalsLive w (List.length (httpLog s))) as [e|e|e|items];
    try reflexivity.
  simpl. match goal with |- context [if ?b then _ else _] => destruct b end;
    reflexivity.
Qed.


Lemma refreshSpotPrices_result w s :
  fst (refreshSpotPrices w s) =
    match fst (fetchRealPrices w s) with
    | (Some realPrices, None) => (Some realPrices, None)
    | _ =>
        (Some (staticFallback (clock w (clockReads (snd (fetchRealPrices w s))))),
         None)
    end.
Proof.
  unfold refreshSpotPrices, bind.
  destruct (fetchRealPrices w s) as [[[p|] [e|]] s1]; reflexivity.
Qed.


Lemma fetchGoldPriceOrg_not_zero w s p :
  fst (fetchGoldPriceOrg w s) = (Some p, None) ->
  (Gold p =? 0)%float = false /\ (Silver p =? 0)%float = false.
Proof.
  rewrite fetchGoldPriceOrg_reply. cbv zeta.
  destruct (goldPriceOrg w (List.length (httpLog s)))
    as [e|e|e|[|[gold silver] items]]; simpl; try discriminate.
  destruct (gold =? 0)%float eqn:Eg; simpl; [discriminate|].
  destruct (silver =? 0)%float eqn:Es; simpl; [discriminate|].
  intros H. injection H as <-. auto.
Qed.


Lemma fetchMetalsLive_not_zero w s p :
  fst (fetchMetalsLive w s) = (Some p, None) ->
  (Gold p =? 0)%float = false /\ (Silver p =? 0)%float = false.
Proof.
  rewrite fetchMetalsLive_reply. cbv zeta.
  destruct (metalsLive w (List.length (httpLog s))) as [e|e|e|items]; simpl;
    try discriminate.
  destruct (Gold (fold_left setMetal items _) =? 0)%float eqn:Eg; simpl;
    [discriminate|].
  destruct (Silver (fold_left setMetal items _) =? 0)%float eqn:Es; simpl;
    [discriminate|].
  intros H. injection H as <-. auto.
Qed.


Lemma fetchRealPrices_not_zero w s p :
  fst (fetchRealPrices w s) = (Some p, None) ->
  (Gold p =? 0)%float = false /\ (Silver p =? 0)%float = false.
Proof.
  rewrite fetchRealPrices_chain.
  destruct (fetchGoldPriceOrg w s) as [[p1 [e1|]] s1] eqn:E1; simpl.
  - destruct (fetchMetalsLive w s1) as [[p2 [e2|]] s2] eqn:E2; simpl;
      [discriminate|].
    intros H. injection H as ->.
    apply (fetchMetalsLive_not_zero w s1). rewrite E2. reflexivity.
  - intros H. injection H as ->.
    apply (fetchGoldPriceOrg_not_zero w s). rewrite E1. reflexivity.
Qed.

(** Whatever the world and the state, a snapshot comes back with a nil
    error. *)
Lemma GetSpotPrices_returns w s :
  exists prices, fst (GetSpotPrices w s) = (Some prices, None).
Proof.
  rewrite GetSpotPrices_cases.
  pose proof (cacheIsFresh_spec w s) as H. cbv zeta in H.
  destruct H as (Hc & _ & _ & Hm).
  destruct (fst (cacheIsFresh w s)) eqn:Ef.
  - destruct (cachedPrices s) as [p|]; [|destruct Hm; discriminate].
    exists p. simpl. rewrite Hc. reflexivity.
  - destruct (refreshSpotPrices_spec w (snd (cacheIsFresh w s)))
      as (p & Hr & _). exists p. exact Hr.
Qed.

(** C3.  [GetSpotPrices] is total: in every world and state it returns a
    snapshot and a nil error, so no failure of a feed reaches the caller.
    With a fresh cache the snapshot is the cached one, as it is.  After a
    refresh its gold and silver prices are not 0.  When the cache is not
    fresh and both feeds fail, it is the static fallback stamped with the
    clock reading made after the failed chain, and that one is complete: its
    six prices are positive. *)
Theorem GetSpotPrices_total w s :
  exists prices,
    fst (GetSpotPrices w s) = (Some prices, None) /\
    (fst (cacheIsFresh w s) = true -> cachedPrices s = Some prices) /\
    (fst (cacheIsFresh w s) = false ->
     (Gold prices =? 0)%float = false /\ (Silver prices =? 0)%float = false) /\
    (fst (cacheIsFresh w s) = false ->
     forall err1 err2,
       snd (fst (fetchGoldPriceOrg w (snd (cacheIsFresh w s)))) = Some err1 ->
       snd (fst (fetchMetalsLive w
                   (snd (fetchGoldPriceOrg w (snd (cacheIsFresh w s))))))
         = Some err2 ->
       prices =
         staticFallback
           (clock w
              (clockReads (snd (fetchRealPrices w (snd (cacheIsFresh w s))))))
       /\ completeSnapshot prices = true).
Proof.
  destruct (GetSpotPrices_returns w s) as [prices Hret].
  exists prices. split; [exact Hret|].
  rewrite GetSpotPrices_cases in Hret.
  set (s1 := snd (cacheIsFresh w s)) in *.
  split; [|split].
  - intros Hfresh. rewrite Hfresh in Hret. simpl in Hret.
    pose proof (cacheIsFresh_spec w s) as H. cbv zeta in H.
    destruct H as (Hc & _). fold s1 in Hc. rewrite <- Hc. congruence.
  - intros Hstale. rewrite Hstale, refreshSpotPrices_result in Hret.
    destruct (fst (fetchRealPrices w s1)) as [[p|] [e|]] eqn:E;
      injection Hret as <-; try (split; reflexivity).
    apply (fetchRealPrices_not_zero w s1 p E).
  - intros Hstale err1 err2 H1 H2.
    assert (Hfail : fst (fetchRealPrices w s1) =
                      (None, Some "all price sources failed")).
    { rewrite fetchRealPrices_chain, H1. cbv zeta. rewrite H2. reflexivity. }
    rewrite Hstale, refreshSpotPrices_result, Hfail in Hret.
    injection Hret as <-. split; reflexivity.
Qed.

(** C3 fails on completeness.  The first feed reports a zero silver price
    and counts as failed; the second feed names gold, silver, copper and
    platinum, and only its gold and silver prices are tested.  The snapshot
    returned, with a nil error, has no palladium and no nickel price. *)
Lemma incomplete_snapshot_counterexample :
  let prices := {| Gold := 2702; Silver := 31.75; Platinum := 980;
                   Palladium := 0; Copper := 4.25; Nickel := 0;
                   UpdatedAt := 0%Z |} in
  fst (GetSpotPrices secondFeedUp initialState) = (Some prices, None) /\
  completeSnapshot prices = false.
Proof. split; reflexivity. Qed.

(** The feeds' prices are tested against 0 only: a negative gold price is
    returned and cached. *)
Example GetSpotPrices_negativeFeed :
  let prices := {| Gold := -2701.25; Silver := 31.5; Platinum := 950;
                   Palladium := 950; Copper := 5.52; Nickel := 6.96;
                   UpdatedAt := 0%Z |} in
  fst (GetSpotPrices negativeFeed initialState) = (Some prices, None) /\
  cachedPrices (snd (GetSpotPrices negativeFeed initialState)) = Some prices /\
  completeSnapshot prices = false.
Proof. repeat split; reflexivity. Qed.

(** Both feeds down, nothing cached: the static snapshot, no error. *)
Example GetSpotPrices_deadFeeds :
  fst (GetSpotPrices deadFeeds initialState) =
    (Some (staticFallback 0%Z), None) /\
  httpLog (snd (GetSpotPrices deadFeeds initialState)) =
    [metalsLiveURL; goldPriceOrgURL] /\
  lastFetchTime (snd (GetSpotPrices deadFeeds initialState)) = 1000000000%Z.
Proof. repeat split; reflexivity. Qed.

(** C5.  With a cached snapshot whose age at the call is below 15 minutes,
    [GetSpotPrices] returns that snapshot, makes no request and leaves the
    cache and the fetch timestamp as they were; from 15 minutes on it makes at
    least the request to the first feed, stores what it returns as the new
    cache and sets the fetch timestamp to the last clock reading of the
    call, whatever the outcome of the refresh. *)
Theorem cache_ttl_boundary w s prices :
  cachedPrices s = Some prices ->
  let age := (clock w (clockReads s) - lastFetchTime s)%Z in
  let r := GetSpotPrices w s in
  ((age < cacheDuration)%Z ->
     fst r = (Some prices, None) /\
     cachedPrices (snd r) = Some prices /\
     lastFetchTime (snd r) = lastFetchTime s /\
     httpLog (snd r) = httpLog s) /\
  ((cacheDuration <= age)%Z ->
     (exists more, httpLog (snd r) = more ++ goldPriceOrgURL :: httpLog s) /\
     (exists fetched,
        fst r = (Some fetched, None) /\ cachedPrices (snd r) = Some fetched) /\
     (S (clockReads s) < clockReads (snd r))%nat /\
     lastFetchTime (snd r) = clock w (Nat.pred (clockReads (snd r)))).
Proof.
  intros Hcached. cbv zeta. split; intros Hage.
  - exact (GetSpotPrices_fresh w s prices Hcached Hage).
  - destruct (GetSpotPrices_stale w s prices Hcached Hage) as (-> & Hh & Hk).
    destruct (refreshSpotPrices_spec w (snd (cacheIsFresh w s)))
      as (p & Hr & Hcp & Hlog & Hreads & Hlast & _).
    rewrite Hh in Hlog. rewrite Hk in Hreads.
    repeat split; auto. exists p. auto.
Qed.

Lemma cache_ttl_boundary_witness :
  let w := deadFeedsAt (14 * Minute + 59 * Second) in
  let s := cachedAt 0 (staticFallback 0) in
  let age := (clock w (clockReads s) - lastFetchTime s)%Z in
  let r := GetSpotPrices w s in
  ((age < cacheDuration)%Z ->
     fst r = (Some (staticFallback 0), None) /\
     cachedPrices (snd r) = Some (staticFallback 0) /\
     lastFetchTime (snd r) = lastFetchTime s /\
     httpLog (snd r) = httpLog s) /\
  ((cacheDuration <= age)%Z ->
     (exists more, httpLog (snd r) = more ++ goldPriceOrgURL :: httpLog s) /\
     (exists fetched,
        fst r = (Some fetched, None) /\ cachedPrices (snd r) = Some fetched) /\
     (S (clockReads s) < clockReads (snd r))%nat /\
     lastFetchTime (snd r) = clock w (Nat.pred (clockReads (snd r)))).
Proof.
  apply (cache_ttl_boundary (deadFeedsAt (14 * Minute + 59 * Second))
           (cachedAt 0 (staticFallback 0)) (staticFallback 0)).
  reflexivity.
Defined.

(** One second short of the TTL the cache answers and nothing is requested. *)
Example cache_at_14m59s :
  GetSpotPrices (deadFeedsAt (14 * Minute + 59 * Second))
                (cachedAt 0 (staticFallback 0)) =
    ((Some (staticFallback 0), None),
     {| cachedPrices := Some (staticFallback 0); lastFetchTime := 0%Z;
        clockReads := 1; httpLog := [] |}).
Proof. reflexivity. Qed.

(** At exactly the TTL the cache is stale: both feeds are tried and the
    fallback is stored with a fresh timestamp. *)
Example cache_at_15m :
  let t := (15 * Minute)%Z in
  GetSpotPrices (deadFeedsAt t) (cachedAt 0 (staticFallback 0)) =
    ((Some (staticFallback (t + 1)), None),
     {| cachedPrices := Some (staticFallback (t + 1));
        lastFetchTime := (t + 2)%Z; clockReads := 3;
        httpLog := [metalsLiveURL; goldPriceOrgURL] |}).
Proof. reflexivity. Qed.

(** C10.  After [UpdateSpotPricesManually] the cache holds a snapshot whose
    precious-metal fields are the arguments and whose copper and nickel fields
    are 5.52 and 6.96, whatever was cached before; the fetch timestamp is the
    clock reading made by the call; and a later [GetSpotPrices], in any world
    and with the two package variables untouched since, called less than 15
    minutes after that reading, returns this snapshot and changes neither
    variable nor makes a request. *)
Theorem manual_update_overrides gold silver platinum palladium w s :
  let s1 := snd (UpdateSpotPricesManually gold silver platinum palladium w s) in
  exists prices,
    cachedPrices s1 = Some prices /\
    Gold prices = gold /\ Silver prices = silver /\
    Platinum prices = platinum /\ Palladium prices = palladium /\
    Copper prices = 5.52%float /\ Nickel prices = 6.96%float /\
    lastFetchTime s1 = clock w (S (clockReads s)) /\
    forall w' s2,
      cachedPrices s2 = cachedPrices s1 ->
      lastFetchTime s2 = lastFetchTime s1 ->
      (clock w' (clockReads s2) - lastFetchTime s1 < cacheDuration)%Z ->
      fst (GetSpotPrices w' s2) = (Some prices, None) /\
      cachedPrices (snd (GetSpotPrices w' s2)) = Some prices /\
      lastFetchTime (snd (GetSpotPrices w' s2)) = lastFetchTime s1 /\
      httpLog (snd (GetSpotPrices w' s2)) = httpLog s2.
Proof.
  cbv zeta.
  unfold UpdateSpotPricesManually, bind, setCachedPrices, setLastFetchTime,
    timeNow, ret. simpl.
  eexists. split; [reflexivity|]. simpl.
  do 7 (split; [reflexivity|]).
  intros w' s2 Hc Hl Hage.
  destruct (GetSpotPrices_fresh w' s2 _ Hc) as (Hret & Hcache & Hlast & Hlog).
  { rewrite Hl. exact Hage. }
  rewrite Hlast, Hl. auto.
Qed.

(** A manual update replaces live base-metal prices by the constants. *)
Example manual_update_drops_live_copper :
  let live := {| Gold := 2700; Silver := 31; Platinum := 1000;
                 Palladium := 990; Copper := 4.10; Nickel := 7.25;
                 UpdatedAt := 0%Z |} in
  cachedPrices (snd (UpdateSpotPricesManually 2800 32 1010 995
                       (deadFeedsAt (20 * Minute)) (cachedAt 0 live))) =
    Some {| Gold := 2800; Silver := 32; Platinum := 1010; Palladium := 995;
            Copper := 5.52; Nickel := 6.96; UpdatedAt := (20 * Minute)%Z |}.
Proof. reflexivity. Qed.

End Oracle.

(** ** Melt-value calculator *)

Section MeltValue.

(** *** Signs of binary64 results *)

Lemma binary_round_aux_sign mx ex lx :
  sfNonnegOrNaN (binary_round_aux prec emax false mx ex lx) = true.
Proof.
  unfold binary_round_aux.
  destruct (shr_fexp prec emax mx ex lx) as [mrs' e'].
  destruct (shr_fexp prec emax _ e' loc_Exact) as [mrs'' e''].
  destruct (shr_m mrs''); [reflexivity| |reflexivity].
  destruct (e'' <=? emax - prec)%Z; reflexivity.
Qed.

Lemma SF64mul_sign x y :
  sfNonnegOrNaN x = true -> sfNonnegOrNaN y = true ->
  sfNonnegOrNaN (SF64mul x y) = true.
Proof.
  destruct x as [sx|sx| |sx mx ex], y as [sy|sy| |sy my ey]; simpl;
    try reflexivity; try discriminate;
    try (destruct sx; simpl; [discriminate|]);
    try (destruct sy; simpl; [discriminate|]);
    intros _ _; try reflexivity.
  apply binary_round_aux_sign.
Qed.

Lemma SF64div_sign x my ey :
  sfNonnegOrNaN x = true ->
  sfNonnegOrNaN (SF64div x (S754_finite false my ey)) = true.
Proof.
  destruct x as [sx|sx| |sx mx ex]; simpl; try reflexivity;
    destruct sx; simpl; try discriminate; intros _; try reflexivity.
  unfold SF64div, SFdiv.
  destruct (SFdiv_core_binary prec emax (Z.pos mx) ex (Z.pos my) ey) as [[mz ez] lz].
  apply binary_round_aux_sign.
Qed.

Lemma SF64add_sign x y :
  sfNonnegOrNaN x = true -> sfNonnegOrNaN y = true ->
  sfNonnegOrNaN (SF64add x y) = true.
Proof.
  destruct x as [sx|sx| |sx mx ex], y as [sy|sy| |sy my ey]; simpl;
    try reflexivity; try discriminate;
    try (destruct sx; simpl; try discriminate);
    try (destruct sy; simpl; try discriminate);
    intros _ _; try reflexivity.
  unfold SF64add, SFadd, binary_normalize, cond_Zopp. simpl.
  unfold binary_round.
  match goal with |- context [shl_align ?a ?b ?c] =>
    destruct (shl_align a b c) as [mz ez] end.
  apply binary_round_aux_sign.
Qed.

(** *** The same on primitive floats *)

Lemma nonneg_signOk x : nonneg x -> signOk x.
Proof.
  unfold nonneg, signOk. rewrite FloatAxioms.leb_spec.
  change (Prim2SF 0) with (S754_zero false).
  destruct (Prim2SF x) as [s|s| |s m e]; try reflexivity;
    unfold SFleb; simpl; destruct s; simpl; congruence.
Qed.

Lemma signOk_notNegative x :
  signOk x -> notNegative x /\ ((0 <=? x)%float = true \/ is_nan x = true).
Proof.
  unfold signOk, notNegative, is_nan.
  rewrite FloatAxioms.ltb_spec, FloatAxioms.leb_spec, FloatAxioms.eqb_spec.
  change (Prim2SF 0) with (S754_zero false).
  destruct (Prim2SF x) as [s|s| |s m e]; unfold SFltb, SFleb, SFeqb; simpl;
    try (destruct s; simpl); try discriminate; intros _; auto.
Qed.

Lemma mul_signOk x y : signOk x -> signOk y -> signOk (x * y).
Proof. unfold signOk. rewrite FloatAxioms.mul_spec. apply SF64mul_sign. Qed.

Lemma add_signOk x y : signOk x -> signOk y -> signOk (x + y).
Proof. unfold signOk. rewrite FloatAxioms.add_spec. apply SF64add_sign. Qed.

Lemma div100_signOk x : signOk x -> signOk (x / 100.0).
Proof.
  unfold signOk. rewrite FloatAxioms.div_spec.
  replace (Prim2SF 100.0) with (S754_finite false 7036874417766400 (-46))
    by (vm_compute; reflexivity).
  apply SF64div_sign.
Qed.

Lemma div_gramsPerPound_signOk x : signOk x -> signOk (x / 453.592).
Proof.
  unfold signOk. rewrite FloatAxioms.div_spec.
  remember (Prim2SF 453.592) as d eqn:Hd. vm_compute in Hd. subst d.
  apply SF64div_sign.
Qed.

(** *** The calculators *)

Lemma staticFallback_nonneg stamp : nonnegPrices (staticFallback stamp).
Proof. repeat split; reflexivity. Qed.

(** The calculators run on the snapshot [GetSpotPrices] returns. *)
Lemma CalculateMeltValue_on prices metalType weight purity w s :
  fst (GetSpotPrices w s) = (Some prices, None) ->
  fst (CalculateMeltValue metalType weight purity w s) =
    if String.eqb metalType "gold" then
      Returned (weight * (purity / 100.0) * Gold prices) None
    else if String.eqb metalType "silver" then
      Returned (weight * (purity / 100.0) * Silver prices) None
    else if String.eqb metalType "platinum" then
      Returned (weight * (purity / 100.0) * Platinum prices) None
    else if String.eqb metalType "palladium" then
      Returned (weight * (purity / 100.0) * Palladium prices) None
    else if String.eqb metalType "copper" || String.eqb metalType "nickel" then
      Returned 0 None
    else Returned 0 (Some (String.append "unsupported metal type: " metalType)).
Proof.
  intros Hspot. unfold CalculateMeltValue, bind.
  destruct (GetSpotPrices w s) as [r s1]. simpl in Hspot. subst r.
  unfold ret.
  repeat match goal with |- context [String.eqb metalType ?m] =>
    destruct (String.eqb metalType m) end; reflexivity.
Qed.

Lemma CalculateBaseMeltValue_on prices weightGrams copperPercent nickelPercent w s :
  fst (GetSpotPrices w s) = (Some prices, None) ->
  fst (CalculateBaseMeltValue weightGrams copperPercent nickelPercent w s) =
    Returned (weightGrams / 453.592 * (copperPercent / 100.0) * Copper prices
              + weightGrams / 453.592 * (nickelPercent / 100.0) * Nickel prices)
             None.
Proof.
  intros Hspot. unfold CalculateBaseMeltValue, bind.
  destruct (GetSpotPrices w s) as [r s1]. simpl in Hspot. subst r.
  reflexivity.
Qed.

(** C2, as the code has it.  For a metal type outside gold, silver, platinum
    and palladium the precious-path calculator returns the value 0; the error
    is nil exactly for "copper" and "nickel", and for every other string it
    is "unsupported metal type: " followed by the string. *)
Theorem non_precious_melt_value metalType weight purity w s :
  ~ In metalType ["gold"; "silver"; "platinum"; "palladium"] ->
  exists err,
    fst (CalculateMeltValue metalType weight purity w s) = Returned 0 err /\
    (err = None <-> metalType = "copper" \/ metalType = "nickel") /\
    (err <> None ->
     err = Some (String.append "unsupported metal type: " metalType)).
Proof.
  intros Hout.
  destruct (GetSpotPrices_returns w s) as (prices & Hspot).
  rewrite (CalculateMeltValue_on prices _ _ _ _ _ Hspot).
  destruct (String.eqb_spec metalType "gold") as [->|_];
    [exfalso; apply Hout; simpl; auto|].
  destruct (String.eqb_spec metalType "silver") as [->|_];
    [exfalso; apply Hout; simpl; auto|].
  destruct (String.eqb_spec metalType "platinum") as [->|_];
    [exfalso; apply Hout; simpl; auto|].
  destruct (String.eqb_spec metalType "palladium") as [->|_];
    [exfalso; apply Hout; simpl; auto 6|].
  destruct (String.eqb_spec metalType "copper") as [->|Hc]; simpl.
  { eexists. split; [reflexivity|]. split; [tauto|congruence]. }
  destruct (String.eqb_spec metalType "nickel") as [->|Hn]; simpl.
  { eexists. split; [reflexivity|]. split; [tauto|congruence]. }
  eexists. split; [reflexivity|]. split; [|reflexivity].
  split; [discriminate|]. intros [?|?]; contradiction.
Qed.

Lemma non_precious_melt_value_witness :
  exists err,
    fst (CalculateMeltValue "copper" 0.5 90 deadFeeds initialState) =
      Returned 0 err /\
    (err = None <-> "copper" = "copper" \/ "copper" = "nickel") /\
    (err <> None ->
     err = Some (String.append "unsupported metal type: " "copper")).
Proof.
  apply (non_precious_melt_value "copper" 0.5 90 deadFeeds initialState).
  simpl. intros [H|[H|[H|[H|H]]]]; try discriminate H. exact H.
Defined.

(** C2 fails on any other string: "zinc" is outside the four precious metals
    and the calculator answers with an error, not with [(0, nil)]. *)
Lemma non_precious_counterexample :
  ~ In "zinc" ["gold"; "silver"; "platinum"; "palladium"] /\
  fst (CalculateMeltValue "zinc" 1 90 deadFeeds initialState) =
    Returned 0 (Some "unsupported metal type: zinc") /\
  fst (CalculateMeltValue "zinc" 1 90 deadFeeds initialState) <>
    Returned 0 None.
Proof.
  split; [|split].
  - simpl. intros [H|[H|[H|[H|H]]]]; try discriminate H. exact H.
  - vm_compute. reflexivity.
  - vm_compute. discriminate.
Qed.

Lemma precious_value_signOk weight purity price :
  nonneg weight -> nonneg purity -> nonneg price ->
  signOk (weight * (purity / 100.0) * price).
Proof.
  intros Hw Hp Hpr.
  apply mul_signOk; [apply mul_signOk|]; auto using nonneg_signOk, div100_signOk.
Qed.

Lemma base_value_signOk weightGrams copperPercent nickelPercent copper nickel :
  nonneg weightGrams -> nonneg copperPercent -> nonneg nickelPercent ->
  nonneg copper -> nonneg nickel ->
  signOk (weightGrams / 453.592 * (copperPercent / 100.0) * copper
          + weightGrams / 453.592 * (nickelPercent / 100.0) * nickel).
Proof.
  intros Hw Hc Hn Hpc Hpn.
  apply add_signOk; (apply mul_signOk; [apply mul_signOk|]);
    auto using nonneg_signOk, div100_signOk, div_gramsPerPound_signOk.
Qed.

Lemma zero_signOk : signOk 0.
Proof. reflexivity. Qed.

(** The raw-field form: never a panic, never a negative value. *)
Lemma CalculateMeltValue_notNegative prices metalType weight purity w s :
  fst (GetSpotPrices w s) = (Some prices, None) ->
  nonnegPrices prices -> nonneg weight -> nonneg purity ->
  exists value err,
    fst (CalculateMeltValue metalType weight purity w s) = Returned value err /\
    signOk value /\
    (knownMetal metalType -> err = None).
Proof.
  intros Hspot (Hg & Hs & Hpt & Hpd & _ & _) Hw Hp.
  rewrite (CalculateMeltValue_on prices _ _ _ _ _ Hspot).
  destruct (String.eqb_spec metalType "gold") as [_|Hgold];
    [do 2 eexists; split; [reflexivity|];
     split; [apply precious_value_signOk; auto|reflexivity]|].
  destruct (String.eqb_spec metalType "silver") as [_|Hsilver];
    [do 2 eexists; split; [reflexivity|];
     split; [apply precious_value_signOk; auto|reflexivity]|].
  destruct (String.eqb_spec metalType "platinum") as [_|Hplatinum];
    [do 2 eexists; split; [reflexivity|];
     split; [apply precious_value_signOk; auto|reflexivity]|].
  destruct (String.eqb_spec metalType "palladium") as [_|Hpalladium];
    [do 2 eexists; split; [reflexivity|];
     split; [apply precious_value_signOk; auto|reflexivity]|].
  destruct (String.eqb_spec metalType "copper") as [_|Hcopper]; simpl;
    [do 2 eexists; split; [reflexivity|]; split; [apply zero_signOk|reflexivity]|].
  destruct (String.eqb_spec metalType "nickel") as [_|Hnickel]; simpl;
    [do 2 eexists; split; [reflexivity|]; split; [apply zero_signOk|reflexivity]|].
  do 2 eexists. split; [reflexivity|]. split; [apply zero_signOk|].
  intros Hk. exfalso. unfold knownMetal in Hk. simpl in Hk.
  destruct Hk as [Hk|[Hk|[Hk|[Hk|[Hk|[Hk|[]]]]]]]; congruence.
Qed.

(** C9, as the code has it.  On a snapshot with non-negative prices and a
    composition with non-negative fields, both forms of the calculator return
    (no panic) a value that is not negative: it is [>= 0], possibly +Inf, or
    it is NaN; the error is nil when the composition is a base-metal alloy or
    its metal type is one of gold, silver, platinum, palladium, copper, nickel;
    and a composition with metal type "copper" that is not a base-metal alloy
    yields exactly 0 with a nil error. *)
Theorem melt_value_not_negative comp prices w s :
  fst (GetSpotPrices w s) = (Some prices, None) ->
  nonnegPrices prices ->
  nonnegComposition comp ->
  (exists value err,
     fst (CalculateMeltValueFromComposition comp w s) = Returned value err /\
     notNegative value /\
     ((0 <=? value)%float = true \/ is_nan value = true) /\
     (IsBaseMetal comp = true \/ knownMetal (MetalType comp) -> err = None)) /\
  (exists value err,
     fst (CalculateMeltValue (MetalType comp) (Weight comp) (Purity comp) w s) =
       Returned value err /\
     notNegative value /\
     ((0 <=? value)%float = true \/ is_nan value = true) /\
     (knownMetal (MetalType comp) -> err = None)) /\
  (MetalType comp = "copper" -> IsBaseMetal comp = false ->
   fst (CalculateMeltValueFromComposition comp w s) = Returned 0 None).
Proof.
  intros Hspot Hprices (Hw & Hp & Hwg & Hcp & Hnp).
  destruct (CalculateMeltValue_notNegative prices (MetalType comp) (Weight comp)
              (Purity comp) w s Hspot Hprices Hw Hp) as (v & e & Hv & Hok & He).
  destruct (signOk_notNegative v Hok) as [Hneg Hge].
  split; [|split].
  - unfold CalculateMeltValueFromComposition.
    destruct (IsBaseMetal comp) eqn:Ebase.
    + rewrite (CalculateBaseMeltValue_on prices _ _ _ _ _ Hspot).
      destruct Hprices as (_ & _ & _ & _ & Hpc & Hpn).
      pose proof (base_value_signOk _ _ _ _ _ Hwg Hcp Hnp Hpc Hpn) as Hb.
      apply signOk_notNegative in Hb. destruct Hb as [Hb1 Hb2].
      do 2 eexists. split; [reflexivity|]. auto.
    + exists v, e. split; [exact Hv|]. split; [exact Hneg|]. split; [exact Hge|].
      intros [Hb|Hk]; [discriminate|auto].
  - exists v, e. auto.
  - intros Hm Hb. unfold CalculateMeltValueFromComposition. rewrite Hb, Hm.
    rewrite (CalculateMeltValue_on prices _ _ _ _ _ Hspot). reflexivity.
Qed.

Lemma copperSentinel_nonneg : nonnegComposition copperSentinel.
Proof. repeat split; reflexivity. Qed.

Lemma melt_value_not_negative_witness :
  (exists value err,
     fst (CalculateMeltValueFromComposition copperSentinel deadFeeds initialState) =
       Returned value err /\
     notNegative value /\
     ((0 <=? value)%float = true \/ is_nan value = true) /\
     (IsBaseMetal copperSentinel = true \/ knownMetal (MetalType copperSentinel) ->
      err = None)) /\
  (exists value err,
     fst (CalculateMeltValue (MetalType copperSentinel) (Weight copperSentinel)
            (Purity copperSentinel) deadFeeds initialState) =
       Returned value err /\
     notNegative value /\
     ((0 <=? value)%float = true \/ is_nan value = true) /\
     (knownMetal (MetalType copperSentinel) -> err = None)) /\
  (MetalType copperSentinel = "copper" -> IsBaseMetal copperSentinel = false ->
   fst (CalculateMeltValueFromComposition copperSentinel deadFeeds initialState) =
     Returned 0 None).
Proof.
  apply (melt_value_not_negative copperSentinel (staticFallback 0) deadFeeds
           initialState).
  - reflexivity.
  - repeat split; reflexivity.
  - repeat split; reflexivity.
Defined.

(** C9 fails on finiteness: 1e308 troy ounces of gold at purity 100, priced
    with the static snapshot, overflow binary64 and the calculator returns
    +Inf.  All fields and prices are non-negative. *)
Lemma melt_value_counterexample :
  nonnegComposition heavyGold /\
  nonnegPrices (staticFallback 0) /\
  fst (GetSpotPrices deadFeeds initialState) = (Some (staticFallback 0), None) /\
  fst (CalculateMeltValueFromComposition heavyGold deadFeeds initialState) =
    Returned infinity None /\
  isFinite infinity = false.
Proof. repeat split; reflexivity. Qed.

(** The composition form also reports the error of the precious path: the
    zero-value composition has the metal type "". *)
Example melt_value_of_zero_composition :
  fst (CalculateMeltValueFromComposition zeroComposition deadFeeds initialState) =
    Returned 0 (Some "unsupported metal type: ").
Proof. reflexivity. Qed.

(** End to end: a Morgan Dollar with silver at $30.00. *)
Example morgan_dollar_at_30 :
  let s := cachedAt 0 {| Gold := 2650; Silver := 30.00; Platinum := 950;
                         Palladium := 950; Copper := 5.52; Nickel := 6.96;
                         UpdatedAt := 0%Z |} in
  fst (resolveComposition "Morgan Dollar" 0) =
    {| Name := "Morgan Dollar"; MetalType := "silver"; Weight := 0.77344;
       Purity := 90;
       Description := "Contains 0.77344 oz of silver (90% silver, 10% copper)";
       IsBaseMetal := false; WeightGrams := 0; CopperPercent := 0;
       NickelPercent := 0 |} /\
  fst (CalculateMeltValueFromComposition (fst (resolveComposition "Morgan Dollar" 0))
         (deadFeedsAt 1) s) =
    Returned (0.77344 * (90 / 100) * 30.00) None.
Proof. split; vm_compute; reflexivity. Qed.

(** End to end: the Washington Quarter turns from silver to clad between
    1964 and 1965, and the clad default is worth exactly 0. *)
Example washington_quarter_1964_1965 :
  Weight (fst (resolveComposition "Washington Quarter" 1964)) = 0.18084%float /\
  MetalType (fst (resolveComposition "Washington Quarter" 1964)) = "silver" /\
  Name (fst (resolveComposition "Washington Quarter" 1965)) =
    "Washington Quarter (1965+)" /\
  fst (CalculateMeltValueFromComposition
         (fst (resolveComposition "Washington Quarter" 1965))
         deadFeeds initialState) = Returned 0 None.
Proof. repeat split; vm_compute; reflexivity. Qed.

(** End to end: the Buffalo Nickel is a base-metal alloy in any year, valued
    by its copper and nickel at the per-pound prices. *)
Example buffalo_nickel_base_metal :
  let comp := fst (resolveComposition "Buffalo Nickel" 1936) in
  (IsBaseMetal comp, WeightGrams comp, CopperPercent comp, NickelPercent comp) =
    (true, 5.0, 75.0, 25.0)%float /\
  resolveComposition "Buffalo Nickel" 0 = resolveComposition "Buffalo Nickel" 1936 /\
  fst (CalculateMeltValueFromComposition comp deadFeeds initialState) =
    Returned (5.0 / 453.592 * (75.0 / 100) * 5.52
              + 5.0 / 453.592 * (25.0 / 100) * 6.96) None.
Proof. repeat split; vm_compute; reflexivity. Qed.

End MeltValue.

(** * Further properties *)

(** ** Names: normalizer and catalog lookup *)

Section Names.

Lemma string_of_list_ascii_app (l1 l2 : list ascii) :
  string_of_list_ascii (l1 ++ l2) =
    String.append (string_of_list_ascii l1) (string_of_list_ascii l2).
Proof. induction l1 as [|a l1 IH]; simpl; [reflexivity|]. rewrite IH. reflexivity. Qed.

Lemma stripGradeToken_prefix l : stripGradeToken l `prefix_of` l.
Proof.
  induction l as [|a l' IH]; simpl.
  - destruct (isGradeToken []); apply prefix_nil.
  - destruct (isGradeToken (a :: l')); [apply prefix_nil|].
    apply prefix_cons, IH.
Qed.

Lemma stripYearToken_suffix l : stripYearToken l `suffix_of` l.
Proof.
  unfold stripYearToken. destruct (startsWithYear l) eqn:E; [|reflexivity].
  apply (yearToken_rest l E).
Qed.

(** The normalizer only trims: its result is a stretch of the input, which is
    the result with something before it and something after it. *)
Theorem normalize_only_trims s :
  exists before after,
    s = String.append before (String.append (normalizeCoinType s) after).
Proof.
  rewrite normalizeCoinType_tokens.
  set (l := list_ascii_of_string s).
  destruct (stripYearToken_suffix l) as [before Hb].
  destruct (stripGradeToken_prefix (stripYearToken l)) as [after Ha].
  exists (string_of_list_ascii before), (string_of_list_ascii after).
  rewrite <- !string_of_list_ascii_app, <- Ha, <- Hb.
  symmetry. apply string_of_list_ascii_of_string.
Qed.

(** *** Certification titles *)

Lemma digit_not_space a : is_digit a = true -> is_space a = false.
Proof. destruct a as [[] [] [] [] [] [] [] []]; vm_compute; congruence. Qed.

Lemma span_all cls l : forallb cls l = true -> span cls l = List.length l.
Proof.
  intros H. rewrite <- (app_nil_r l) at 1. apply span_app; [exact H|exact I].
Qed.

(** A blank and a grade make a grade token. *)
Lemma isGrade_token b grade :
  is_space b = true -> isGrade grade = true -> isGradeToken (b :: grade) = true.
Proof.
  intros Hb Hg. destruct grade as [|g1 [|g2 [|d rest]]]; try discriminate Hg.
  simpl in Hg.
  apply andb_true_iff in Hg as [Hg Hsuffix].
  apply andb_true_iff in Hg as [Hg Hd].
  apply andb_true_iff in Hg as [Hg1 Hg2].
  apply isGradeToken_iff.
  exists [b], g1, g2, (d :: firstn (span is_digit rest) rest), (dropAll is_digit rest).
  split; [unfold dropAll; simpl; rewrite firstn_skipn; reflexivity|].
  split; [discriminate|]. split; [simpl; rewrite Hb; reflexivity|].
  split; [exact Hg1|]. split; [exact Hg2|]. split; [discriminate|].
  split; [simpl; rewrite Hd; apply span_prefix|exact Hsuffix].
Qed.

(** In a text that has a blank right after a non-blank, the blanks do not
    all come first. *)
Lemma blank_after_nonblank (x0 : list ascii) z b more blanks rest :
  is_space z = false -> is_space b = true ->
  forallb is_space blanks = true ->
  forallb (fun c => negb (is_space c)) rest = true ->
  x0 ++ z :: b :: more = blanks ++ rest -> False.
Proof.
  intros Hz Hb Hblanks Hrest. revert x0.
  induction blanks as [|c blanks' IH]; intros x0 E; simpl in *.
  - subst rest. rewrite forallb_app in Hrest. simpl in Hrest.
    rewrite Hb in Hrest. simpl in Hrest.
    rewrite !andb_false_r in Hrest. discriminate.
  - apply andb_true_iff in Hblanks as [Hc Hblanks'].
    destruct x0 as [|a x0']; simpl in E; injection E as <- E.
    + congruence.
    + exact (IH Hblanks' x0' E).
Qed.

(** No grade token starts inside a name that ends on a non-blank. *)
Lemma no_grade_across x z b more :
  last x = Some z -> is_space z = false -> is_space b = true ->
  isGradeToken (x ++ b :: more) = false.
Proof.
  intros Hlast Hz Hb.
  destruct (isGradeToken (x ++ b :: more)) eqn:E; [exfalso|reflexivity].
  apply isGradeToken_iff in E
    as (blanks & u1 & u2 & digits & suffix & E & _ & Hbs & Hu1 & Hu2 & _ & Hds & Hsuf).
  apply last_Some in Hlast as [x0 ->]. rewrite <- app_assoc in E. simpl in E.
  apply (blank_after_nonblank x0 z b more blanks (u1 :: u2 :: digits ++ suffix));
    auto.
  simpl. rewrite (upper_not_space _ Hu1), (upper_not_space _ Hu2). simpl.
  rewrite forallb_app. apply andb_true_iff. split; apply forallb_forall;
    intros c Hc.
  - rewrite forallb_forall in Hds. rewrite (digit_not_space _ (Hds c Hc)).
    reflexivity.
  - rewrite forallb_forall in Hsuf. rewrite (upper_not_space _ (Hsuf c Hc)).
    reflexivity.
Qed.

(** After such a name, a blank and a grade are what is cut. *)
Lemma stripGradeToken_after_name x z b grade :
  last x = Some z -> is_space z = false -> is_space b = true ->
  isGrade grade = true ->
  stripGradeToken (x ++ b :: grade) = x.
Proof.
  intros Hlast Hz Hb Hg. induction x as [|a x' IH]; [discriminate Hlast|].
  change ((a :: x') ++ b :: grade) with (a :: (x' ++ b :: grade)).
  cbn [stripGradeToken].
  change (a :: (x' ++ b :: grade)) with ((a :: x') ++ b :: grade).
  rewrite (no_grade_across _ z b grade Hlast Hz Hb). f_equal.
  destruct x' as [|a' x''].
  - simpl app. cbn [stripGradeToken]. rewrite (isGrade_token b grade Hb Hg).
    reflexivity.
  - apply IH. exact Hlast.
Qed.

(** The two tokens of a certification title, on the characters. *)
Lemma stripTokens_certTitle d1 d2 d3 d4 mint name grade :
  is_digit d1 = true -> is_digit d2 = true ->
  is_digit d3 = true -> is_digit d4 = true ->
  is_upper mint = true ->
  trimmedName name = true ->
  isGrade grade = true ->
  stripGradeToken
    (stripYearToken
       ([d1; d2; d3; d4] ++ "-"%char :: mint :: " "%char :: name
          ++ " "%char :: grade)) = name.
Proof.
  intros H1 H2 H3 H4 Hm Hname Hgrade.
  unfold trimmedName in Hname. apply andb_true_iff in Hname as [Hfirst Hlast].
  destruct name as [|a name']; [discriminate Hfirst|].
  apply negb_true_iff in Hfirst.
  destruct (last (a :: name')) as [z|] eqn:Ez; [|discriminate Hlast].
  apply negb_true_iff in Hlast.
  unfold stripYearToken, startsWithYear. simpl.
  rewrite H1, H2, H3, H4. simpl. rewrite Hm. unfold dropAll. simpl.
  rewrite Hfirst. simpl.
  apply (stripGradeToken_after_name (a :: name') z " "%char grade Ez Hlast);
    [reflexivity|exact Hgrade].
Qed.

(** From the title a certification service prints (a four-digit year, a
    hyphen, a capital mint mark, a blank, the name, a blank, a grade of two
    capitals, digits and capitals) the normalizer recovers the name, for
    every name that is not empty and neither opens nor ends with a blank. *)
Theorem normalize_certTitle d1 d2 d3 d4 mint name grade :
  is_digit d1 = true -> is_digit d2 = true ->
  is_digit d3 = true -> is_digit d4 = true ->
  is_upper mint = true ->
  trimmedName name = true ->
  isGrade grade = true ->
  normalizeCoinType (certTitle d1 d2 d3 d4 mint name grade) =
    string_of_list_ascii name.
Proof.
  intros H1 H2 H3 H4 Hm Hname Hgrade.
  rewrite normalizeCoinType_tokens. unfold certTitle.
  rewrite list_ascii_of_string_of_list_ascii. f_equal.
  apply stripTokens_certTitle; assumption.
Qed.

Lemma normalize_certTitle_witness :
  normalizeCoinType
    (certTitle "1" "8" "8" "1" "S" (list_ascii_of_string "Morgan Dollar")
       (list_ascii_of_string "MS65PL")) =
    string_of_list_ascii (list_ascii_of_string "Morgan Dollar").
Proof.
  apply (normalize_certTitle "1" "8" "8" "1" "S"
           (list_ascii_of_string "Morgan Dollar")
           (list_ascii_of_string "MS65PL")); reflexivity.
Defined.

(** *** The catalog under certification titles *)

(** Every key of the catalog is a trimmed name that does not open with a
    digit. *)
Lemma catalog_keys_plain key entry :
  CommonCompositions !! key = Some entry -> plainKey key = true.
Proof.
  unfold CommonCompositions. intros H. apply elem_of_list_to_map_2 in H.
  repeat (apply elem_of_cons in H as [H|H];
          [injection H as -> _; vm_compute; reflexivity|]).
  apply elem_of_nil in H. contradiction.
Qed.

(** Every coin of the catalog is found under its certification title: for
    every catalog key, year, mint mark and grade, the lookup of the title
    returns the key's entry. *)
Theorem GetComposition_certTitle key entry d1 d2 d3 d4 mint grade :
  CommonCompositions !! key = Some entry ->
  is_digit d1 = true -> is_digit d2 = true ->
  is_digit d3 = true -> is_digit d4 = true ->
  is_upper mint = true ->
  isGrade grade = true ->
  GetComposition (certTitle d1 d2 d3 d4 mint (list_ascii_of_string key) grade) =
    (entry, true).
Proof.
  intros Hkey H1 H2 H3 H4 Hm Hgrade.
  pose proof (catalog_keys_plain _ _ Hkey) as Hplain. unfold plainKey in Hplain.
  apply andb_true_iff in Hplain as [Htrim _].
  set (title := certTitle d1 d2 d3 d4 mint (list_ascii_of_string key) grade) in *.
  assert (Hnorm : normalizeCoinType title = key).
  { rewrite normalizeCoinType_tokens. unfold title, certTitle.
    rewrite list_ascii_of_string_of_list_ascii.
    rewrite (stripTokens_certTitle d1 d2 d3 d4 mint _ grade H1 H2 H3 H4 Hm Htrim Hgrade).
    apply string_of_list_ascii_of_string. }
  assert (Hmiss : CommonCompositions !! title = None).
  { destruct (CommonCompositions !! title) as [e|] eqn:E; [exfalso|reflexivity].
    pose proof (catalog_keys_plain _ _ E) as Hp.
    unfold plainKey in Hp. apply andb_true_iff in Hp as [_ Hp].
    unfold title, certTitle in Hp.
    rewrite list_ascii_of_string_of_list_ascii in Hp. simpl in Hp.
    rewrite H1 in Hp. discriminate Hp. }
  unfold GetComposition. rewrite Hmiss, Hnorm.
  destruct (String.eqb_spec key title) as [Heq|_]; cbn [negb].
  - rewrite <- Heq, Hkey in Hmiss. discriminate Hmiss.
  - rewrite Hkey. reflexivity.
Qed.

Lemma GetComposition_certTitle_witness :
  GetComposition
    (certTitle "1" "9" "2" "1" "S" (list_ascii_of_string "Peace Dollar")
       (list_ascii_of_string "MS67")) =
    ({| Name := "Peace Dollar"; MetalType := "silver"; Weight := 0.77344;
        Purity := 90;
        Description := "Contains 0.77344 oz of silver (90% silver, 10% copper)";
        IsBaseMetal := false; WeightGrams := 0; CopperPercent := 0;
        NickelPercent := 0 |}, true).
Proof.
  apply (GetComposition_certTitle "Peace Dollar" _ "1" "9" "2" "1" "S"
           (list_ascii_of_string "MS67")); vm_compute; reflexivity.
Defined.

(** The lookup misses exactly when neither the text nor its normal form is a
    key; it then returns the zero composition.  A hit returns the entry of
    the text itself when the text is a key, and else the entry of its normal
    form. *)
Lemma GetComposition_hit_or_miss coinType :
  GetComposition coinType =
    match CommonCompositions !! coinType with
    | Some entry => (entry, true)
    | None =>
        match CommonCompositions !! normalizeCoinType coinType with
        | Some entry => (entry, true)
        | None => (zeroComposition, false)
        end
    end.
Proof.
  unfold GetComposition.
  destruct (CommonCompositions !! coinType) as [entry|] eqn:E; [reflexivity|].
  destruct (String.eqb_spec (normalizeCoinType coinType) coinType) as [Heq|_];
    cbn [negb]; [|reflexivity].
  rewrite Heq, E. reflexivity.
Qed.

End Names.

(** ** The shipped year rules *)

Section ShippedRules.



End ShippedRules.

(** ** The oracle: cache, feeds and requests *)

Section OracleMore.

(** A refresh leaves the log and the cache of the chain, with one or two
    more clock readings. *)
Lemma refreshSpotPrices_log w s :
  httpLog (snd (refreshSpotPrices w s)) = httpLog (snd (fetchRealPrices w s)).
Proof.
  unfold refreshSpotPrices, bind.
  destruct (fetchRealPrices w s) as [[[p|] [e|]] s1]; reflexivity.
Qed.

(** The requests of one call: none when the cache is fresh; otherwise the
    first feed, and after it the second feed exactly when the first one
    failed.  Never more than two, never the second feed alone or first. *)
Theorem GetSpotPrices_requests w s :
  httpLog (snd (GetSpotPrices w s)) =
    if fst (cacheIsFresh w s) then httpLog s
    else
      match snd (fst (fetchGoldPriceOrg w (snd (cacheIsFresh w s)))) with
      | None => goldPriceOrgURL :: httpLog s
      | Some _ => metalsLiveURL :: goldPriceOrgURL :: httpLog s
      end.
Proof.
  rewrite GetSpotPrices_cases.
  pose proof (cacheIsFresh_spec w s) as H. cbv zeta in H.
  destruct H as (_ & _ & Hlog & _).
  destruct (fst (cacheIsFresh w s)); [exact Hlog|].
  set (s1 := snd (cacheIsFresh w s)) in *.
  rewrite refreshSpotPrices_log, fetchRealPrices_chain.
  pose proof (fetchGoldPriceOrg_spec w s1) as H1. cbv zeta in H1.
  destruct H1 as (_ & _ & _ & Hlog1 & _).
  destruct (snd (fst (fetchGoldPriceOrg w s1))); cbv zeta.
  - pose proof (fetchMetalsLive_spec w (snd (fetchGoldPriceOrg w s1))) as H2.
    cbv zeta in H2. destruct H2 as (_ & _ & _ & Hlog2 & _).
    destruct (snd (fst (fetchMetalsLive w (snd (fetchGoldPriceOrg w s1)))));
      simpl; rewrite Hlog2, Hlog1, Hlog; reflexivity.
  - simpl. rewrite Hlog1, Hlog. reflexivity.
Qed.

(** The cache after a call holds what the call returned. *)
Lemma GetSpotPrices_leaves_result w s :
  cachedPrices (snd (GetSpotPrices w s)) = fst (fst (GetSpotPrices w s)).
Proof.
  rewrite GetSpotPrices_cases.
  destruct (fst (cacheIsFresh w s)).
  - reflexivity.
  - destruct (refreshSpotPrices_spec w (snd (cacheIsFresh w s)))
      as (p & Hr & Hcp & _). rewrite Hr, Hcp. reflexivity.
Qed.

(** What a call returns is what it leaves in the cache: after any call the
    cache is set, and it holds the very snapshot the caller got. *)
Theorem GetSpotPrices_caches_result w s :
  exists prices,
    fst (GetSpotPrices w s) = (Some prices, None) /\
    cachedPrices (snd (GetSpotPrices w s)) = Some prices.
Proof.
  destruct (GetSpotPrices_returns w s) as [prices Hret].
  exists prices. split; [exact Hret|].
  rewrite GetSpotPrices_leaves_result, Hret. reflexivity.
Qed.

(** Two calls in a row: when the second is made less than 15 minutes after
    the fetch timestamp the first one left, it returns the same snapshot and
    makes no request, in whatever world it runs. *)
Theorem GetSpotPrices_twice w s w' :
  let s1 := snd (GetSpotPrices w s) in
  (clock w' (clockReads s1) - lastFetchTime s1 < cacheDuration)%Z ->
  fst (GetSpotPrices w' s1) = fst (GetSpotPrices w s) /\
  httpLog (snd (GetSpotPrices w' s1)) = httpLog s1 /\
  cachedPrices (snd (GetSpotPrices w' s1)) = cachedPrices s1.
Proof.
  cbv zeta. intros Hage.
  destruct (GetSpotPrices_returns w s) as [p Hret].
  assert (Hcache : cachedPrices (snd (GetSpotPrices w s)) = Some p)
    by (rewrite GetSpotPrices_leaves_result, Hret; reflexivity).
  destruct (GetSpotPrices_fresh w' _ p Hcache Hage) as (H1 & H2 & _ & H4).
  rewrite H1, Hret, H2, Hcache. auto.
Qed.

Lemma GetSpotPrices_twice_witness :
  let s1 := snd (GetSpotPrices secondFeedUp initialState) in
  fst (GetSpotPrices deadFeeds s1) = fst (GetSpotPrices secondFeedUp initialState) /\
  httpLog (snd (GetSpotPrices deadFeeds s1)) = httpLog s1 /\
  cachedPrices (snd (GetSpotPrices deadFeeds s1)) = cachedPrices s1.
Proof.
  apply (GetSpotPrices_twice secondFeedUp initialState deadFeeds). reflexivity.
Defined.

(** *** What the feeds put in a snapshot *)



(** With no cache yet and a first feed whose first record carries non-zero
    gold and silver prices, a call returns those two prices with platinum and
    palladium at 950 and copper and nickel at 5.52 and 6.96, whatever else the
    reply holds; the second feed is not asked, and the fetch timestamp is the
    reading after the one that stamps the snapshot. *)
Theorem cold_start_on_first_feed w s gold silver others :
  cachedPrices s = None ->
  goldPriceOrg w (List.length (httpLog s)) = GPItems ((gold, silver) :: others) ->
  (gold =? 0)%float = false ->
  (silver =? 0)%float = false ->
  GetSpotPrices w s =
    let prices := {| Gold := gold; Silver := silver; Platinum := 950.00;
                     Palladium := 950.00; Copper := 5.52; Nickel := 6.96;
                     UpdatedAt := clock w (clockReads s) |} in
    ((Some prices, None),
     {| cachedPrices := Some prices;
        lastFetchTime := clock w (S (clockReads s));
        clockReads := S (S (clockReads s));
        httpLog := goldPriceOrgURL :: httpLog s |}).
Proof.
  intros Hcold Hreply Hg Hs.
  unfold GetSpotPrices, cacheIsFresh, getCachedPrices, bind, ret. rewrite Hcold.
  unfold refreshSpotPrices, bind. rewrite fetchRealPrices_chain.
  rewrite fetchGoldPriceOrg_reply. cbv zeta. rewrite Hreply, Hg, Hs. reflexivity.
Qed.

Lemma cold_start_on_first_feed_witness :
  GetSpotPrices firstFeedUp initialState =
    let prices := {| Gold := 2701.25; Silver := 31.5; Platinum := 950.00;
                     Palladium := 950.00; Copper := 5.52; Nickel := 6.96;
                     UpdatedAt := clock firstFeedUp (clockReads initialState) |} in
    ((Some prices, None),
     {| cachedPrices := Some prices;
        lastFetchTime := clock firstFeedUp (S (clockReads initialState));
        clockReads := S (S (clockReads initialState));
        httpLog := goldPriceOrgURL :: httpLog initialState |}).
Proof.
  apply (cold_start_on_first_feed firstFeedUp initialState 2701.25 31.5 []);
    reflexivity.
Defined.

(** The loop of [fetchMetalsLive] keeps, for each metal, the price of the
    last record that names it, and the starting price when none does. *)
Lemma setMetal_fold items init :
  fold_left setMetal items init =
    {| Gold := lastPriceOr (Gold init) "gold" items;
       Silver := lastPriceOr (Silver init) "silver" items;
       Platinum := lastPriceOr (Platinum init) "platinum" items;
       Palladium := lastPriceOr (Palladium init) "palladium" items;
       Copper := lastPriceOr (Copper init) "copper" items;
       Nickel := lastPriceOr (Nickel init) "nickel" items;
       UpdatedAt := UpdatedAt init |}.
Proof.
  induction items as [|[metal price] items IH] using rev_ind.
  - destruct init; reflexivity.
  - rewrite fold_left_app. cbn [fold_left]. rewrite IH.
    unfold lastPriceOr. rewrite rev_app_distr. cbn [rev app find fst snd].
    unfold setMetal.
    destruct (String.eqb_spec metal "gold") as [->|Hgold]; [reflexivity|].
    destruct (String.eqb_spec metal "silver") as [->|Hsilver]; [reflexivity|].
    destruct (String.eqb_spec metal "platinum") as [->|Hplatinum]; [reflexivity|].
    destruct (String.eqb_spec metal "palladium") as [->|Hpalladium]; [reflexivity|].
    destruct (String.eqb_spec metal "copper") as [->|Hcopper]; [reflexivity|].
    destruct (String.eqb_spec metal "nickel") as [->|Hnickel]; reflexivity.
Qed.

(** The second feed: of several records for one metal the last one counts,
    records for other metals are ignored, and a metal without a record is
    priced 0; the feed fails exactly when that leaves gold or silver at 0. *)
Theorem second_feed_last_record_wins w s items :
  metalsLive w (List.length (httpLog s)) = MLItems items ->
  fst (fetchMetalsLive w s) =
    if (lastPriceOf "gold" items =? 0)%float
       || (lastPriceOf "silver" items =? 0)%float
    then (None, Some "incomplete price data")
    else (Some {| Gold := lastPriceOf "gold" items;
                  Silver := lastPriceOf "silver" items;
                  Platinum := lastPriceOf "platinum" items;
                  Palladium := lastPriceOf "palladium" items;
                  Copper := lastPriceOf "copper" items;
                  Nickel := lastPriceOf "nickel" items;
                  UpdatedAt := clock w (clockReads s) |}, None).
Proof.
  intros Hreply. rewrite fetchMetalsLive_reply. cbv zeta. rewrite Hreply.
  rewrite setMetal_fold. cbn [Gold Silver Platinum Palladium Copper Nickel UpdatedAt].
  unfold lastPriceOf.
  destruct ((lastPriceOr 0 "gold" items =? 0)%float
            || (lastPriceOr 0 "silver" items =? 0)%float); reflexivity.
Qed.

Lemma second_feed_last_record_wins_witness :
  let items := [("gold", 2700); ("silver", 31); ("gold", 2702);
                ("rhodium", 4500)]%float in
  fst (fetchMetalsLive
         {| clock := fun _ => 7%Z; goldPriceOrg := fun _ => GPItems [];
            metalsLive := fun _ => MLItems items |} initialState) =
    if (lastPriceOf "gold" items =? 0)%float
       || (lastPriceOf "silver" items =? 0)%float
    then (None, Some "incomplete price data")
    else (Some {| Gold := lastPriceOf "gold" items;
                  Silver := lastPriceOf "silver" items;
                  Platinum := lastPriceOf "platinum" items;
                  Palladium := lastPriceOf "palladium" items;
                  Copper := lastPriceOf "copper" items;
                  Nickel := lastPriceOf "nickel" items;
                  UpdatedAt := 7%Z |}, None).
Proof.
  apply (second_feed_last_record_wins
           {| clock := fun _ => 7%Z; goldPriceOrg := fun _ => GPItems [];
              metalsLive := fun _ =>
                MLItems [("gold", 2700); ("silver", 31); ("gold", 2702);
                         ("rhodium", 4500)]%float |} initialState).
  reflexivity.
Defined.

Example second_feed_duplicate_gold :
  lastPriceOf "gold" [("gold", 2700); ("silver", 31); ("gold", 2702)]%float
    = 2702%float.
Proof. reflexivity. Qed.

(** A manual update decides the melt values that follow: within 15 minutes
    of it, in any world, a gold, silver, platinum or palladium piece is
    valued at the price passed to the update, and a base-metal piece at the
    constant copper and nickel prices. *)
Theorem manual_prices_drive_melt_value gold silver platinum palladium w s w'
    weight purity weightGrams copperPercent nickelPercent :
  let s1 := snd (UpdateSpotPricesManually gold silver platinum palladium w s) in
  (clock w' (clockReads s1) - lastFetchTime s1 < cacheDuration)%Z ->
  fst (CalculateMeltValue "gold" weight purity w' s1) =
    Returned (weight * (purity / 100.0) * gold) None /\
  fst (CalculateMeltValue "silver" weight purity w' s1) =
    Returned (weight * (purity / 100.0) * silver) None /\
  fst (CalculateMeltValue "platinum" weight purity w' s1) =
    Returned (weight * (purity / 100.0) * platinum) None /\
  fst (CalculateMeltValue "palladium" weight purity w' s1) =
    Returned (weight * (purity / 100.0) * palladium) None /\
  fst (CalculateBaseMeltValue weightGrams copperPercent nickelPercent w' s1) =
    Returned (weightGrams / 453.592 * (copperPercent / 100.0) * 5.52
              + weightGrams / 453.592 * (nickelPercent / 100.0) * 6.96) None.
Proof.
  cbv zeta. intros Hage.
  set (s1 := snd (UpdateSpotPricesManually gold silver platinum palladium w s)) in *.
  assert (Hcache : cachedPrices s1 =
            Some {| Gold := gold; Silver := silver; Platinum := platinum;
                    Palladium := palladium; Copper := 5.52; Nickel := 6.96;
                    UpdatedAt := clock w (clockReads s) |}) by reflexivity.
  destruct (GetSpotPrices_fresh w' s1 _ Hcache Hage) as (Hret & _).
  rewrite !(CalculateMeltValue_on _ _ _ _ _ _ Hret).
  rewrite (CalculateBaseMeltValue_on _ _ _ _ _ _ Hret).
  repeat split; reflexivity.
Qed.

Lemma manual_prices_drive_melt_value_witness :
  let s1 := snd (UpdateSpotPricesManually 3000 40 1000 1100 deadFeeds initialState) in
  fst (CalculateMeltValue "gold" 1 91.67 deadFeeds s1) =
    Returned (1 * (91.67 / 100.0) * 3000) None /\
  fst (CalculateMeltValue "silver" 1 91.67 deadFeeds s1) =
    Returned (1 * (91.67 / 100.0) * 40) None /\
  fst (CalculateMeltValue "platinum" 1 91.67 deadFeeds s1) =
    Returned (1 * (91.67 / 100.0) * 1000) None /\
  fst (CalculateMeltValue "palladium" 1 91.67 deadFeeds s1) =
    Returned (1 * (91.67 / 100.0) * 1100) None /\
  fst (CalculateBaseMeltValue 5 75 25 deadFeeds s1) =
    Returned (5 / 453.592 * (75 / 100.0) * 5.52
              + 5 / 453.592 * (25 / 100.0) * 6.96) None.
Proof.
  apply (manual_prices_drive_melt_value 3000 40 1000 1100 deadFeeds initialState
           deadFeeds 1 91.67 5 75 25).
  reflexivity.
Defined.

End OracleMore.

(** ** The callers in the handlers *)

Section Handlers.

(** *** The calculators never panic, and cost one call of the oracle *)

Lemma CalculateMeltValue_returns metalType weight purity w s :
  exists value err,
    fst (CalculateMeltValue metalType weight purity w s) = Returned value err.
Proof.
  destruct (GetSpotPrices_returns w s) as [prices Hspot].
  rewrite (CalculateMeltValue_on prices _ _ _ _ _ Hspot).
  repeat match goal with |- context [if ?b then _ else _] => destruct b end;
    eauto.
Qed.

Lemma CalculateMeltValueFromComposition_returns comp w s :
  exists value err,
    fst (CalculateMeltValueFromComposition comp w s) = Returned value err.
Proof.
  unfold CalculateMeltValueFromComposition. destruct (IsBaseMetal comp).
  - destruct (GetSpotPrices_returns w s) as [prices Hspot].
    rewrite (CalculateBaseMeltValue_on prices _ _ _ _ _ Hspot). eauto.
  - apply CalculateMeltValue_returns.
Qed.


(** The answer of the melt-value endpoint, by the outcome of the
    calculator. *)
Lemma melt_value_endpoint_on req w s :
  fst (handlers.CalculateMeltValue (Some req) w s) =
    match fst (CalculateMeltValue (handlers.ReqMetalType req)
                 (handlers.ReqWeight req) (handlers.ReqPurity req) w s) with
    | NilDereference => None
    | Returned _ (Some err) =>
        Some (handlers.Written
                {| handlers.status := handlers.StatusInternalServerError;
                   handlers.body := handlers.ErrorBody err |})
    | Returned meltValue None =>
        Some (if handlers.meltValueEncodes meltValue (handlers.ReqWeight req)
                   (handlers.ReqPurity req)
              then
                handlers.Written
                  {| handlers.status := handlers.StatusOK;
                     handlers.body :=
                       handlers.MeltValueBody meltValue
                         (handlers.ReqMetalType req) (handlers.ReqWeight req)
                         (handlers.ReqPurity req) |}
              else handlers.NotEncoded handlers.StatusOK)
    end.
Proof.
  unfold handlers.CalculateMeltValue, bind, ret.
  destruct (CalculateMeltValue (handlers.ReqMetalType req) (handlers.ReqWeight req)
              (handlers.ReqPurity req) w s) as [[value [err|]|] s1];
    cbn [fst]; try reflexivity.
  destruct (handlers.meltValueEncodes value (handlers.ReqWeight req)
              (handlers.ReqPurity req)); reflexivity.
Qed.

(** The case of a metal type the calculator knows. *)
Ltac known_metal :=
  cbn [orb];
  eexists; split; [reflexivity|]; split;
  [ intros _; eexists; split; reflexivity
  | intros H; exfalso; apply H; auto 8 ].

(** The melt-value endpoint never panics in the handler.  It answers 400
    when the request does not bind.  With a bound request whose metal type is
    outside gold, silver, platinum, palladium, copper and nickel it answers
    500 with the message "unsupported metal type: " and the type.  With one
    of the six, the calculator returns a value and no error, and the answer
    is 200 with the value and the request's three fields exactly when the
    value, the weight and the purity are numbers that the encoder takes;
    otherwise the status is set to 200 and no body is written. *)
Theorem melt_value_endpoint_status bound w s :
  exists sent,
    fst (handlers.CalculateMeltValue bound w s) = Some sent /\
    match bound with
    | None =>
        sent =
          handlers.Written
            {| handlers.status := handlers.StatusBadRequest;
               handlers.body := handlers.ErrorBody "Invalid request parameters" |}
    | Some req =>
        (knownMetal (handlers.ReqMetalType req) ->
         exists value,
           fst (CalculateMeltValue (handlers.ReqMetalType req)
                  (handlers.ReqWeight req) (handlers.ReqPurity req) w s) =
             Returned value None /\
           sent =
             if handlers.jsonFloat value
                && handlers.jsonFloat (handlers.ReqWeight req)
                && handlers.jsonFloat (handlers.ReqPurity req)
             then
               handlers.Written
                 {| handlers.status := handlers.StatusOK;
                    handlers.body :=
                      handlers.MeltValueBody value (handlers.ReqMetalType req)
                        (handlers.ReqWeight req) (handlers.ReqPurity req) |}
             else handlers.NotEncoded handlers.StatusOK) /\
        (~ knownMetal (handlers.ReqMetalType req) ->
         sent =
           handlers.Written
             {| handlers.status := handlers.StatusInternalServerError;
                handlers.body :=
                  handlers.ErrorBody
                    (String.append "unsupported metal type: "
                       (handlers.ReqMetalType req)) |})
    end.
Proof.
  destruct bound as [req|]; [|eexists; split; reflexivity].
  rewrite melt_value_endpoint_on.
  destruct (GetSpotPrices_returns w s) as [prices Hspot].
  rewrite (CalculateMeltValue_on prices _ _ _ w s Hspot).
  unfold knownMetal, handlers.meltValueEncodes. simpl In.
  destruct (String.eqb_spec (handlers.ReqMetalType req) "gold");
    [known_metal|].
  destruct (String.eqb_spec (handlers.ReqMetalType req) "silver");
    [known_metal|].
  destruct (String.eqb_spec (handlers.ReqMetalType req) "platinum");
    [known_metal|].
  destruct (String.eqb_spec (handlers.ReqMetalType req) "palladium");
    [known_metal|].
  destruct (String.eqb_spec (handlers.ReqMetalType req) "copper");
    [known_metal|].
  destruct (String.eqb_spec (handlers.ReqMetalType req) "nickel");
    [known_metal|].
  eexists. split; [reflexivity|]. split; [|reflexivity].
  intros [H|[H|[H|[H|[H|[H|[]]]]]]]; congruence.
Qed.

(** 1e308 troy ounces of gold at purity 100, priced with the static
    snapshot, overflow to +Inf, which the encoder refuses: no body is
    written.  A Morgan dollar is answered with its melt value. *)
Example melt_value_endpoint_overflow :
  fst (handlers.CalculateMeltValue
         (Some {| handlers.ReqMetalType := "gold"; handlers.ReqWeight := 1e308;
                  handlers.ReqPurity := 100 |}) deadFeeds initialState) =
    Some (handlers.NotEncoded handlers.StatusOK) /\
  fst (handlers.CalculateMeltValue
         (Some {| handlers.ReqMetalType := "silver";
                  handlers.ReqWeight := 0.77344; handlers.ReqPurity := 90 |})
         deadFeeds initialState) =
    Some (handlers.Written
            {| handlers.status := handlers.StatusOK;
               handlers.body :=
                 handlers.MeltValueBody (0.77344 * (90 / 100.0) * 30.50)
                   "silver" 0.77344 90 |}).
Proof. split; vm_compute; reflexivity. Qed.

(** The composition endpoint: 400 for an empty coin type; 404 exactly when
    neither the coin type nor its normal form is a key of the catalog; 200
    otherwise, with the entry of the coin type itself when it is a key and
    else the entry of its normal form. *)
Theorem composition_endpoint_status coinType :
  handlers.GetCoinComposition coinType =
    if String.eqb coinType "" then
      {| handlers.status := handlers.StatusBadRequest;
         handlers.body :=
           handlers.ErrorBody "coin_type query parameter is required" |}
    else
      match CommonCompositions !! coinType with
      | Some entry =>
          {| handlers.status := handlers.StatusOK;
             handlers.body := handlers.CompositionBody entry |}
      | None =>
          match CommonCompositions !! normalizeCoinType coinType with
          | Some entry =>
              {| handlers.status := handlers.StatusOK;
                 handlers.body := handlers.CompositionBody entry |}
          | None =>
              {| handlers.status := handlers.StatusNotFound;
                 handlers.body :=
                   handlers.ErrorBody "Composition not found for this coin type" |}
          end
      end.
Proof.
  unfold handlers.GetCoinComposition. rewrite GetComposition_hit_or_miss.
  destruct (String.eqb coinType ""); [reflexivity|].
  destruct (CommonCompositions !! coinType); [reflexivity|].
  destruct (CommonCompositions !! normalizeCoinType coinType); reflexivity.
Qed.

(** *** Filling in a new coin *)

(** Case analysis on how a calculator call ends, its panic excluded. *)
Ltac by_outcome :=
  match goal with
  | |- context [CalculateMeltValueFromComposition ?comp ?w ?s] =>
      let H := fresh "Hreturns" in
      pose proof (CalculateMeltValueFromComposition_returns comp w s) as H;
      destruct (CalculateMeltValueFromComposition comp w s) as [[? [?|]|] ?];
      [ clear H | clear H
      | exfalso; destruct H as (? & ? & H); discriminate H ]
  | |- context [CalculateMeltValue ?m ?x ?p ?w ?s] =>
      let H := fresh "Hreturns" in
      pose proof (CalculateMeltValue_returns m x p w s) as H;
      destruct (CalculateMeltValue m x p w s) as [[? [?|]|] ?];
      [ clear H | clear H
      | exfalso; destruct H as (? & ? & H); discriminate H ]
  end.

(** Reading fields through the field assignments. *)
Ltac coin_fields :=
  cbn [models.ID models.PortfolioID models.CoinType models.Year models.MintMark
       models.Denomination models.PCGSCertNumber models.PurchasePrice
       models.PurchaseDate models.CurrentValue models.NumismaticValue
       models.LastPriceUpdate models.ImageURL models.ThumbnailURL models.Notes
       models.Quantity models.MetalType models.MetalWeight models.MetalPurity
       models.CreatedAt models.UpdatedAt
       models.setQuantity models.setMetalType models.setMetalWeight
       models.setMetalPurity models.setCurrentValue models.setLastPriceUpdate].

(** [CreateCoin] fills a coin without panicking, and writes nothing but the
    quantity, the metal data and the current value.  A quantity of 0 becomes
    1.  The metal data is replaced as a whole by the composition's when some
    metal field of the request is unset and the composition is found (by year
    for a positive year, by name otherwise), and is kept as sent in every
    other case. *)
Theorem fillNewCoin_writes coin w s :
  exists filled,
    fst (handlers.fillNewCoin coin w s) = Some filled /\
    description filled = description coin /\
    models.LastPriceUpdate filled = models.LastPriceUpdate coin /\
    models.Quantity filled =
      (if (models.Quantity coin =? 0)%Z then 1%Z else models.Quantity coin) /\
    metalData filled =
      if handlers.lacksMetalField coin
         && snd (resolveComposition (models.CoinType coin) (models.Year coin))
      then metalDataOf
             (fst (resolveComposition (models.CoinType coin) (models.Year coin)))
      else metalData coin.
Proof.
  destruct coin as [id pid ctype year mint den cert pp pd cv nv lpu img thumb
                    notes qty mtype mweight mpurity created updated].
  unfold handlers.fillNewCoin, bind, ret, handlers.lacksMetalField,
    handlers.hasMetalData, metalData, metalDataOf, description.
  cbn [models.Quantity].
  destruct (qty =? 0)%Z; coin_fields;
    (destruct (resolveComposition ctype year) as [comp found]; cbn [fst snd];
     destruct (String.eqb mtype "" || (mweight =? 0)%float || (mpurity =? 0)%float);
     cbn [andb];
     [ destruct found; [ by_outcome; coin_fields | ] | ];
     repeat match goal with
            | |- context [if ?b then _ else _] => destruct b
            end;
     try by_outcome;
     eexists; split; try reflexivity; repeat split).
Qed.

(** *** Updating a coin *)

(** [UpdateCoin] merges the metal fields without panicking and writes
    nothing but the metal data, the current value and its date.  A metal
    field sent in the request is stored as sent, and a field that is not
    sent but already set on the coin is kept: the composition only fills
    fields that are unset on both. *)
Theorem applyMetalUpdate_writes req coin w s :
  exists updated,
    fst (handlers.applyMetalUpdate req coin w s) = Some updated /\
    description updated = description coin /\
    models.Quantity updated = models.Quantity coin /\
    (String.eqb (handlers.UpdateCoinRequest.MetalType req) "" = false ->
     models.MetalType updated = handlers.UpdateCoinRequest.MetalType req) /\
    ((handlers.UpdateCoinRequest.MetalWeight req =? 0)%float = false ->
     models.MetalWeight updated = handlers.UpdateCoinRequest.MetalWeight req) /\
    ((handlers.UpdateCoinRequest.MetalPurity req =? 0)%float = false ->
     models.MetalPurity updated = handlers.UpdateCoinRequest.MetalPurity req) /\
    (String.eqb (handlers.UpdateCoinRequest.MetalType req) "" = true ->
     String.eqb (models.MetalType coin) "" = false ->
     models.MetalType updated = models.MetalType coin) /\
    ((handlers.UpdateCoinRequest.MetalWeight req =? 0)%float = true ->
     (models.MetalWeight coin =? 0)%float = false ->
     models.MetalWeight updated = models.MetalWeight coin) /\
    ((handlers.UpdateCoinRequest.MetalPurity req =? 0)%float = true ->
     (models.MetalPurity coin =? 0)%float = false ->
     models.MetalPurity updated = models.MetalPurity coin).
Proof.
  destruct coin as [id pid ctype year mint den cert pp pd cv nv lpu img thumb
                    notes qty mtype mweight mpurity created updated].
  destruct req as [rpid rctype ryear rmint rden rcert rpp rcv rnv rnotes rqty
                   rmtype rmweight rmpurity].
  unfold handlers.applyMetalUpdate, handlers.setPricedNow, bind, ret, timeNow,
    handlers.lacksMetalField, handlers.hasMetalData, description.
  cbn [handlers.UpdateCoinRequest.MetalType handlers.UpdateCoinRequest.MetalWeight
       handlers.UpdateCoinRequest.MetalPurity handlers.UpdateCoinRequest.CoinType
       handlers.UpdateCoinRequest.Year].
  destruct (String.eqb rmtype "") eqn:E1, (rmweight =? 0)%float eqn:E2,
           (rmpurity =? 0)%float eqn:E3;
    cbn [negb]; coin_fields;
    (destruct (String.eqb mtype "") eqn:E4, (mweight =? 0)%float eqn:E5,
              (mpurity =? 0)%float eqn:E6;
     destruct (resolveComposition ctype year) as [comp found];
     repeat (coin_fields; rewrite ?E1, ?E2, ?E3, ?E4, ?E5, ?E6;
             cbn [orb andb negb];
             first [ by_outcome
                   | match goal with
                     | |- context [if ?b then _ else _] => destruct b
                     end ]);
     coin_fields; rewrite ?E1, ?E2, ?E3, ?E4, ?E5, ?E6; cbn [orb andb negb];
     eexists; split; try reflexivity; repeat split; intros; congruence).
Qed.

(** [CreateCoin] and the current value of the request: when a metal field
    is unset and the composition is found, the value stored is the melt value
    of the composition, whatever current value the request carried, provided
    that melt value is computed without error and is not 0, or the
    composition has no positive weight and purity. *)
Theorem fillNewCoin_current_value coin comp value w s :
  handlers.lacksMetalField coin = true ->
  resolveComposition (models.CoinType coin) (models.Year coin) = (comp, true) ->
  fst (CalculateMeltValueFromComposition comp w s) = Returned value None ->
  (value =? 0)%float = false \/ carriesMetalData comp = false ->
  exists filled,
    fst (handlers.fillNewCoin coin w s) = Some filled /\
    models.CurrentValue filled = value.
Proof.
  destruct coin as [id pid ctype year mint den cert pp pd cv nv lpu img thumb
                    notes qty mtype mweight mpurity created updated].
  unfold handlers.lacksMetalField, handlers.fillNewCoin, bind, ret,
    handlers.lacksMetalField, handlers.hasMetalData, carriesMetalData.
  coin_fields. intros Hlacks Hfound Hcalc Hkeep.
  destruct (qty =? 0)%Z; coin_fields; rewrite Hlacks, Hfound;
    (destruct (CalculateMeltValueFromComposition comp w s) as [outcome s1];
     simpl in Hcalc; subst outcome; coin_fields;
     destruct Hkeep as [-> | ->]; rewrite ?andb_false_r; cbn [andb];
     eexists; split; reflexivity).
Qed.

Lemma fillNewCoin_current_value_witness :
  exists filled,
    fst (handlers.fillNewCoin (bareCoin "Eisenhower Dollar" 1978 5.00)
           deadFeeds initialState) = Some filled /\
    models.CurrentValue filled = 0%float.
Proof.
  apply (fillNewCoin_current_value (bareCoin "Eisenhower Dollar" 1978 5.00)
           (fst (resolveComposition "Eisenhower Dollar" 1978)) 0 deadFeeds
           initialState).
  - reflexivity.
  - vm_compute. reflexivity.
  - vm_compute. reflexivity.
  - right. vm_compute. reflexivity.
Defined.

(** A clad coin created with a current value of 5.00 and no metal data is
    stored with the composition's metal data and the melt value 0. *)
Example fillNewCoin_clad :
  let filled := fst (handlers.fillNewCoin (bareCoin "Eisenhower Dollar" 1978 5.00)
                       deadFeeds initialState) in
  option_map metalData filled = Some ("copper", 0, 0)%float /\
  option_map models.CurrentValue filled = Some 0%float /\
  option_map models.Quantity filled = Some 1%Z.
Proof. repeat split; vm_compute; reflexivity. Qed.

(** *** Backfilling metal data *)

(** A coin that lacks metal data and whose composition is found is handed to
    the save with the composition's metal data and nothing else of its
    description changed.  A later pass skips it exactly when that composition
    names a metal and has a positive weight and purity: a clad or base-metal
    coin, whose composition has weight 0, is looked up and saved again on
    every pass. *)
Theorem backfill_then_skip coin comp w s :
  handlers.hasMetalData coin = false ->
  resolveComposition (models.CoinType coin) (models.Year coin) = (comp, true) ->
  exists saved,
    fst (handlers.backfillCoin coin w s) = Some (handlers.ToSave saved) /\
    metalData saved = metalDataOf comp /\
    description saved = description coin /\
    handlers.hasMetalData saved = carriesMetalData comp /\
    (carriesMetalData comp = true ->
     forall w' s',
       handlers.backfillCoin saved w' s' = (Some handlers.Skipped, s')) /\
    (carriesMetalData comp = false ->
     forall w' s',
       exists again,
         fst (handlers.backfillCoin saved w' s') = Some (handlers.ToSave again) /\
         metalData again = metalDataOf comp).
Proof.
  intros Hlacks Hfound.
  assert (Hagain : forall saved w' s',
            models.CoinType saved = models.CoinType coin ->
            models.Year saved = models.Year coin ->
            handlers.hasMetalData saved = false ->
            exists again,
              fst (handlers.backfillCoin saved w' s') = Some (handlers.ToSave again) /\
              metalData again = metalDataOf comp /\
              description again = description saved).
  { intros saved w' s' Ht Hy Hl. unfold handlers.backfillCoin, bind, ret.
    rewrite Hl, Ht, Hy, Hfound.
    destruct saved. by_outcome; eexists; repeat split. }
  destruct (Hagain coin w s eq_refl eq_refl Hlacks) as (saved & Hsave & Hdata & Hdesc).
  exists saved. split; [exact Hsave|]. split; [exact Hdata|]. split; [exact Hdesc|].
  assert (Hhas : handlers.hasMetalData saved = carriesMetalData comp).
  { unfold handlers.hasMetalData, carriesMetalData.
    unfold metalData, metalDataOf in Hdata. injection Hdata as -> -> ->.
    reflexivity. }
  split; [exact Hhas|]. split; intros Ec w' s'.
  - unfold handlers.backfillCoin. rewrite Hhas, Ec. reflexivity.
  - assert (Ht : models.CoinType saved = models.CoinType coin)
      by (unfold description in Hdesc; congruence).
    assert (Hy : models.Year saved = models.Year coin)
      by (unfold description in Hdesc; congruence).
    rewrite Ec in Hhas.
    destruct (Hagain saved w' s' Ht Hy Hhas) as (again & Hs & Hd & _).
    exists again. auto.
Qed.

Lemma backfill_then_skip_witness :
  let coin := bareCoin "Morgan Dollar" 1921 0 in
  let comp := fst (resolveComposition "Morgan Dollar" 1921) in
  exists saved,
    fst (handlers.backfillCoin coin deadFeeds initialState) =
      Some (handlers.ToSave saved) /\
    metalData saved = metalDataOf comp /\
    description saved = description coin /\
    handlers.hasMetalData saved = carriesMetalData comp /\
    (carriesMetalData comp = true ->
     forall w' s',
       handlers.backfillCoin saved w' s' = (Some handlers.Skipped, s')) /\
    (carriesMetalData comp = false ->
     forall w' s',
       exists again,
         fst (handlers.backfillCoin saved w' s') = Some (handlers.ToSave again) /\
         metalData again = metalDataOf comp).
Proof.
  apply (backfill_then_skip (bareCoin "Morgan Dollar" 1921 0)
           (fst (resolveComposition "Morgan Dollar" 1921)) deadFeeds initialState).
  - reflexivity.
  - vm_compute. reflexivity.
Defined.

(** A silver coin is complete after one pass; a nickel never is. *)
Example backfill_metal_data :
  carriesMetalData (fst (resolveComposition "Morgan Dollar" 1921)) = true /\
  carriesMetalData (fst (resolveComposition "Buffalo Nickel" 1936)) = false /\
  carriesMetalData (fst (resolveComposition "Washington Quarter" 1999)) = false.
Proof. repeat split; vm_compute; reflexivity. Qed.

(** *** Price history *)

Lemma positive_nonneg x : (0 <? x)%float = true -> nonneg x.
Proof.
  unfold nonneg. rewrite FloatAxioms.ltb_spec, FloatAxioms.leb_spec.
  unfold SFltb, SFleb. destruct (SFcompare (Prim2SF 0) (Prim2SF x)) as [[| |]|];
    congruence.
Qed.

(** The melt value recorded for a coin: no panic, no error passed on. *)
Lemma currentMeltValue_spec coin prices w s :
  fst (GetSpotPrices w s) = (Some prices, None) ->
  nonnegPrices prices ->
  exists value,
    fst (handlers.currentMeltValue coin w s) = Some value /\
    notNegative value /\
    (handlers.hasMetalData coin = false \/ ~ knownMetal (models.MetalType coin) ->
     value = 0%float).
Proof.
  intros Hspot Hprices. unfold handlers.currentMeltValue, bind, ret.
  destruct (handlers.hasMetalData coin) eqn:Ehas.
  - unfold handlers.hasMetalData in Ehas.
    apply andb_true_iff in Ehas as [Ehas Hp]. apply andb_true_iff in Ehas as [_ Hw].
    destruct (CalculateMeltValue_notNegative prices (models.MetalType coin)
                (models.MetalWeight coin) (models.MetalPurity coin) w s Hspot Hprices
                (positive_nonneg _ Hw) (positive_nonneg _ Hp))
      as (v & e & Hv & Hok & He).
    pose proof (CalculateMeltValue_on prices (models.MetalType coin)
                  (models.MetalWeight coin) (models.MetalPurity coin) w s Hspot) as Hon.
    destruct (CalculateMeltValue (models.MetalType coin) (models.MetalWeight coin)
                (models.MetalPurity coin) w s) as [outcome s1].
    simpl in Hv, Hon. subst outcome. destruct e as [e|]; simpl.
    + exists 0%float. repeat split; reflexivity.
    + exists v. split; [reflexivity|]. split; [apply signOk_notNegative, Hok|].
      intros [Hf|Hunknown]; [discriminate Hf|].
      unfold knownMetal in Hunknown. simpl in Hunknown.
      repeat match type of Hon with
             | context [String.eqb ?a ?b] =>
                 destruct (String.eqb_spec a b);
                 [exfalso; apply Hunknown; auto 8|]
             end.
      simpl in Hon. congruence.
  - exists 0%float. repeat split; reflexivity.
Qed.

(** The record of a price snapshot: it is always created (no panic, no
    error of the calculator passed on), for the coin asked; with non-negative
    spot prices its melt value is never negative, whatever the coin holds; it
    is 0 when the coin's metal data is incomplete or its metal type is
    outside the six known ones; the numismatic value is the coin's and the
    PCGS value is 0. *)
Theorem price_snapshot_record coinUUID coin prices w s :
  fst (GetSpotPrices w s) = (Some prices, None) ->
  nonnegPrices prices ->
  exists history,
    fst (handlers.priceSnapshot coinUUID coin w s) = Some history /\
    models.CoinID history = coinUUID /\
    notNegative (models.MeltValue history) /\
    (handlers.hasMetalData coin = false \/ ~ knownMetal (models.MetalType coin) ->
     models.MeltValue history = 0%float) /\
    models.HistoryNumismaticValue history = models.NumismaticValue coin /\
    models.PCGSValue history = 0%float.
Proof.
  intros Hspot Hprices.
  destruct (currentMeltValue_spec coin prices w s Hspot Hprices)
    as (value & Hvalue & Hneg & Hzero).
  unfold handlers.priceSnapshot, bind, ret, timeNow.
  destruct (handlers.currentMeltValue coin w s) as [melt s1].
  simpl in Hvalue. subst melt. eexists. split; [reflexivity|].
  simpl. auto.
Qed.

Lemma price_snapshot_record_witness :
  exists history,
    fst (handlers.priceSnapshot 42%N (bareCoin "Morgan Dollar" 1921 0)
           deadFeeds initialState) = Some history /\
    models.CoinID history = 42%N /\
    notNegative (models.MeltValue history) /\
    (handlers.hasMetalData (bareCoin "Morgan Dollar" 1921 0) = false
     \/ ~ knownMetal (models.MetalType (bareCoin "Morgan Dollar" 1921 0)) ->
     models.MeltValue history = 0%float) /\
    models.HistoryNumismaticValue history =
      models.NumismaticValue (bareCoin "Morgan Dollar" 1921 0) /\
    models.PCGSValue history = 0%float.
Proof.
  apply (price_snapshot_record 42%N (bareCoin "Morgan Dollar" 1921 0)
           (staticFallback 0) deadFeeds initialState).
  - reflexivity.
  - repeat split; reflexivity.
Defined.

End Handlers.
